(** * Order lifecycle and deferred-payment scheduling: a shallow embedding

    The development embeds three Python modules of the bot

    - [bot/pricing.py]            ([PricingManager]: subtotal, discount, tax),
    - [bot/payment_scheduler.py]  ([PaymentScheduler]: 60/90-day schedules),
    - [bot/order_server.py]       ([OrderManagementServer]: order records),

    and, around them, the shopping cart of [bot/cart.py] ([CartManager]),
    the routing of button presses in [bot/handlers.py] and the buttons of
    [bot/payment_reminder.py].

    Python values are modelled as the code has them: [int] as [Z], [float] as
    an IEEE-754 binary64 value ([spec_float] with [prec = 53], [emax = 1024]),
    [str] as [string], a JSON object with optional keys as a record with
    [option] fields, a [dict] as an association list in insertion order, an
    exception as the [Raise] branch of [result]. *)

From Stdlib Require Import ZArith List Bool Lia String Ascii.
From Stdlib Require Import Sorted Permutation.
From Stdlib Require OrderedTypeEx.
From Stdlib Require Import Floats.SpecFloat.
Import ListNotations.
Open Scope string_scope.
Open Scope Z_scope.

Set Implicit Arguments.

(* ------------------------------------------------------------------ *)
(** ** Exceptions and results *)

Inductive exn : Type :=
| KeyError (key : string)
| ValueError
| OverflowError
| ZeroDivisionError
| OSError.

Inductive result (A : Type) : Type :=
| Ok (a : A)
| Raise (e : exn).
Arguments Ok {A} a.
Arguments Raise {A} e.

Definition rbind {A B} (r : result A) (k : A -> result B) : result B :=
  match r with
  | Ok a => k a
  | Raise e => Raise e
  end.

Declare Scope res_scope.
Delimit Scope res_scope with res.
Notation "'let?' x ':=' r 'in' k" := (rbind r (fun x => k))
  (at level 10, x pattern, r at level 100, k at level 200) : res_scope.

(** [d[key]] on a JSON object whose key may be absent. *)
Definition getitem {A} (key : string) (o : option A) : result A :=
  match o with
  | Some a => Ok a
  | None => Raise (KeyError key)
  end.

(** [d.get(key, default)]. *)
Definition get_default {A} (o : option A) (default : A) : A :=
  match o with
  | Some a => a
  | None => default
  end.

(* ------------------------------------------------------------------ *)
(** ** Python strings *)

Module PyStr.

Definition digit_char (d : Z) : ascii := ascii_of_nat (48 + Z.to_nat d)%nat.

(** Decimal digits of a non-negative integer, most significant first. *)
Fixpoint digits_aux (fuel : nat) (n : Z) (acc : string) : string :=
  match fuel with
  | O => acc
  | S fuel' =>
      let acc' := String (digit_char (n mod 10)) acc in
      if n / 10 =? 0 then acc' else digits_aux fuel' (n / 10) acc'
  end.

Definition digits (n : Z) : string :=
  digits_aux (S (Z.to_nat (Z.log2 n))) n "".

(** [str(z)] for an [int]. *)
Definition str (z : Z) : string :=
  if z <? 0 then "-" ++ digits (- z) else digits z.

Fixpoint zeros (n : nat) : string :=
  match n with
  | O => ""
  | S n' => String "0" (zeros n')
  end.

Definition zfill (width : nat) (s : string) : string :=
  zeros (width - String.length s)%nat ++ s.

(** [f"{z:05d}"]: the sign counts in the width. *)
Definition format_05d (z : Z) : string :=
  if z <? 0 then "-" ++ zfill 4 (digits (- z)) else zfill 5 (digits z).

(** [f"{z:02d}"] for the non-negative fields of a date. *)
Definition format_02d (z : Z) : string := zfill 2 (digits z).

(** [s.startswith(p)]. *)
Definition startswith (s p : string) : bool := String.prefix p s.

(** [s.endswith(p)]. *)
Definition endswith (s p : string) : bool :=
  let ls := String.length s in
  let lp := String.length p in
  if Nat.leb lp ls then String.eqb (String.substring (ls - lp)%nat lp s) p
  else false.

(** [s.replace(old, new)] for a non-empty [old]: every occurrence, scanning
    from the left. *)
Fixpoint replace_aux (fuel : nat) (s old new : string) : string :=
  match fuel with
  | O => s
  | S fuel' =>
      if String.prefix old s then
        new ++ replace_aux fuel'
                 (String.substring (String.length old)
                    (String.length s - String.length old)%nat s) old new
      else
        match s with
        | EmptyString => EmptyString
        | String c s' => String c (replace_aux fuel' s' old new)
        end
  end.

Definition replace (s old new : string) : string :=
  replace_aux (S (String.length s)) s old new.

(** Membership of a character. *)
Fixpoint has_char (c : ascii) (s : string) : bool :=
  match s with
  | EmptyString => false
  | String c' s' => Ascii.eqb c c' || has_char c s'
  end.

End PyStr.

(* ------------------------------------------------------------------ *)
(** ** Python numbers: [int] and binary64 [float] *)

Module PyNum.

Definition prec : Z := 53.
Definition emax : Z := 1024.

Definition float := spec_float.

Inductive num : Type :=
| PInt (z : Z)
| PFloat (f : float).

Definition fmul : float -> float -> float := SFmul prec emax.
Definition fdiv : float -> float -> float := SFdiv prec emax.

(** The binary64 value nearest to the integer [z] (ties to even), infinite
    when [z] is out of range. *)
Definition nearest_of_Z (z : Z) : float := binary_normalize prec emax z 0 false.

(** [float(z)], the conversion Python applies to the [int] operand of a
    mixed operation: [OverflowError] when [z] is too large. *)
Definition float_of_int (z : Z) : result float :=
  match nearest_of_Z z with
  | S754_infinity _ => Raise OverflowError
  | f => Ok f
  end.

(** A decimal literal [p/q] written in the source (such as [0.09] for
    [9/100]): the correctly rounded quotient. *)
Definition literal (p q : positive) : float :=
  fdiv (S754_finite false p 0) (S754_finite false q 0).

(** [int(f)]: truncation towards zero. *)
Definition int_of_float (f : float) : result Z :=
  match f with
  | S754_nan => Raise ValueError
  | S754_infinity _ => Raise OverflowError
  | S754_zero _ => Ok 0
  | S754_finite s m e => Ok (cond_Zopp s (Z.shiftl (Zpos m) e))
  end.

(** [int(x)]. *)
Definition py_int (x : num) : result Z :=
  match x with
  | PInt z => Ok z
  | PFloat f => int_of_float f
  end.

(** [x * y]. *)
Definition py_mul (x y : num) : result num :=
  match x, y with
  | PInt a, PInt b => Ok (PInt (a * b))
  | PInt a, PFloat g =>
      (let? f := float_of_int a in Ok (PFloat (fmul f g)))%res
  | PFloat f, PInt b =>
      (let? g := float_of_int b in Ok (PFloat (fmul f g)))%res
  | PFloat f, PFloat g => Ok (PFloat (fmul f g))
  end.

Definition fis_zero (f : float) : bool :=
  match f with
  | S754_zero _ => true
  | _ => false
  end.

(** [a / b] on two [int]s: the correctly rounded quotient of the exact
    integers, [OverflowError] when it does not fit a float. *)
Definition int_truediv (a b : Z) : result float :=
  match a, b with
  | _, Z0 => Raise ZeroDivisionError
  | Z0, _ => Ok (S754_zero (b <? 0))
  | _, _ =>
      match fdiv (S754_finite (a <? 0) (Z.to_pos (Z.abs a)) 0)
                 (S754_finite (b <? 0) (Z.to_pos (Z.abs b)) 0) with
      | S754_infinity _ => Raise OverflowError
      | f => Ok f
      end
  end.

(** [x / y] (true division). *)
Definition py_truediv (x y : num) : result num :=
  match x, y with
  | PInt a, PInt b => (let? f := int_truediv a b in Ok (PFloat f))%res
  | PFloat f, PInt b =>
      (let? g := float_of_int b in
       if fis_zero g then Raise ZeroDivisionError
       else Ok (PFloat (fdiv f g)))%res
  | PInt a, PFloat g =>
      (let? f := float_of_int a in
       if fis_zero g then Raise ZeroDivisionError
       else Ok (PFloat (fdiv f g)))%res
  | PFloat f, PFloat g =>
      if fis_zero g then Raise ZeroDivisionError
      else Ok (PFloat (fdiv f g))
  end.

(** The value of [f] is exactly the integer [z]. *)
Definition float_value_is (f : float) (z : Z) : Prop :=
  match f with
  | S754_zero _ => z = 0
  | S754_finite s m e =>
      cond_Zopp s (Zpos m) * 2 ^ Z.max e 0 = z * 2 ^ Z.max (- e) 0
  | _ => False
  end.

(** A float is a finite number (not an infinity, not a NaN). *)
Definition ffinite (f : float) : bool :=
  match f with
  | S754_zero _ | S754_finite _ _ _ => true
  | _ => false
  end.

Definition finite (x : num) : bool :=
  match x with
  | PInt _ => true
  | PFloat f => ffinite f
  end.

End PyNum.

(* ------------------------------------------------------------------ *)
(** ** Calendar dates: [datetime] ordinals and [strftime("%Y-%m-%d")] *)

Module PyDate.

(** Proleptic Gregorian ordinal of a date, as [date.toordinal()] gives it:
    day 1 is 0001-01-01. *)
Definition max_ordinal : Z := 3652059.   (* 9999-12-31 *)

(** Year, month and day of an ordinal. *)
Definition civil (ordinal : Z) : Z * Z * Z :=
  let z := ordinal + 305 in              (* days since 0000-03-01 *)
  let era := z / 146097 in
  let doe := z mod 146097 in
  let yoe := (doe - doe / 1460 + doe / 36524 - doe / 146096) / 365 in
  let doy := doe - (365 * yoe + yoe / 4 - yoe / 100) in
  let mp := (5 * doy + 2) / 153 in
  let d := doy - (153 * mp + 2) / 5 + 1 in
  let m := if mp <? 10 then mp + 3 else mp - 9 in
  let y := yoe + era * 400 + (if m <=? 2 then 1 else 0) in
  (y, m, d).

(** [d.strftime("%Y-%m-%d")]; the C library behind it does not pad a year
    below 1000, months and days have two digits. *)
Definition strftime_ymd (ordinal : Z) : string :=
  let '(y, m, d) := civil ordinal in
  PyStr.str y ++ "-" ++ PyStr.format_02d m ++ "-" ++ PyStr.format_02d d.

(** [d + timedelta(days=n)]: [OverflowError] outside the supported range. *)
Definition add_days (ordinal n : Z) : result Z :=
  let o := ordinal + n in
  if (1 <=? o) && (o <=? max_ordinal) then Ok o else Raise OverflowError.

End PyDate.

(* ------------------------------------------------------------------ *)
(** ** Shared data *)

(** The customer snapshot ([customer] / [customer_info] dictionaries). *)
Record customer : Type := mkCustomer {
  cust_name : string;
  cust_city : string;
  cust_customer_id : string
}.

(** A [dict] with string keys, in insertion order. *)
Section Dict.
Variable V : Type.

Definition dict := list (string * V).

Definition keys (d : dict) : list string := map fst d.

(** [d.get(k)] / [k in d]. *)
Fixpoint lookup (k : string) (d : dict) : option V :=
  match d with
  | [] => None
  | (k', v) :: d' => if String.eqb k k' then Some v else lookup k d'
  end.

(** [d[k] = v]: an existing key keeps its position, a new one goes last. *)
Fixpoint setitem (k : string) (v : V) (d : dict) : dict :=
  match d with
  | [] => [(k, v)]
  | (k', v') :: d' =>
      if String.eqb k k' then (k, v) :: d' else (k', v') :: setitem k v d'
  end.

(** The dictionary without the key [k]: what is left to read once the file
    [k] holds no complete document any more. *)
Definition without (k : string) (d : dict) : dict :=
  filter (fun kv => negb (String.eqb k (fst kv))) d.
End Dict.

(** [x in l] on a list of [int]s. *)
Definition mem_Z (x : Z) (l : list Z) : bool := existsb (Z.eqb x) l.

(** [l.sort()] on a list of [int]s. *)
Fixpoint insert_Z (x : Z) (l : list Z) : list Z :=
  match l with
  | [] => [x]
  | y :: l' => if x <=? y then x :: l else y :: insert_Z x l'
  end.

Definition sort_Z (l : list Z) : list Z := fold_right insert_Z [] l.

(* ------------------------------------------------------------------ *)
(** ** [bot/payment_scheduler.py] *)

Module Scheduler.
Import PyNum.

(** One entry of [payment_schedules.json], as the two plans write it.  The
    60-day plan writes [payment_date] and [payment_type]; the 90-day plan
    writes [monthly_amount] and [payment_dates] and no [payment_type]; both
    write [payments_made].  ([schedule_payment_reminder], which the sources
    never call, would write entries of another shape, without
    [payments_made], into the same file; [mark_payment_made] raises
    [KeyError] on those.  The store holds entries of the two plans only.) *)
Record schedule : Type := mkSchedule {
  user_id : Z;
  customer_info : customer;
  order_id : string;
  total_amount : num;
  advance_paid : num;
  remaining_amount : num;
  payment_date : option string;
  payment_type : option string;
  monthly_amount : option num;
  payment_dates : option (list string);
  payments_made : list Z;
  created_date : string;
  status : string
}.

(** The content of [payment_schedules.json]; a missing file reads as [{}]. *)
Definition store := dict schedule.

(** What one call observes of its environment: [datetime.now()] as the
    ordinal of the local date and [int(today.timestamp())]; whether the
    write of the JSON file succeeds and, when it does not, whether it failed
    after [open(path, 'w')] had truncated the file (or before, the file
    being left as it was). *)
Record env : Type := mkEnv {
  today : Z;
  timestamp : Z;
  write_ok : bool;
  write_truncates : bool
}.

(** State (the file) and exceptions. *)
Definition M (A : Type) : Type := store -> result A * store.

Definition ret {A} (a : A) : M A := fun s => (Ok a, s).

Definition bind {A B} (m : M A) (k : A -> M B) : M B :=
  fun s =>
    match m s with
    | (Ok a, s') => k a s'
    | (Raise e, s') => (Raise e, s')
    end.

Definition lift {A} (r : result A) : M A := fun s => (r, s).

Declare Scope sched_scope.
Delimit Scope sched_scope with sched.
Notation "x <- m ;; k" := (bind m (fun x => k))
  (at level 61, m at next level, right associativity) : sched_scope.
Local Open Scope sched_scope.

Definition _load_payment_schedules : M store := fun s => (Ok s, s).

(** [open(path, 'w')] empties the file before [json.dump] fills it, both
    inside the [try]: a write that fails once the file is open leaves it
    empty or partial, and [_load_payment_schedules] reads such a file as
    [{}]. *)
Definition _save_payment_schedules (e : env) (schedules : store) : M bool :=
  fun s =>
    if write_ok e then (Ok true, schedules)
    else if write_truncates e then (Ok false, [])
    else (Ok false, s).

(** [f"{user_id}_{order_id}_{int(today.timestamp())}"]. *)
Definition make_schedule_id (e : env) (uid : Z) (oid : string) : string :=
  PyStr.str uid ++ "_" ++ oid ++ "_" ++ PyStr.str (timestamp e).

(** [(today + timedelta(days=n)).strftime("%Y-%m-%d")]. *)
Definition date_after (e : env) (n : Z) : result string :=
  (let? d := PyDate.add_days (today e) n in Ok (PyDate.strftime_ymd d))%res.

Definition add_60day_payment_schedule (e : env) (uid : Z) (cinfo : customer)
    (total advance remaining : num) (oid : string) : M bool :=
  schedules <- _load_payment_schedules ;;
  pdate <- lift (date_after e 60) ;;
  let schedule_id := make_schedule_id e uid oid in
  let payment_schedule :=
    {| user_id := uid; customer_info := cinfo; order_id := oid;
       total_amount := total; advance_paid := advance;
       remaining_amount := remaining;
       payment_date := Some pdate; payment_type := Some "60day";
       monthly_amount := None; payment_dates := None;
       payments_made := [];
       created_date := PyDate.strftime_ymd (today e);
       status := "active" |} in
  saved <- _save_payment_schedules e (setitem schedule_id payment_schedule schedules) ;;
  if saved : bool then ret true else ret false.

Definition add_90day_payment_schedule (e : env) (uid : Z) (cinfo : customer)
    (total advance remaining : num) (oid : string) : M bool :=
  schedules <- _load_payment_schedules ;;
  monthly <- lift (py_truediv remaining (PInt 3)) ;;
  d1 <- lift (date_after e 30) ;;
  d2 <- lift (date_after e 60) ;;
  d3 <- lift (date_after e 90) ;;
  let schedule_id := make_schedule_id e uid oid in
  let payment_schedule :=
    {| user_id := uid; customer_info := cinfo; order_id := oid;
       total_amount := total; advance_paid := advance;
       remaining_amount := remaining;
       payment_date := None; payment_type := None;
       monthly_amount := Some monthly; payment_dates := Some [d1; d2; d3];
       payments_made := [];
       created_date := PyDate.strftime_ymd (today e);
       status := "active" |} in
  saved <- _save_payment_schedules e (setitem schedule_id payment_schedule schedules) ;;
  if saved : bool then ret true else ret false.

(** An entry of the list [get_pending_reminders] returns. *)
Record reminder : Type := mkReminder {
  r_schedule_id : string;
  r_user_id : Z;
  r_customer_info : customer;
  r_payment_number : Z;
  r_payment_amount : option num;       (* 60-day entries *)
  r_monthly_amount : option num;       (* 90-day entries *)
  r_remaining_payments : option Z;     (* 90-day entries *)
  r_payment_type : string;
  r_payment_date : string
}.

(** [schedule.get('payment_type', '90day') == '60day']. *)
Definition is_60day (sch : schedule) : bool :=
  String.eqb (get_default (payment_type sch) "90day") "60day".

(** The inner loop over [enumerate(schedule['payment_dates'])], from index
    [i] on. *)
Fixpoint reminders_90day (today_s sid : string) (sch : schedule) (i : Z)
    (dates : list string) : result (list reminder) :=
  match dates with
  | [] => Ok []
  | pdate :: dates' =>
      (let? here :=
         (if String.eqb pdate today_s then
            if negb (mem_Z i (payments_made sch)) then
              let? monthly := getitem "monthly_amount" (monthly_amount sch) in
              Ok [ {| r_schedule_id := sid; r_user_id := user_id sch;
                      r_customer_info := customer_info sch;
                      r_payment_number := i + 1;
                      r_payment_amount := None;
                      r_monthly_amount := Some monthly;
                      r_remaining_payments :=
                        Some (3 - Z.of_nat (List.length (payments_made sch)));
                      r_payment_type := "90day";
                      r_payment_date := pdate |} ]
            else Ok []
          else Ok []) in
       let? rest := reminders_90day today_s sid sch (i + 1) dates' in
       Ok (here ++ rest)%list)%res
  end.

(** The body of the loop over [schedules.items()] for one entry. *)
Definition reminders_of (today_s sid : string) (sch : schedule)
    : result (list reminder) :=
  if negb (String.eqb (status sch) "active") then Ok []
  else if is_60day sch then
    (let? pdate := getitem "payment_date" (payment_date sch) in
     if String.eqb pdate today_s
        && (match payments_made sch with [] => true | _ => false end)
     then Ok [ {| r_schedule_id := sid; r_user_id := user_id sch;
                  r_customer_info := customer_info sch;
                  r_payment_number := 1;
                  r_payment_amount := Some (remaining_amount sch);
                  r_monthly_amount := None;
                  r_remaining_payments := None;
                  r_payment_type := "60day";
                  r_payment_date := pdate |} ]
     else Ok [])%res
  else
    (let? dates := getitem "payment_dates" (payment_dates sch) in
     reminders_90day today_s sid sch 0 dates)%res.

Fixpoint collect_reminders (today_s : string) (schedules : store)
    : result (list reminder) :=
  match schedules with
  | [] => Ok []
  | (sid, sch) :: rest =>
      (let? here := reminders_of today_s sid sch in
       let? more := collect_reminders today_s rest in
       Ok (here ++ more)%list)%res
  end.

Definition get_pending_reminders (e : env) : M (list reminder) :=
  schedules <- _load_payment_schedules ;;
  let today_s := PyDate.strftime_ymd (today e) in
  lift (collect_reminders today_s schedules).

(** The entry after [schedule['payments_made'] = made] and
    [schedule['status'] = st]; the other keys are untouched. *)
Definition with_payments (sch : schedule) (made : list Z) (st : string)
    : schedule :=
  {| user_id := user_id sch; customer_info := customer_info sch;
     order_id := order_id sch; total_amount := total_amount sch;
     advance_paid := advance_paid sch;
     remaining_amount := remaining_amount sch;
     payment_date := payment_date sch;
     payment_type := payment_type sch;
     monthly_amount := monthly_amount sch;
     payment_dates := payment_dates sch;
     payments_made := made;
     created_date := created_date sch;
     status := st |}.

(** The list after
    [if payment_number - 1 not in made: made.append(payment_number - 1); made.sort()]. *)
Definition made_after (made : list Z) (payment_number : Z) : list Z :=
  if negb (mem_Z (payment_number - 1) made)
  then sort_Z (made ++ [payment_number - 1])%list
  else made.

Definition mark_payment_made (e : env) (schedule_id : string)
    (payment_number : Z) : M bool :=
  schedules <- _load_payment_schedules ;;
  match lookup schedule_id schedules with
  | None => ret false
  | Some sch =>
      let sch' :=
        if is_60day sch then with_payments sch [0] "completed"
        else
          let made := made_after (payments_made sch) payment_number in
          with_payments sch made
            (if 3 <=? Z.of_nat (List.length made)
             then "completed" else status sch) in
      saved <- _save_payment_schedules e (setitem schedule_id sch' schedules) ;;
      if saved : bool then ret true else ret false
  end.

Definition cancel_payment_schedule (e : env) (schedule_id : string) : M bool :=
  schedules <- _load_payment_schedules ;;
  match lookup schedule_id schedules with
  | None => ret false
  | Some sch =>
      let sch' := with_payments sch (payments_made sch) "cancelled" in
      saved <- _save_payment_schedules e (setitem schedule_id sch' schedules) ;;
      if saved : bool then ret true else ret false
  end.

(** A run of [mark_payment_made] calls on one schedule: the file after the
    last call. *)
Definition mark_all (e : env) (sid : string) (numbers : list Z) (s : store)
    : store :=
  fold_left (fun s n => snd (mark_payment_made e sid n s)) numbers s.

(** *** Vocabulary of the properties *)

(** The lists of paid indices a 90-day schedule goes through when only the
    payment numbers 1, 2 and 3 are used. *)
Definition canonical (pm : list Z) : Prop :=
  pm = [] \/ pm = [0] \/ pm = [1] \/ pm = [2] \/
  pm = [0; 1] \/ pm = [0; 2] \/ pm = [1; 2] \/ pm = [0; 1; 2].

(** The state of one 90-day schedule along a run of calls. *)
Definition tracks (s : store) (sid : string) (pm : list Z) : Prop :=
  exists sch,
    lookup sid s = Some sch
    /\ is_60day sch = false
    /\ payments_made sch = pm
    /\ (3 <= Z.of_nat (List.length pm) -> status sch = "completed").

(** The paid indices after a run, as a fold of the single step. *)
Definition made_run (numbers : list Z) (pm : list Z) : list Z :=
  fold_left (fun pm n => made_after pm n) numbers pm.

(** What every entry produced for one schedule satisfies. *)
Definition due (today_s sid : string) (sch : schedule) (r : reminder) : Prop :=
  r_schedule_id r = sid
  /\ r_payment_date r = today_s
  /\ status sch = "active"
  /\ ~ In (r_payment_number r - 1) (payments_made sch).

(** The entries both plans write: a 60-day entry has its [payment_date], a
    90-day entry its [payment_dates] and [monthly_amount]. *)
Definition well_shaped (sch : schedule) : Prop :=
  if is_60day sch then payment_date sch <> None
  else payment_dates sch <> None /\ monthly_amount sch <> None.

End Scheduler.

(* ------------------------------------------------------------------ *)
(** ** [bot/pricing.py] *)

Module Pricing.
Import PyNum.

(** One entry of [cart_items]. *)
Record cart_item : Type := mkItem {
  product_id : string;
  product_name : string;
  size : string;
  quantity : Z;
  price : Z
}.

(** [sum(item['price'] * item['quantity'] for item in cart_items)]. *)
Definition calculate_subtotal (cart_items : list cart_item) : Z :=
  fold_left (fun acc item => acc + price item * quantity item) cart_items 0.

(** [int(subtotal * discount_rate)]. *)
Definition calculate_discount (subtotal : Z) (discount_rate : num) : result Z :=
  (let? p := py_mul (PInt subtotal) discount_rate in py_int p)%res.

(** The spec's [Σ(price × quantity)]. *)
Definition sum_price_quantity (cart_items : list cart_item) : Z :=
  fold_right (fun item acc => price item * quantity item + acc) 0 cart_items.

(** The spec's [floor(x × p/q)] for a rate given as the fraction [p/q]. *)
Definition floor_times_ratio (x p q : Z) : Z := (x * p) / q.

(** The spec's [floor(x × r)] for [r] the exact value of a finite float. *)
Definition floor_times_float (x : Z) (r : float) : Z :=
  match r with
  | S754_finite s m e => Z.shiftl (x * cond_Zopp s (Zpos m)) e
  | _ => 0
  end.

(** The integer part of the binary64 product of the integer [x] and the
    float [r]: what [int(x * r)] computes. *)
Definition floor_times_b64 (x : Z) (r : float) : result Z :=
  (let? fx := float_of_int x in int_of_float (fmul fx r))%res.

(** The integer part of the Python product [x * rate]: exact for an [int]
    rate, through binary64 for a [float] rate. *)
Definition int_times (x : Z) (rate : num) : result Z :=
  match rate with
  | PInt b => Ok (x * b)
  | PFloat r => floor_times_b64 x r
  end.

(** The literal [0.09]. *)
Definition tax_rate : float := literal 9 100.

(** [int(amount * 0.09)]. *)
Definition calculate_tax (amount : Z) : result Z :=
  (let? p := py_mul (PInt amount) (PFloat tax_rate) in py_int p)%res.

End Pricing.

(* ------------------------------------------------------------------ *)
(** ** [bot/order_server.py] *)

Module OrderStatus.
Definition PENDING := "pending".
Definition CONTACTED := "contacted".
Definition CONFIRMED := "confirmed".
Definition PREPARING := "preparing".
Definition READY := "ready".
Definition SHIPPED := "shipped".
Definition DELIVERED := "delivered".
Definition COMPLETED := "completed".
Definition CANCELLED := "cancelled".
End OrderStatus.

Module OrderServer.
Import PyNum Pricing.

Record pricing : Type := mkPricing {
  subtotal : Z;
  discount_rate : num;
  discount : Z;
  tax : Z;
  total : Z
}.

(** The [note] of a history entry.  The two notes the server words itself
    are kept as data: the creation note, and the sentence built from
    [_get_status_text(old_status)] and [_get_status_text(new_status)]. *)
Inductive note : Type :=
| NoteCreated
| NoteChanged (old_status new_status : string)
| NoteGiven (text : string).

Record history_entry : Type := mkEntry {
  h_status : string;
  h_timestamp : string;
  h_admin : option string;
  h_note : note
}.

(** The JSON document of one order. *)
Record order : Type := mkOrder {
  order_id : string;
  user_id : Z;
  customer_of : customer;
  cart_items : list cart_item;
  payment_method : string;
  pricing_of : pricing;
  status : string;
  created_at : string;
  updated_at : string;
  status_history : list history_entry;
  hesabfa_invoice_id : option string
}.

(** The texts [_notify_customer] sends: the Persian sentences are left out,
    a message is what its text is built from. *)
Inductive message : Type :=
| MsgStatus (status order_id admin_name : string)
| MsgCancelled (order_id : string) (customer_name : string)
| MsgSimple (order_id : string)
| MsgEmergency (order_id : string).

(** Effects other than reads, in the order the server performs them. *)
Inductive event : Type :=
| EvSaveOrder (path : string) (o : order)
| EvGroupInvoice (order_id : string) (receipt_photo_id : option string)
| EvSpawnInvoice (order_id : string)
| EvSend (chat_id : Z) (m : message) (delivered : bool).

(** The directory [order_data]: the counter file, the orders that can be
    loaded by the path of their file, and the effects performed so far
    (oldest first).  A file left empty or partial by a failed write holds
    no order: [_load_order] answers [None] for it and every listing skips
    it, so it has no entry in [order_files]. *)
Record world : Type := mkWorld {
  counter_file : option Z;
  order_files : dict order;
  trace : list event
}.

(** What one call observes of its environment: the successive readings of
    [datetime.now().isoformat()] and the [%H%M%S] reading of the fallback
    id; whether the counter file can be read and written, whether the order
    file can be written and, when it cannot, whether the write failed after
    [open(order_file, 'w')] had truncated the file (or before, the file
    being left as it was); the outcome of the successive
    [bot.send_message] calls to the customer; whether [set_bot] was called
    and the support group is configured. *)
Record env : Type := mkEnv {
  clock : nat -> string;
  hms : string;
  counter_io_ok : bool;
  save_ok : bool;
  save_truncates : bool;
  send_ok : nat -> bool;
  bot_set : bool;
  group_set : bool
}.

Definition M (A : Type) : Type := world -> result A * world.

Definition ret {A} (a : A) : M A := fun w => (Ok a, w).

Definition bind {A B} (m : M A) (k : A -> M B) : M B :=
  fun w =>
    match m w with
    | (Ok a, w') => k a w'
    | (Raise e, w') => (Raise e, w')
    end.

Definition lift {A} (r : result A) : M A := fun w => (r, w).

(** [try: m  except Exception: h]. *)
Definition try_except {A} (m : M A) (h : exn -> M A) : M A :=
  fun w =>
    match m w with
    | (Ok a, w') => (Ok a, w')
    | (Raise e, w') => h e w'
    end.

Definition emit (evs : list event) : M unit :=
  fun w => (Ok tt, {| counter_file := counter_file w;
                      order_files := order_files w;
                      trace := (trace w ++ evs)%list |}).

Declare Scope order_scope.
Delimit Scope order_scope with order.
Notation "x <- m ;; k" := (bind m (fun x => k))
  (at level 61, m at next level, right associativity) : order_scope.
Local Open Scope order_scope.

Definition orders_dir : string := "order_data".

(** [os.path.join(self.orders_dir, f"order_{order_id}.json")]. *)
Definition _get_order_file_path (order_id : string) : string :=
  orders_dir ++ "/" ++ "order_" ++ order_id ++ ".json".

(** [os.listdir(self.orders_dir)]: the names inside the directory.  The
    system gives them in an arbitrary order; the model lists them in one
    order, and what is stated of the listings built on it is stated up to
    the order of the names. *)
Definition listdir (w : world) : list string :=
  ((match counter_file w with
    | Some _ => ["order_counter.txt"]
    | None => []
    end) ++
   flat_map (fun p =>
               if PyStr.startswith p (orders_dir ++ "/")
               then [String.substring 11 (String.length p - 11) p]
               else [])
            (keys (order_files w)))%list.

Definition _generate_order_id (e : env) (uid : Z) : M string :=
  fun w =>
    if counter_io_ok e then
      let counter := get_default (counter_file w) 0 + 1 in
      (Ok (PyStr.format_05d counter),
       {| counter_file := Some counter;
          order_files := order_files w;
          trace := trace w |})
    else (Ok ("ORD" ++ hms e), w).

(** [open(order_file, 'w')] empties the file before [json.dump] fills it:
    a write that fails once the file is open leaves it empty or partial,
    and the order it held, if any, can no longer be loaded.  The exception
    is raised again in both cases. *)
Definition _save_order (e : env) (order_data : order) : M unit :=
  fun w =>
    let path := _get_order_file_path (order_id order_data) in
    if save_ok e then
      (Ok tt, {| counter_file := counter_file w;
                 order_files := setitem path order_data (order_files w);
                 trace := (trace w ++ [EvSaveOrder path order_data])%list |})
    else if save_truncates e then
      (Raise OSError, {| counter_file := counter_file w;
                         order_files := without path (order_files w);
                         trace := trace w |})
    else (Raise OSError, w).

Definition _load_order (order_id : string) : M (option order) :=
  fun w => (Ok (lookup (_get_order_file_path order_id) (order_files w)), w).

(** The support-group message; every failure inside is caught there. *)
Definition _send_invoice_to_support_group (e : env) (order_data : order)
    (receipt_photo_id : option string) : M unit :=
  if negb (bot_set e) then ret tt
  else if negb (group_set e) then ret tt
  else emit [EvGroupInvoice (order_id order_data) receipt_photo_id].

Definition max_retries : nat := 3.

(** The retry loop [for attempt in range(max_retries)] from [attempts] on.
    The result tells whether the loop raised (the plain message of the last
    attempt failed too). *)
Fixpoint send_with_retry (e : env) (uid : Z) (m : message) (oid : string)
    (attempts : list nat) : list event * bool :=
  match attempts with
  | [] => ([], false)
  | attempt :: rest =>
      if send_ok e attempt then ([EvSend uid m true], false)
      else if Nat.eqb attempt (max_retries - 1) then
        if send_ok e (S attempt)
        then let '(evs, raised) := send_with_retry e uid m oid rest in
             (EvSend uid m false :: EvSend uid (MsgSimple oid) true :: evs,
              raised)
        else ([EvSend uid m false; EvSend uid (MsgSimple oid) false], true)
      else
        let '(evs, raised) := send_with_retry e uid m oid rest in
        (EvSend uid m false :: evs, raised)
  end.

Definition _notify_customer (e : env) (uid : Z) (status order_id admin_name : string)
    : M unit :=
  if negb (bot_set e) then ret tt
  else
    full_message <-
      (if String.eqb status OrderStatus.CANCELLED then
         order_data <- _load_order order_id ;;
         ret (MsgCancelled order_id
                (match order_data with
                 | Some o => cust_name (customer_of o)
                 | None => "مشتری گرامی"
                 end))
       else ret (MsgStatus status order_id
                   (if negb (String.eqb admin_name "")
                       && negb (String.eqb status OrderStatus.PENDING)
                    then admin_name else ""))) ;;
    let '(evs, raised) :=
      send_with_retry e uid full_message order_id (seq 0 max_retries) in
    _ <- emit evs ;;
    if raised : bool
    then emit [EvSend uid (MsgEmergency order_id) (send_ok e (S max_retries))]
    else ret tt.

(** The [order_data] dictionary [create_order] builds; the three
    timestamps are three readings of the clock. *)
Definition new_order (e : env) (order_id : string) (uid : Z) (cust : customer)
    (cart : list cart_item) (method : string) (rate : num)
    (subtotal discount tax total : Z) : order :=
  {| order_id := order_id; user_id := uid; customer_of := cust;
     cart_items := cart; payment_method := method;
     pricing_of := {| subtotal := subtotal; discount_rate := rate;
                      discount := discount; tax := tax; total := total |};
     status := OrderStatus.PENDING;
     created_at := clock e 0%nat;
     updated_at := clock e 1%nat;
     status_history :=
       [ {| h_status := OrderStatus.PENDING; h_timestamp := clock e 2%nat;
            h_admin := None; h_note := NoteCreated |} ];
     hesabfa_invoice_id := None |}.

Definition create_order (e : env) (uid : Z) (cust : customer)
    (cart : list cart_item) (method : string) (rate : num)
    (receipt_photo_id : option string) : M string :=
  order_id <- _generate_order_id e uid ;;
  let subtotal := calculate_subtotal cart in
  discount <- lift (calculate_discount subtotal rate) ;;
  tax <- lift (calculate_tax (subtotal - discount)) ;;
  let total := subtotal - discount + tax in
  let order_data :=
    new_order e order_id uid cust cart method rate subtotal discount tax total in
  _ <- _save_order e order_data ;;
  _ <- _send_invoice_to_support_group e order_data receipt_photo_id ;;
  _ <- _notify_customer e uid OrderStatus.PENDING order_id "" ;;
  ret order_id.

(** [not order_data.get("hesabfa_invoice_id")]. *)
Definition no_invoice_id (o : order) : bool :=
  match hesabfa_invoice_id o with
  | None => true
  | Some s => String.eqb s ""
  end.

(** The record after the assignments to [status] and [updated_at] and the
    [append] to [status_history]. *)
Definition with_status (e : env) (order_data : order)
    (new_status admin_name note_text : string) : order :=
  let old_status := status order_data in
  let status_entry :=
    {| h_status := new_status; h_timestamp := clock e 1%nat;
       h_admin := Some admin_name;
       h_note := if String.eqb note_text ""
                 then NoteChanged old_status new_status
                 else NoteGiven note_text |} in
  {| order_id := order_id order_data;
     user_id := user_id order_data;
     customer_of := customer_of order_data;
     cart_items := cart_items order_data;
     payment_method := payment_method order_data;
     pricing_of := pricing_of order_data;
     status := new_status;
     created_at := created_at order_data;
     updated_at := clock e 0%nat;
     status_history := (status_history order_data ++ [status_entry])%list;
     hesabfa_invoice_id := hesabfa_invoice_id order_data |}.

Definition update_order_status (e : env) (order_id new_status admin_name note_text : string)
    : M bool :=
  try_except
    (loaded <- _load_order order_id ;;
     match loaded with
     | None => ret false
     | Some order_data =>
         let order_data' :=
           with_status e order_data new_status admin_name note_text in
         _ <- _save_order e order_data' ;;
         _ <- (if String.eqb new_status OrderStatus.CONFIRMED
                  && no_invoice_id order_data'
               then emit [EvSpawnInvoice order_id] else ret tt) ;;
         _ <- (if negb (user_id order_data' =? 0) && bot_set e
               then _notify_customer e (user_id order_data') new_status
                      order_id admin_name
               else ret tt) ;;
         ret true
     end)
    (fun _ => ret false).

(** [orders.sort(key=lambda x: x["created_at"], reverse=True)]: newest
    first, entries with equal keys in their original order. *)
Fixpoint insert_desc (o : order) (l : list order) : list order :=
  match l with
  | [] => [o]
  | o' :: l' =>
      if String.ltb (created_at o') (created_at o) then o :: l
      else o' :: insert_desc o l'
  end.

Definition sort_desc (l : list order) : list order :=
  fold_left (fun acc o => insert_desc o acc) l [].

Definition get_customer_orders (uid : Z) : M (list order) :=
  fun w =>
    let orders :=
      flat_map
        (fun filename =>
           if PyStr.startswith filename ("order_" ++ PyStr.str uid ++ "_")
              && PyStr.endswith filename ".json"
           then
             let oid := PyStr.replace (PyStr.replace filename "order_" "")
                                      ".json" "" in
             match lookup (_get_order_file_path oid) (order_files w) with
             | Some order_data => [order_data]
             | None => []
             end
           else [])
        (listdir w) in
    (Ok (sort_desc orders), w).

Definition empty_world : world :=
  {| counter_file := None; order_files := []; trace := [] |}.

(** *** Vocabulary of the properties *)

(** The world after more effects, the files untouched. *)
Definition with_effects (w : world) (evs : list event) : world :=
  {| counter_file := counter_file w;
     order_files := order_files w;
     trace := (trace w ++ evs)%list |}.

(** Notifications and the background invoicing task, as opposed to the
    write of the order file. *)
Definition side_effect (ev : event) : Prop :=
  match ev with
  | EvSaveOrder _ _ => False
  | _ => True
  end.

Definition customer_send (uid : Z) (ev : event) : Prop :=
  match ev with
  | EvSend chat _ _ => chat = uid
  | _ => False
  end.

(** The world once [_save_order] has written [o]. *)
Definition saved (w : world) (o : order) : world :=
  {| counter_file := counter_file w;
     order_files := setitem (_get_order_file_path (order_id o)) o (order_files w);
     trace := (trace w ++ [EvSaveOrder (_get_order_file_path (order_id o)) o])%list |}.

(** The world once the file of [oid] holds no order any more, and the
    world once a write of [o] has failed. *)
Definition lost (w : world) (oid : string) : world :=
  {| counter_file := counter_file w;
     order_files := without (_get_order_file_path oid) (order_files w);
     trace := trace w |}.

Definition unsaved (e : env) (w : world) (o : order) : world :=
  if save_truncates e then lost w (order_id o) else w.

(** The id [_generate_order_id] returns and the directory it leaves. *)
Definition next_id (e : env) (w : world) : string :=
  if counter_io_ok e
  then PyStr.format_05d (get_default (counter_file w) 0 + 1)
  else "ORD" ++ hms e.

Definition bumped (e : env) (w : world) : world :=
  if counter_io_ok e
  then {| counter_file := Some (get_default (counter_file w) 0 + 1);
          order_files := order_files w;
          trace := trace w |}
  else w.

(** The fallback id [ORD%H%M%S] is made of letters and digits. *)
Definition clock_sane (e : env) : Prop := PyStr.has_char "_" (hms e) = false.

(** The directory holds only files the server wrote: each order under the
    path of its own id, an id without underscore. *)
Definition generated (w : world) : Prop :=
  forall p o, In (p, o) (order_files w) ->
    p = _get_order_file_path (order_id o)
    /\ PyStr.has_char "_" (order_id o) = false.

(** The directories reached from the empty one by the two mutating calls. *)
Inductive reachable : world -> Prop :=
| reach_empty : reachable empty_world
| reach_create e uid cust cart method rate receipt w :
    clock_sane e -> reachable w ->
    reachable (snd (create_order e uid cust cart method rate receipt w))
| reach_update e oid ns admin nt w :
    reachable w ->
    reachable (snd (update_order_status e oid ns admin nt w)).

End OrderServer.

(* ------------------------------------------------------------------ *)
(** ** Sample data *)

Module Samples.
Import PyNum.

Definition alice : customer :=
  {| cust_name := "Alice"; cust_city := "Tehran"; cust_customer_id := "C-17" |}.

(** A call on 2024-01-15 (ordinal 738900). *)
Definition sched_env : Scheduler.env :=
  {| Scheduler.today := 738900; Scheduler.timestamp := 1;
     Scheduler.write_ok := true; Scheduler.write_truncates := false |}.

Definition schedule_90day : Scheduler.schedule :=
  {| Scheduler.user_id := 7; Scheduler.customer_info := alice;
     Scheduler.order_id := "A";
     Scheduler.total_amount := PInt 1200000;
     Scheduler.advance_paid := PInt 300000;
     Scheduler.remaining_amount := PInt 900000;
     Scheduler.payment_date := None; Scheduler.payment_type := None;
     Scheduler.monthly_amount :=
       Some (PFloat (S754_finite false 5153960755200000 (-34)));
     Scheduler.payment_dates :=
       Some ["2024-01-15"; "2024-02-14"; "2024-03-15"];
     Scheduler.payments_made := [];
     Scheduler.created_date := "2023-12-16";
     Scheduler.status := "active" |}.

Definition schedule_60day : Scheduler.schedule :=
  {| Scheduler.user_id := 7; Scheduler.customer_info := alice;
     Scheduler.order_id := "B";
     Scheduler.total_amount := PInt 1200000;
     Scheduler.advance_paid := PInt 300000;
     Scheduler.remaining_amount := PInt 900000;
     Scheduler.payment_date := Some "2024-01-15";
     Scheduler.payment_type := Some "60day";
     Scheduler.monthly_amount := None; Scheduler.payment_dates := None;
     Scheduler.payments_made := [];
     Scheduler.created_date := "2023-11-16";
     Scheduler.status := "active" |}.

Definition schedule_cancelled : Scheduler.schedule :=
  Scheduler.with_payments schedule_60day [] "cancelled".

Definition store_90day : Scheduler.store := [("7_A_1", schedule_90day)].
Definition store_60day : Scheduler.store :=
  [("7_A_1", schedule_90day); ("7_B_2", schedule_60day)].
Definition store_cancelled : Scheduler.store :=
  [("7_A_1", schedule_90day); ("7_B_2", schedule_cancelled)].

(** The cart of the worked example: one item of 4,780,000. *)
Definition sofa : Pricing.cart_item :=
  {| Pricing.product_id := "P1"; Pricing.product_name := "sofa";
     Pricing.size := "L"; Pricing.quantity := 1; Pricing.price := 4780000 |}.

Definition lamp : Pricing.cart_item :=
  {| Pricing.product_id := "P2"; Pricing.product_name := "lamp";
     Pricing.size := "S"; Pricing.quantity := 1; Pricing.price := 100 |}.

Definition iso (n : nat) : string :=
  match n with
  | O => "2024-01-15T10:00:00.000001"
  | 1%nat => "2024-01-15T10:00:00.000002"
  | _ => "2024-01-15T10:00:00.000003"
  end.

Definition later (n : nat) : string :=
  match n with
  | O => "2024-02-01T09:30:00.000001"
  | _ => "2024-02-01T09:30:00.000002"
  end.

(** Everything works. *)
Definition order_env : OrderServer.env :=
  {| OrderServer.clock := iso; OrderServer.hms := "100000";
     OrderServer.counter_io_ok := true; OrderServer.save_ok := true;
     OrderServer.save_truncates := false;
     OrderServer.send_ok := fun _ => true;
     OrderServer.bot_set := true; OrderServer.group_set := true |}.

(** A later call during which every message to the customer fails. *)
Definition offline_env : OrderServer.env :=
  {| OrderServer.clock := later; OrderServer.hms := "093000";
     OrderServer.counter_io_ok := true; OrderServer.save_ok := true;
     OrderServer.save_truncates := false;
     OrderServer.send_ok := fun _ => false;
     OrderServer.bot_set := true; OrderServer.group_set := true |}.

Definition rate_030 : num := PFloat (literal 3 10).
Definition rate_029 : num := PFloat (literal 29 100).

(** The directory after the first order of user 7. *)
Definition world_one_order : OrderServer.world :=
  snd (OrderServer.create_order order_env 7 alice [sofa] "cash" rate_030 None
         OrderServer.empty_world).

(** An order that has reached [completed]. *)
Definition order_completed : OrderServer.order :=
  {| OrderServer.order_id := "00001"; OrderServer.user_id := 7;
     OrderServer.customer_of := alice; OrderServer.cart_items := [sofa];
     OrderServer.payment_method := "cash";
     OrderServer.pricing_of :=
       {| OrderServer.subtotal := 4780000; OrderServer.discount_rate := rate_030;
          OrderServer.discount := 1434000; OrderServer.tax := 301140;
          OrderServer.total := 3647140 |};
     OrderServer.status := OrderStatus.COMPLETED;
     OrderServer.created_at := "2024-01-15T10:00:00.000001";
     OrderServer.updated_at := "2024-01-20T12:00:00.000001";
     OrderServer.status_history :=
       [ {| OrderServer.h_status := OrderStatus.PENDING;
            OrderServer.h_timestamp := "2024-01-15T10:00:00.000003";
            OrderServer.h_admin := None;
            OrderServer.h_note := OrderServer.NoteCreated |};
         {| OrderServer.h_status := OrderStatus.COMPLETED;
            OrderServer.h_timestamp := "2024-01-20T12:00:00.000002";
            OrderServer.h_admin := Some "admin";
            OrderServer.h_note :=
              OrderServer.NoteChanged OrderStatus.PENDING OrderStatus.COMPLETED |} ];
     OrderServer.hesabfa_invoice_id := None |}.

Definition world_completed : OrderServer.world :=
  {| OrderServer.counter_file := Some 1;
     OrderServer.order_files :=
       [(OrderServer._get_order_file_path "00001", order_completed)];
     OrderServer.trace := [] |}.

End Samples.

(* ------------------------------------------------------------------ *)
(** ** [bot/order_server.py]: queries, buttons and the invoicing task *)

Module OrderDesk.
Import PyNum Pricing OrderServer.
Local Open Scope order_scope.

(** Whether an attempted [bot.send_message] went through. *)
Definition delivered (ev : event) : bool :=
  match ev with
  | EvSend _ _ d => d
  | _ => false
  end.


(** [status_filter is None or order_data["status"] == status_filter]. *)
Definition passes (status_filter : option string) (order_data : order) : bool :=
  match status_filter with
  | None => true
  | Some s => String.eqb (status order_data) s
  end.

Definition get_all_orders (status_filter : option string) : M (list order) :=
  fun w =>
    let orders :=
      flat_map
        (fun filename =>
           if PyStr.startswith filename "order_"
              && PyStr.endswith filename ".json"
           then
             let oid := PyStr.replace (PyStr.replace filename "order_" "")
                                      ".json" "" in
             match lookup (_get_order_file_path oid) (order_files w) with
             | Some order_data =>
                 if passes status_filter order_data then [order_data] else []
             | None => []
             end
           else [])
        (listdir w) in
    (Ok (sort_desc orders), w).

(** [order_data.get('created_at', '')[:10]]. *)
Definition order_date (order_data : order) : string :=
  String.substring 0 10 (created_at order_data).

(** [today_date] is the reading [datetime.now().strftime("%Y-%m-%d")] of
    the call. *)
Definition get_todays_orders (today_date : string) : M (list order) :=
  fun w =>
    let today_orders :=
      flat_map
        (fun filename =>
           if PyStr.startswith filename "order_"
              && PyStr.endswith filename ".json"
           then
             let oid := PyStr.replace (PyStr.replace filename "order_" "")
                                      ".json" "" in
             match lookup (_get_order_file_path oid) (order_files w) with
             | Some order_data =>
                 if String.eqb (order_date order_data) today_date
                 then [order_data] else []
             | None => []
             end
           else [])
        (listdir w) in
    (Ok (sort_desc today_orders), w).

(** [orders.sort(key=lambda x: x.get('created_at', ''))]: oldest first,
    entries with equal keys in their original order. *)
Fixpoint insert_asc (o : order) (l : list order) : list order :=
  match l with
  | [] => [o]
  | o' :: l' =>
      if String.ltb (created_at o) (created_at o') then o :: l
      else o' :: insert_asc o l'
  end.

Definition sort_asc (l : list order) : list order :=
  fold_left (fun acc o => insert_asc o acc) l [].

Definition get_orders_by_date (target_date : string) : M (list order) :=
  fun w =>
    let date_orders :=
      flat_map
        (fun filename =>
           if PyStr.startswith filename "order_"
              && PyStr.endswith filename ".json"
           then
             let oid := PyStr.replace (PyStr.replace filename "order_" "")
                                      ".json" "" in
             match lookup (_get_order_file_path oid) (order_files w) with
             | Some order_data =>
                 if String.eqb (order_date order_data) target_date
                 then [order_data] else []
             | None => []
             end
           else [])
        (listdir w) in
    (Ok (sort_asc date_orders), w).

(** [_get_status_text]: the Persian wording of a status, the status itself
    when it is not one of the nine. *)
Definition _get_status_text (status : string) : string :=
  if String.eqb status OrderStatus.PENDING then "در انتظار"
  else if String.eqb status OrderStatus.CONTACTED then "در حال پیگیری"
  else if String.eqb status OrderStatus.CONFIRMED then "تایید شد"
  else if String.eqb status OrderStatus.PREPARING then "در حال آماده‌سازی"
  else if String.eqb status OrderStatus.READY then "آماده ارسال"
  else if String.eqb status OrderStatus.SHIPPED then "ارسال شد"
  else if String.eqb status OrderStatus.DELIVERED then "تحویل داده شد"
  else if String.eqb status OrderStatus.COMPLETED then "تکمیل شد"
  else if String.eqb status OrderStatus.CANCELLED then "لغو شد"
  else status.

Record statistics : Type := mkStatistics {
  total_orders : nat;
  today_orders : nat;
  total_revenue : Z;
  today_revenue : Z;
  status_distribution : dict Z
}.

(** One turn of [for order in all_orders]. *)
Definition count_order (acc : dict Z * Z) (order_data : order) : dict Z * Z :=
  let '(status_stats, total_revenue) := acc in
  let status_text := _get_status_text (status order_data) in
  (setitem status_text (get_default (lookup status_text status_stats) 0 + 1)
     status_stats,
   total_revenue + total (pricing_of order_data)).

Definition get_orders_statistics (today_date : string) : M statistics :=
  all_orders <- get_all_orders None ;;
  today_orders <- get_todays_orders today_date ;;
  let '(status_stats, total_revenue) :=
    fold_left count_order all_orders (([] : dict Z), 0) in
  let today_revenue :=
    fold_left (fun acc o => acc + total (pricing_of o)) today_orders 0 in
  ret {| total_orders := List.length all_orders;
         today_orders := List.length today_orders;
         total_revenue := total_revenue;
         today_revenue := today_revenue;
         status_distribution := status_stats |}.


(** The callback data of the buttons under a message to the customer. *)
Definition _create_customer_support_buttons (order_id : string)
    : list (list string) :=
  [ [ "check_order_status_" ++ order_id; "contact_support" ];
    [ "faq" ] ].

(** *** The invoicing task *)

(** What [hesabfa_api.create_invoice] answers (it catches its own
    failures): [success] with the id and the number of the invoice, or an
    error text. *)
Inductive hesabfa_result : Type :=
| InvoiceCreated (invoice_id : option string) (invoice_number : string)
| InvoiceRefused (error : string).

(** What the task observes beside [env]: the answer of the accounting
    service and, should the write of the order file fail, the text of that
    exception and how the second write, in the handler, goes: whether it
    succeeds, and whether it fails after truncating the file. *)
Record task_env : Type := mkTaskEnv {
  api_result : hesabfa_result;
  exception_text : string;
  retry_save_ok : bool;
  retry_save_truncates : bool
}.

Definition system_admin : string := "سیستم".

(** [current_order["status_history"].append(entry)]; on creation the
    invoice id is recorded first.  The record keeps the invoice id; the
    invoice number, which the server only prints, is kept in the note. *)
Definition with_history (o : order) (invoice_id : option string)
    (entry : history_entry) : order :=
  {| order_id := order_id o;
     user_id := user_id o;
     customer_of := customer_of o;
     cart_items := cart_items o;
     payment_method := payment_method o;
     pricing_of := pricing_of o;
     status := status o;
     created_at := created_at o;
     updated_at := updated_at o;
     status_history := (status_history o ++ [entry])%list;
     hesabfa_invoice_id := invoice_id |}.

Definition hesabfa_entry (e : env) (invoice_number : string) : history_entry :=
  {| h_status := "hesabfa_created"; h_timestamp := clock e 0%nat;
     h_admin := Some system_admin;
     h_note := NoteGiven ("پیش‌فاکتور در حسابفا ثبت شد - شماره: "
                          ++ invoice_number) |}.

Definition error_entry (e : env) (reading : nat) (text : string)
    : history_entry :=
  {| h_status := "hesabfa_error"; h_timestamp := clock e reading;
     h_admin := Some system_admin;
     h_note := NoteGiven text |}.

Definition _process_hesabfa_invoice (e : env) (t : task_env)
    (order_id : string) (order_data : order) : M unit :=
  try_except
    (current_order <- _load_order order_id ;;
     match current_order with
     | None => ret tt
     | Some current_order =>
         match api_result t with
         | InvoiceCreated invoice_id invoice_number =>
             _save_order e
               (with_history current_order invoice_id
                  (hesabfa_entry e invoice_number))
         | InvoiceRefused error_message =>
             _save_order e
               (with_history current_order (hesabfa_invoice_id current_order)
                  (error_entry e 0
                     ("خطا در ثبت پیش‌فاکتور حسابفا: " ++ error_message)))
         end
     end)
    (fun _ =>
       try_except
         (current_order <- _load_order order_id ;;
          match current_order with
          | None => ret tt
          | Some current_order =>
              _save_order
                {| clock := clock e; hms := hms e;
                   counter_io_ok := counter_io_ok e;
                   save_ok := retry_save_ok t;
                   save_truncates := retry_save_truncates t;
                   send_ok := send_ok e; bot_set := bot_set e;
                   group_set := group_set e |}
                (with_history current_order (hesabfa_invoice_id current_order)
                   (error_entry e 1
                      ("خطای سیستمی در ثبت پیش‌فاکتور: "
                       ++ String.substring 0 100 (exception_text t))))
          end)
         (fun _ => ret tt)).

(** *** Vocabulary of the properties *)

Fixpoint all_digits (s : string) : bool :=
  match s with
  | EmptyString => true
  | String c s' =>
      (Nat.leb 48 (nat_of_ascii c) && Nat.leb (nat_of_ascii c) 57)
      && all_digits s'
  end.

(** [strftime("%H%M%S")] is made of digits. *)
Definition time_of_day (e : env) : Prop := all_digits (hms e) = true.

(** The value of a string of decimal digits, most significant first. *)
Fixpoint value_from (acc : Z) (s : string) : Z :=
  match s with
  | EmptyString => acc
  | String c s' => value_from (10 * acc + (Z.of_nat (nat_of_ascii c) - 48)) s'
  end.

(** Every order file lies under the path of the id it holds, an id without
    underscore or dot, and no path is listed twice. *)
Definition filed (w : world) : Prop :=
  NoDup (keys (order_files w))
  /\ forall p o, In (p, o) (order_files w) ->
       p = _get_order_file_path (order_id o)
       /\ PyStr.has_char "_" (order_id o) = false
       /\ PyStr.has_char "." (order_id o) = false.

(** Every order id is a number the counter has passed, or a fallback id. *)
Definition counted (w : world) : Prop :=
  0 <= get_default (counter_file w) 0
  /\ forall p o, In (p, o) (order_files w) ->
       (exists n, 1 <= n <= get_default (counter_file w) 0
                  /\ order_id o = PyStr.format_05d n)
       \/ PyStr.startswith (order_id o) "ORD" = true.

(** The directories reached from the empty one by the calls that write
    order files. *)
Inductive served : world -> Prop :=
| served_empty : served empty_world
| served_create e uid cust cart method rate receipt w :
    time_of_day e -> served w ->
    served (snd (create_order e uid cust cart method rate receipt w))
| served_update e oid ns admin nt w :
    served w ->
    served (snd (update_order_status e oid ns admin nt w))
| served_invoice e t oid o w :
    served w ->
    served (snd (_process_hesabfa_invoice e t oid o w)).

(** The orders created on a date. *)
Definition on_date (date : string) (o : order) : bool :=
  String.eqb (order_date o) date.

(** Sum of the [total]s of a list of orders; sum of the counts of a
    distribution. *)
Definition sum_totals (l : list order) : Z :=
  fold_right (fun o acc => total (pricing_of o) + acc) 0 l.

Definition sum_counts (d : dict Z) : Z :=
  fold_right (fun kv acc => snd kv + acc) 0 d.

(** The prices of an order are those [create_order] computes from its cart
    and rate, and its history starts with the entry of the creation. *)
Definition as_created (o : order) : Prop :=
  subtotal (pricing_of o) = calculate_subtotal (cart_items o)
  /\ calculate_discount (subtotal (pricing_of o)) (discount_rate (pricing_of o))
     = Ok (discount (pricing_of o))
  /\ calculate_tax (subtotal (pricing_of o) - discount (pricing_of o))
     = Ok (tax (pricing_of o))
  /\ total (pricing_of o)
     = subtotal (pricing_of o) - discount (pricing_of o) + tax (pricing_of o)
  /\ exists first rest,
       status_history o = first :: rest
       /\ h_status first = OrderStatus.PENDING
       /\ h_admin first = None
       /\ h_note first = NoteCreated.

(** Newest first / oldest first, by [created_at]. *)
Definition newest_first (l : list order) : Prop :=
  StronglySorted
    (fun a b => String.ltb (created_at a) (created_at b) = false) l.

Definition oldest_first (l : list order) : Prop :=
  StronglySorted
    (fun a b => String.ltb (created_at b) (created_at a) = false) l.

End OrderDesk.

(* ------------------------------------------------------------------ *)
(** ** [bot/cart.py] *)

Module CartManager.
Import Pricing.

(** The directory [cart_data]: the content of each cart file by path.  A
    file left empty or partial by a failed write holds no cart ([get_cart]
    reads it as the empty cart) and has no entry. *)
Definition carts : Type := dict (list cart_item).

(** Whether an existing cart file can be read; whether a cart file can be
    written and, when it cannot, whether the write failed after
    [open(cart_file, 'w')] had truncated the file (or before, the file
    being left as it was). *)
Record env : Type := mkEnv {
  read_ok : bool;
  write_ok : bool;
  write_truncates : bool
}.

(** No call of the class raises: each returns a value and the directory. *)
Definition M (A : Type) : Type := carts -> A * carts.

Definition _get_cart_file_path (user_id : Z) : string :=
  "cart_data" ++ "/" ++ "cart_" ++ PyStr.str user_id ++ ".json".

(** A failure while reading gives the empty cart. *)
Definition get_cart (e : env) (user_id : Z) : M (list cart_item) :=
  fun s =>
    match lookup (_get_cart_file_path user_id) s with
    | Some cart_items => (if read_ok e then cart_items else [], s)
    | None => ([], s)
    end.

(** [open(cart_file, 'w')] empties the file before [json.dump] fills it:
    a write that fails once the file is open leaves it empty or partial. *)
Definition save_cart (e : env) (user_id : Z) (cart_items : list cart_item)
    : M bool :=
  fun s =>
    if write_ok e
    then (true, setitem (_get_cart_file_path user_id) cart_items s)
    else if write_truncates e
    then (false, without (_get_cart_file_path user_id) s)
    else (false, s).

(** [cart_item['product_id'] == product_id and cart_item['size'] == size]. *)
Definition same_line (product_id' size' : string) (cart_item : cart_item)
    : bool :=
  String.eqb (product_id cart_item) product_id'
  && String.eqb (size cart_item) size'.

Definition with_quantity (c : cart_item) (q : Z) : cart_item :=
  {| product_id := product_id c; product_name := product_name c;
     size := size c; quantity := q; price := price c |}.

(** The search for [existing_item] and the two branches after it: the
    first line of the same product and size gets the quantity added,
    otherwise the item is appended. *)
Fixpoint add_item (item : cart_item) (cart_items : list cart_item)
    : list cart_item :=
  match cart_items with
  | [] => [item]
  | c :: rest =>
      if same_line (product_id item) (size item) c
      then with_quantity c (quantity c + quantity item) :: rest
      else c :: add_item item rest
  end.

Definition add_to_cart (e : env) (user_id : Z) (item : cart_item) : M bool :=
  fun s =>
    let '(cart_items, s) := get_cart e user_id s in
    save_cart e user_id (add_item item cart_items) s.

Definition remove_from_cart (e : env) (user_id : Z) (product_id size : string)
    : M bool :=
  fun s =>
    let '(cart_items, s) := get_cart e user_id s in
    save_cart e user_id
      (filter (fun item => negb (same_line product_id size item)) cart_items) s.

(** [item['quantity'] = new_quantity] on the first line of that product
    and size. *)
Fixpoint set_quantity (product_id size : string) (new_quantity : Z)
    (cart_items : list cart_item) : list cart_item :=
  match cart_items with
  | [] => []
  | c :: rest =>
      if same_line product_id size c
      then with_quantity c new_quantity :: rest
      else c :: set_quantity product_id size new_quantity rest
  end.

Definition update_quantity (e : env) (user_id : Z) (product_id size : string)
    (new_quantity : Z) : M bool :=
  fun s =>
    let '(cart_items, s) := get_cart e user_id s in
    if existsb (same_line product_id size) cart_items then
      if new_quantity <=? 0
      then remove_from_cart e user_id product_id size s
      else save_cart e user_id
             (set_quantity product_id size new_quantity cart_items) s
    else (false, s).

Definition clear_cart (e : env) (user_id : Z) : M bool :=
  save_cart e user_id [].

(** [sum(item['price'] * item['quantity'] for item in cart_items)]. *)
Definition total_of (cart_items : list cart_item) : Z :=
  fold_left (fun acc item => acc + price item * quantity item) cart_items 0.

(** [sum(item['quantity'] for item in cart_items)]. *)
Definition count_of (cart_items : list cart_item) : Z :=
  fold_left (fun acc item => acc + quantity item) cart_items 0.

Definition get_cart_total (e : env) (user_id : Z) : M Z :=
  fun s => let '(cart_items, s) := get_cart e user_id s in
           (total_of cart_items, s).

Definition get_cart_item_count (e : env) (user_id : Z) : M Z :=
  fun s => let '(cart_items, s) := get_cart e user_id s in
           (count_of cart_items, s).

(** *** Vocabulary of the properties *)

(** The lines of a cart are told apart by product and size. *)
Definition line_key (c : cart_item) : string * string :=
  (product_id c, size c).

Definition distinct_lines (cart_items : list cart_item) : Prop :=
  NoDup (map line_key cart_items).

(** The first line of that product and size, if any. *)
Definition line_of (product_id size : string) (cart_items : list cart_item)
    : option cart_item :=
  find (same_line product_id size) cart_items.

(** The cart a user sees while the files can be read. *)
Definition cart_of (user_id : Z) (s : carts) : list cart_item :=
  get_default (lookup (_get_cart_file_path user_id) s) [].

End CartManager.

(* ------------------------------------------------------------------ *)
(** ** [bot/handlers.py]: the routing of button presses *)

Module Handlers.
Import OrderServer OrderDesk.
Local Open Scope order_scope.

(** The methods [button_callback] can call, and the message it edits in
    when nothing matches. *)
Inductive handler : Type :=
| handle_authentication_request
| handle_main_menu
| handle_start_shopping
| handle_view_cart
| handle_view_invoice
| handle_upload_receipt_request
| handle_payment_receipt_confirmation
| handle_payment_terms_confirmation
| handle_order_confirmation
| handle_cart_clear
| handle_payment_verification
| handle_payment_completed
| handle_back_to_categories
| handle_back_to_alphabet
| handle_back_to_curtain_subcategories
| handle_back_to_products
| handle_daily_stats_request
| handle_refresh_daily_orders
| handle_back_to_daily_orders
| handle_contact_support_request
| handle_faq_request
| handle_60day_order_confirmation
| handle_category_selection
| handle_subcategory_selection
| handle_alphabet_selection
| handle_product_selection
| handle_size_selection_from_category
| handle_size_selection
| handle_quantity_selection
| handle_payment_selection
| handle_order_status_update
| handle_order_details_request
| handle_order_actions
| handle_alphabet_search
| handle_fabric_selection
| handle_back_to_fabric_selection
| handle_payment_confirmation_from_group
| handle_contact_made_from_group
| handle_remind_tomorrow_from_group
| order_in_progress_message.

(** The routing dictionary of the exact matches. *)
Definition handlers : dict handler :=
  [ ("authenticate", handle_authentication_request);
    ("main_menu", handle_main_menu);
    ("start_shopping", handle_start_shopping);
    ("view_cart", handle_view_cart);
    ("view_invoice", handle_view_invoice);
    ("upload_receipt", handle_upload_receipt_request);
    ("confirm_payment_receipt", handle_payment_receipt_confirmation);
    ("confirm_payment_terms", handle_payment_terms_confirmation);
    ("confirm_order", handle_order_confirmation);
    ("cart_clear", handle_cart_clear);
    ("verify_payment", handle_payment_verification);
    ("payment_completed", handle_payment_completed);
    ("back_to_categories", handle_back_to_categories);
    ("back_to_alphabet", handle_back_to_alphabet);
    ("back_to_curtain_subcategories", handle_back_to_curtain_subcategories);
    ("back_to_products", handle_back_to_products);
    ("daily_stats", handle_daily_stats_request);
    ("refresh_daily_orders", handle_refresh_daily_orders);
    ("back_to_daily_orders", handle_back_to_daily_orders);
    ("contact_support", handle_contact_support_request);
    ("faq", handle_faq_request);
    ("confirm_60day_order", handle_60day_order_confirmation) ].

(** The method [button_callback] hands the press to. *)
Definition button_callback (data : string) : handler :=
  match lookup data handlers with
  | Some h => h
  | None =>
      if PyStr.startswith data "category_" then handle_category_selection
      else if PyStr.startswith data "subcategory_"
      then handle_subcategory_selection
      else if PyStr.startswith data "alpha_" then handle_alphabet_selection
      else if PyStr.startswith data "product_" then handle_product_selection
      else if PyStr.startswith data "size_selection_"
      then handle_size_selection_from_category
      else if PyStr.startswith data "size_" then handle_size_selection
      else if PyStr.startswith data "qty_" then handle_quantity_selection
      else if PyStr.startswith data "payment_" then handle_payment_selection
      else if PyStr.startswith data "order_status_"
      then handle_order_status_update
      else if PyStr.startswith data "order_details_"
      then handle_order_details_request
      else if PyStr.startswith data "order_" then handle_order_actions
      else if PyStr.startswith data "alphabet_search_"
      then handle_alphabet_search
      else if PyStr.startswith data "fabric_" then handle_fabric_selection
      else if String.eqb data "back_to_fabric_selection"
      then handle_back_to_fabric_selection
      else if PyStr.startswith data "payment_confirmed_"
      then handle_payment_confirmation_from_group
      else if PyStr.startswith data "contact_made_"
      then handle_contact_made_from_group
      else if PyStr.startswith data "remind_tomorrow_"
      then handle_remind_tomorrow_from_group
      else order_in_progress_message
  end.

(** [s.split(sep)] for a separator of one character. *)
Fixpoint split (sep : ascii) (s : string) : list string :=
  match s with
  | EmptyString => [EmptyString]
  | String c s' =>
      if Ascii.eqb c sep then EmptyString :: split sep s'
      else match split sep s' with
           | [] => [String c EmptyString]
           | part :: parts => String c part :: parts
           end
  end.



(** The callback data of the three buttons under a payment reminder
    ([payment_reminder.py]). *)
Definition reminder_buttons (reminder_info : Scheduler.reminder)
    : list (list string) :=
  [ [ "payment_confirmed_" ++ Scheduler.r_schedule_id reminder_info ++ "_"
      ++ PyStr.str (Scheduler.r_payment_number reminder_info) ];
    [ "contact_made_" ++ Scheduler.r_schedule_id reminder_info ++ "_"
      ++ PyStr.str (Scheduler.r_payment_number reminder_info) ];
    [ "remind_tomorrow_" ++ Scheduler.r_schedule_id reminder_info ++ "_"
      ++ PyStr.str (Scheduler.r_payment_number reminder_info) ] ].

End Handlers.

Module MoreSamples.
Import PyNum.


(** The counter file cannot be read: ids fall back to the time of day. *)
Definition nocounter_env : OrderServer.env :=
  {| OrderServer.clock := Samples.iso; OrderServer.hms := "100000";
     OrderServer.counter_io_ok := false; OrderServer.save_ok := true;
     OrderServer.save_truncates := false;
     OrderServer.send_ok := fun _ => true;
     OrderServer.bot_set := true; OrderServer.group_set := true |}.

(** The same time of day, another day. *)
Definition nocounter_later_env : OrderServer.env :=
  {| OrderServer.clock := Samples.later; OrderServer.hms := "100000";
     OrderServer.counter_io_ok := false; OrderServer.save_ok := true;
     OrderServer.save_truncates := false;
     OrderServer.send_ok := fun _ => true;
     OrderServer.bot_set := true; OrderServer.group_set := true |}.

(** The accounting service created invoice 4711, numbered 1001. *)
Definition invoice_created : OrderDesk.task_env :=
  {| OrderDesk.api_result := OrderDesk.InvoiceCreated (Some "4711") "1001";
     OrderDesk.exception_text := "";
     OrderDesk.retry_save_ok := true;
     OrderDesk.retry_save_truncates := false |}.

(** The accounting service refused. *)
Definition invoice_refused : OrderDesk.task_env :=
  {| OrderDesk.api_result := OrderDesk.InvoiceRefused "timeout";
     OrderDesk.exception_text := "";
     OrderDesk.retry_save_ok := true;
     OrderDesk.retry_save_truncates := false |}.

Definition cart_env : CartManager.env :=
  {| CartManager.read_ok := true; CartManager.write_ok := true;
     CartManager.write_truncates := false |}.

(** The cart file exists and cannot be read. *)
Definition unreadable_env : CartManager.env :=
  {| CartManager.read_ok := false; CartManager.write_ok := true;
     CartManager.write_truncates := false |}.

(** The cart file cannot be opened for writing. *)
Definition readonly_env : CartManager.env :=
  {| CartManager.read_ok := true; CartManager.write_ok := false;
     CartManager.write_truncates := false |}.

(** The disk is full: the cart file is opened, and the write fails. *)
Definition cart_diskfull_env : CartManager.env :=
  {| CartManager.read_ok := true; CartManager.write_ok := false;
     CartManager.write_truncates := true |}.

(** The cart of user 7: one sofa. *)
Definition carts_one : CartManager.carts :=
  [(CartManager._get_cart_file_path 7, [Samples.sofa])].

End MoreSamples.

(* ================================================================== *)
(** * Properties *)

(** ** Dictionaries *)

Section DictFacts.
Variable V : Type.
Implicit Types (d : dict V) (k : string) (v : V).

Lemma lookup_setitem_same k v d : lookup k (setitem k v d) = Some v.
Proof.
  induction d as [|[k' v'] d IH]; simpl.
  - now rewrite String.eqb_refl.
  - destruct (String.eqb k k') eqn:E; simpl.
    + now rewrite String.eqb_refl.
    + now rewrite E.
Qed.

Lemma lookup_setitem_other k k' v d :
  k <> k' -> lookup k' (setitem k v d) = lookup k' d.
Proof.
  intros Hne. induction d as [|[k0 v0] d IH]; simpl.
  - destruct (String.eqb_spec k' k); congruence.
  - destruct (String.eqb_spec k k0) as [->|Hk]; simpl.
    + destruct (String.eqb_spec k' k0); congruence.
    + now rewrite IH.
Qed.

Lemma setitem_lookup_id k v d : lookup k d = Some v -> setitem k v d = d.
Proof.
  induction d as [|[k' v'] d IH]; simpl; [discriminate|].
  destruct (String.eqb_spec k k') as [->|Hk]; intros H.
  - now injection H as ->.
  - now rewrite IH.
Qed.

Lemma keys_setitem_present k v v0 d :
  lookup k d = Some v0 -> keys (setitem k v d) = keys d.
Proof.
  induction d as [|[k' v'] d IH]; simpl; [discriminate|].
  destruct (String.eqb_spec k k') as [->|Hk]; intros H; simpl.
  - reflexivity.
  - f_equal. now apply IH.
Qed.

Lemma In_keys_setitem k k' v d :
  In k' (keys (setitem k v d)) -> k' = k \/ In k' (keys d).
Proof.
  induction d as [|[k0 v0] d IH]; simpl.
  - intros [<-|[]]. now left.
  - destruct (String.eqb_spec k k0) as [->|Hk]; simpl.
    + intros [<-|H]; [right; now left | right; now right].
    + intros [<-|H]; [right; now left|].
      destruct (IH H) as [->|H']; [now left | right; now right].
Qed.

(** Assignments keep the keys distinct, as in a Python [dict]. *)
Lemma NoDup_keys_setitem k v d : NoDup (keys d) -> NoDup (keys (setitem k v d)).
Proof.
  induction d as [|[k0 v0] d IH]; simpl; intros Hnd.
  - repeat constructor. intros [].
  - inversion Hnd as [|? ? Hnotin Hnd']; subst.
    destruct (String.eqb_spec k k0) as [->|Hk]; simpl.
    + now constructor.
    + constructor; [|now apply IH].
      intros H. apply In_keys_setitem in H as [->|H]; [now apply Hk | now apply Hnotin].
Qed.

Lemma lookup_In k v d : lookup k d = Some v -> In (k, v) d.
Proof.
  induction d as [|[k' v'] d IH]; simpl; [discriminate|].
  destruct (String.eqb_spec k k') as [->|Hk]; intros H.
  - injection H as ->. now left.
  - right. now apply IH.
Qed.

Lemma In_lookup k v d : NoDup (keys d) -> In (k, v) d -> lookup k d = Some v.
Proof.
  induction d as [|[k' v'] d IH]; simpl; [easy|].
  intros Hnd [Heq|Hin].
  - injection Heq as -> ->. now rewrite String.eqb_refl.
  - inversion Hnd as [|? ? Hnotin Hnd']; subst.
    destruct (String.eqb_spec k k') as [->|Hk].
    + exfalso. apply Hnotin. change k' with (fst (k', v)).
      now apply in_map.
    + now apply IH.
Qed.
Lemma lookup_without_same k d : lookup k (without k d) = None.
Proof.
  unfold without. induction d as [|[k' v'] d IH]; cbn [filter fst lookup];
    [reflexivity|].
  destruct (String.eqb k k') eqn:E; cbn [negb lookup]; [assumption|].
  now rewrite E.
Qed.

Lemma lookup_without_other k k' d :
  k <> k' -> lookup k' (without k d) = lookup k' d.
Proof.
  intros Hne. unfold without.
  induction d as [|[k0 v0] d IH]; cbn [filter fst lookup]; [reflexivity|].
  destruct (String.eqb_spec k k0) as [<-|Hk]; cbn [negb lookup].
  - destruct (String.eqb_spec k' k); [congruence | assumption].
  - now rewrite IH.
Qed.

Lemma In_without k d p v : In (p, v) (without k d) -> In (p, v) d.
Proof. unfold without. intros H. now apply filter_In in H. Qed.


Lemma NoDup_keys_without k d : NoDup (keys d) -> NoDup (keys (without k d)).
Proof.
  unfold without, keys.
  induction d as [|[k' v'] d IH]; cbn [filter fst map]; [trivial|].
  intros Hnd. inversion Hnd as [|? ? Hnotin Hnd']; subst.
  destruct (String.eqb k k'); cbn [negb map fst]; [now apply IH|].
  constructor; [|now apply IH].
  intros Hin. apply Hnotin. apply in_map_iff in Hin as ([k0 v0] & Hk & Hin).
  apply filter_In in Hin as [Hin _]. cbn [fst] in Hk. subst k0.
  change k' with (fst (k', v0)). now apply in_map.
Qed.
End DictFacts.

(** ** Sorted insertion on integers *)

Lemma In_insert_Z x y l : In x (insert_Z y l) <-> x = y \/ In x l.
Proof.
  induction l as [|z l IH]; simpl.
  - intuition.
  - destruct (y <=? z); simpl.
    + intuition.
    + rewrite IH. intuition.
Qed.

Lemma In_sort_Z x l : In x (sort_Z l) <-> In x l.
Proof.
  induction l as [|y l IH]; simpl.
  - reflexivity.
  - rewrite In_insert_Z, IH. intuition.
Qed.

Lemma mem_Z_In x l : mem_Z x l = true <-> In x l.
Proof.
  unfold mem_Z. rewrite existsb_exists. split.
  - intros (y & Hy & E). apply Z.eqb_eq in E. now subst.
  - intros H. exists x. split; [assumption | apply Z.eqb_refl].
Qed.

Lemma length_insert_Z x l : List.length (insert_Z x l) = S (List.length l).
Proof.
  induction l as [|y l IH]; simpl; [reflexivity|].
  destruct (x <=? y); simpl; [reflexivity | now rewrite IH].
Qed.

Lemma length_sort_Z l : List.length (sort_Z l) = List.length l.
Proof.
  induction l as [|y l IH]; simpl; [reflexivity|].
  now rewrite length_insert_Z, IH.
Qed.

(** ** The payment scheduler *)

Module SchedulerFacts.
Import Scheduler.

Lemma mark_unknown e sid n s :
  lookup sid s = None -> mark_payment_made e sid n s = (Ok false, s).
Proof.
  intros H. unfold mark_payment_made, bind, _load_payment_schedules.
  now rewrite H.
Qed.

Lemma mark_60day_eq e sid n s sch :
  write_ok e = true -> lookup sid s = Some sch -> is_60day sch = true ->
  mark_payment_made e sid n s
  = (Ok true, setitem sid (with_payments sch [0] "completed") s).
Proof.
  intros Hw Hl H60.
  unfold mark_payment_made, bind, _load_payment_schedules,
    _save_payment_schedules, ret.
  now rewrite Hl, H60, Hw.
Qed.

Lemma mark_90day_eq e sid n s sch :
  write_ok e = true -> lookup sid s = Some sch -> is_60day sch = false ->
  mark_payment_made e sid n s
  = (Ok true,
     setitem sid
       (with_payments sch (made_after (payments_made sch) n)
          (if 3 <=? Z.of_nat (List.length (made_after (payments_made sch) n))
           then "completed" else status sch)) s).
Proof.
  intros Hw Hl H60.
  unfold mark_payment_made, bind, _load_payment_schedules,
    _save_payment_schedules, ret.
  now rewrite Hl, H60, Hw.
Qed.

Lemma with_payments_id sch :
  with_payments sch (payments_made sch) (status sch) = sch.
Proof. now destruct sch. Qed.

Lemma canonical_step pm n :
  canonical pm -> n = 1 \/ n = 2 \/ n = 3 -> canonical (made_after pm n).
Proof.
  unfold canonical.
  intros Hc Hn.
  repeat (destruct Hc as [-> | Hc]); try subst pm;
    repeat (destruct Hn as [-> | Hn]); try subst n; cbv; tauto.
Qed.

Lemma made_after_keeps pm n x : In x pm -> In x (made_after pm n).
Proof.
  intros H. unfold made_after. destruct (negb (mem_Z (n - 1) pm)); [|assumption].
  apply In_sort_Z, in_or_app. now left.
Qed.

Lemma made_after_records pm n : In (n - 1) (made_after pm n).
Proof.
  unfold made_after. destruct (mem_Z (n - 1) pm) eqn:E; simpl.
  - now apply mem_Z_In.
  - apply In_sort_Z, in_or_app. right. now left.
Qed.

Lemma canonical_full pm :
  canonical pm -> In 0 pm -> In 1 pm -> In 2 pm -> pm = [0; 1; 2].
Proof.
  unfold canonical. intros Hc H0 H1 H2.
  repeat (destruct Hc as [-> | Hc]); try subst pm; simpl in *;
    try reflexivity; exfalso; intuition discriminate.
Qed.

Lemma tracks_step e sid n s pm :
  write_ok e = true -> tracks s sid pm ->
  tracks (snd (mark_payment_made e sid n s)) sid (made_after pm n).
Proof.
  intros Hw (sch & Hl & H90 & Hpm & Hdone).
  rewrite (@mark_90day_eq e sid n s sch Hw Hl H90). simpl. rewrite Hpm.
  eexists. split; [apply lookup_setitem_same|].
  split; [exact H90|]. split; [reflexivity|].
  simpl. intros H3. apply Z.leb_le in H3. now rewrite H3.
Qed.

Lemma tracks_run e sid l : forall s pm,
  write_ok e = true -> tracks s sid pm ->
  tracks (mark_all e sid l s) sid (made_run l pm).
Proof.
  induction l as [|n l IH]; intros s pm Hw Ht; simpl.
  - exact Ht.
  - apply IH; [exact Hw|]. now apply tracks_step.
Qed.

Lemma made_run_keeps l : forall pm x, In x pm -> In x (made_run l pm).
Proof.
  induction l as [|n l IH]; intros pm x H; simpl; [assumption|].
  apply IH. now apply made_after_keeps.
Qed.

Lemma made_run_records l : forall pm n, In n l -> In (n - 1) (made_run l pm).
Proof.
  induction l as [|m l IH]; intros pm n H; simpl; [destruct H|].
  destruct H as [->|H].
  - apply made_run_keeps, made_after_records.
  - now apply IH.
Qed.

Lemma made_run_canonical l : forall pm,
  (forall n, In n l -> n = 1 \/ n = 2 \/ n = 3) ->
  canonical pm -> canonical (made_run l pm).
Proof.
  induction l as [|m l IH]; intros pm Hl Hc; simpl; [assumption|].
  apply IH.
  - intros n Hn. apply Hl. now right.
  - apply canonical_step; [assumption | apply Hl; now left].
Qed.

Lemma mark_all_app e sid l1 l2 s :
  mark_all e sid (l1 ++ l2) s = mark_all e sid l2 (mark_all e sid l1 s).
Proof. unfold mark_all. apply fold_left_app. Qed.

(** A call whose index is already recorded, on a schedule that is completed
    whenever three indices are recorded, rewrites the file with its own
    content. *)
Lemma mark_present_noop e sid n s pm :
  write_ok e = true -> tracks s sid pm -> In (n - 1) pm ->
  mark_payment_made e sid n s = (Ok true, s).
Proof.
  intros Hw (sch & Hl & H90 & Hpm & Hdone) Hin.
  rewrite (@mark_90day_eq e sid n s sch Hw Hl H90).
  apply mem_Z_In in Hin. unfold made_after. rewrite Hpm, Hin. simpl.
  f_equal. apply setitem_lookup_id. rewrite Hl. f_equal.
  destruct (3 <=? Z.of_nat (List.length pm)) eqn:E.
  - apply Z.leb_le in E. rewrite <- (Hdone E), <- Hpm.
    symmetry. apply with_payments_id.
  - rewrite <- Hpm. symmetry. apply with_payments_id.
Qed.

(** C5.  On a 90-day schedule with no payment recorded, a run of
    [mark_payment_made] calls whose payment numbers are 1, 2 and 3, each at
    least once, in any order and with any repetition, leaves
    [payments_made = [0, 1, 2]] and [status = "completed"]; and any call of
    the run whose index [payment_number - 1] is already recorded returns
    [True] and leaves the file as it was. *)
Theorem mark_90day_covering_run
    (e : env) (s : store) (sid : string) (sch : schedule) (l : list Z)
    (Hw : write_ok e = true)
    (Hl : lookup sid s = Some sch)
    (H90 : is_60day sch = false)
    (Hempty : payments_made sch = [])
    (Hrange : forall n, In n l -> n = 1 \/ n = 2 \/ n = 3)
    (H1 : In 1 l) (H2 : In 2 l) (H3 : In 3 l) :
  (exists sch',
      lookup sid (mark_all e sid l s) = Some sch'
      /\ payments_made sch' = [0; 1; 2]
      /\ status sch' = "completed")
  /\ (forall l1 n l2 sch1,
        l = (l1 ++ n :: l2)%list ->
        lookup sid (mark_all e sid l1 s) = Some sch1 ->
        In (n - 1) (payments_made sch1) ->
        mark_payment_made e sid n (mark_all e sid l1 s)
        = (Ok true, mark_all e sid l1 s)).
Proof.
  assert (Ht : tracks s sid []).
  { exists sch. repeat split; try assumption. simpl. lia. }
  split.
  - destruct (@tracks_run e sid l s [] Hw Ht) as (sch' & Hl' & _ & Hpm & Hdone).
    assert (Hfull : made_run l [] = [0; 1; 2]).
    { apply canonical_full.
      - apply made_run_canonical; [assumption | now left].
      - apply (@made_run_records l [] 1 H1).
      - apply (@made_run_records l [] 2 H2).
      - apply (@made_run_records l [] 3 H3). }
    exists sch'. rewrite Hfull in *. repeat split; try assumption.
    apply Hdone. simpl. lia.
  - intros l1 n l2 sch1 _ Hl1 Hin.
    pose proof (@tracks_run e sid l1 s [] Hw Ht) as Ht1.
    apply (@mark_present_noop e sid n _ _ Hw Ht1).
    destruct Ht1 as (sch1' & Hl1' & _ & Hpm1 & _).
    rewrite Hl1 in Hl1'. injection Hl1' as <-. now rewrite <- Hpm1.
Qed.

Lemma mark_90day_covering_run_witness :
  (exists sch',
      lookup "7_A_1" (mark_all Samples.sched_env "7_A_1" [2; 2; 1; 3; 1]
                        Samples.store_90day) = Some sch'
      /\ payments_made sch' = [0; 1; 2]
      /\ status sch' = "completed")
  /\ (forall l1 n l2 sch1,
        [2; 2; 1; 3; 1] = (l1 ++ n :: l2)%list ->
        lookup "7_A_1" (mark_all Samples.sched_env "7_A_1" l1
                          Samples.store_90day) = Some sch1 ->
        In (n - 1) (payments_made sch1) ->
        mark_payment_made Samples.sched_env "7_A_1" n
          (mark_all Samples.sched_env "7_A_1" l1 Samples.store_90day)
        = (Ok true, mark_all Samples.sched_env "7_A_1" l1 Samples.store_90day)).
Proof.
  apply (@mark_90day_covering_run Samples.sched_env Samples.store_90day
           "7_A_1" Samples.schedule_90day [2; 2; 1; 3; 1]);
    try reflexivity.
  - intros n [<-|[<-|[<-|[<-|[<-|[]]]]]]; auto.
  - simpl; auto.
  - simpl; auto.
  - simpl; auto.
Defined.

(** C8.  On a 60-day schedule one [mark_payment_made] call, whatever its
    payment number, stores [payments_made = [0]] and [status = "completed"],
    returns [True], and leaves every other entry as it was. *)
Theorem mark_60day_completes
    (e : env) (s : store) (sid : string) (sch : schedule) (n : Z)
    (Hw : write_ok e = true)
    (Hl : lookup sid s = Some sch)
    (H60 : is_60day sch = true) :
  fst (mark_payment_made e sid n s) = Ok true
  /\ (exists sch',
        lookup sid (snd (mark_payment_made e sid n s)) = Some sch'
        /\ payments_made sch' = [0]
        /\ status sch' = "completed")
  /\ (forall sid', sid <> sid' ->
        lookup sid' (snd (mark_payment_made e sid n s)) = lookup sid' s).
Proof.
  rewrite (@mark_60day_eq e sid n s sch Hw Hl H60). simpl.
  split; [reflexivity|]. split.
  - eexists. split; [apply lookup_setitem_same|]. now split.
  - intros sid' Hne. now apply lookup_setitem_other.
Qed.

Lemma mark_60day_completes_witness :
  fst (mark_payment_made Samples.sched_env "7_B_2" 5 Samples.store_60day)
  = Ok true
  /\ (exists sch',
        lookup "7_B_2"
          (snd (mark_payment_made Samples.sched_env "7_B_2" 5
                  Samples.store_60day)) = Some sch'
        /\ payments_made sch' = [0]
        /\ status sch' = "completed")
  /\ (forall sid', "7_B_2" <> sid' ->
        lookup sid'
          (snd (mark_payment_made Samples.sched_env "7_B_2" 5
                  Samples.store_60day))
        = lookup sid' Samples.store_60day).
Proof.
  apply (@mark_60day_completes Samples.sched_env Samples.store_60day
           "7_B_2" Samples.schedule_60day 5); reflexivity.
Defined.


(** C10.  [mark_payment_made] does not look at the status: on a cancelled
    schedule it returns [True] and records the payment; a 60-day schedule
    becomes [completed], and a 90-day schedule becomes [completed] as soon
    as three indices are recorded (it stays [cancelled] below three). *)
Theorem mark_ignores_cancellation
    (e : env) (s : store) (sid : string) (sch : schedule) (n : Z)
    (Hw : write_ok e = true)
    (Hl : lookup sid s = Some sch)
    (Hc : status sch = "cancelled") :
  fst (mark_payment_made e sid n s) = Ok true
  /\ exists sch',
       lookup sid (snd (mark_payment_made e sid n s)) = Some sch'
       /\ (is_60day sch = true ->
             payments_made sch' = [0] /\ status sch' = "completed")
       /\ (is_60day sch = false ->
             In (n - 1) (payments_made sch')
             /\ status sch'
                = if 3 <=? Z.of_nat (List.length (payments_made sch'))
                  then "completed" else "cancelled").
Proof.
  destruct (is_60day sch) eqn:H60.
  - rewrite (@mark_60day_eq e sid n s sch Hw Hl H60). simpl.
    split; [reflexivity|]. eexists.
    split; [apply lookup_setitem_same|].
    split; [now split | discriminate].
  - rewrite (@mark_90day_eq e sid n s sch Hw Hl H60). simpl.
    split; [reflexivity|]. eexists.
    split; [apply lookup_setitem_same|].
    split; [discriminate|]. intros _. simpl. split.
    + apply made_after_records.
    + now rewrite Hc.
Qed.

Lemma mark_ignores_cancellation_witness :
  fst (mark_payment_made Samples.sched_env "7_B_2" 1 Samples.store_cancelled)
  = Ok true
  /\ exists sch',
       lookup "7_B_2"
         (snd (mark_payment_made Samples.sched_env "7_B_2" 1
                 Samples.store_cancelled)) = Some sch'
       /\ (is_60day Samples.schedule_cancelled = true ->
             payments_made sch' = [0] /\ status sch' = "completed")
       /\ (is_60day Samples.schedule_cancelled = false ->
             In (1 - 1) (payments_made sch')
             /\ status sch'
                = if 3 <=? Z.of_nat (List.length (payments_made sch'))
                  then "completed" else "cancelled").
Proof.
  apply (@mark_ignores_cancellation Samples.sched_env Samples.store_cancelled
           "7_B_2" Samples.schedule_cancelled 1); reflexivity.
Defined.

(** *** The keys of the file stay distinct *)

Lemma save_keeps_distinct e schedules s :
  NoDup (keys s) -> NoDup (keys schedules) ->
  NoDup (keys (snd (_save_payment_schedules e schedules s))).
Proof.
  intros Hs Hd. unfold _save_payment_schedules.
  destruct (write_ok e); [assumption|].
  destruct (write_truncates e); [constructor | assumption].
Qed.

Lemma mark_keeps_distinct e sid n s :
  NoDup (keys s) -> NoDup (keys (snd (mark_payment_made e sid n s))).
Proof.
  intros Hnd. unfold mark_payment_made, bind, _load_payment_schedules, ret.
  destruct (lookup sid s) as [sch|]; [|assumption].
  unfold _save_payment_schedules.
  destruct (write_ok e); simpl; [now apply NoDup_keys_setitem|].
  destruct (write_truncates e); simpl; [constructor | assumption].
Qed.

Lemma cancel_keeps_distinct e sid s :
  NoDup (keys s) -> NoDup (keys (snd (cancel_payment_schedule e sid s))).
Proof.
  intros Hnd. unfold cancel_payment_schedule, bind, _load_payment_schedules, ret.
  destruct (lookup sid s) as [sch|]; [|assumption].
  unfold _save_payment_schedules.
  destruct (write_ok e); simpl; [now apply NoDup_keys_setitem|].
  destruct (write_truncates e); simpl; [constructor | assumption].
Qed.

Lemma add_60day_keeps_distinct e uid cinfo total advance remaining oid s :
  NoDup (keys s) ->
  NoDup (keys (snd (add_60day_payment_schedule e uid cinfo total advance
                      remaining oid s))).
Proof.
  intros Hnd.
  unfold add_60day_payment_schedule, bind, _load_payment_schedules, lift, ret.
  destruct (date_after e 60); [|assumption].
  unfold _save_payment_schedules.
  destruct (write_ok e); simpl; [now apply NoDup_keys_setitem|].
  destruct (write_truncates e); simpl; [constructor | assumption].
Qed.

Lemma add_90day_keeps_distinct e uid cinfo total advance remaining oid s :
  NoDup (keys s) ->
  NoDup (keys (snd (add_90day_payment_schedule e uid cinfo total advance
                      remaining oid s))).
Proof.
  intros Hnd.
  unfold add_90day_payment_schedule, bind, _load_payment_schedules, lift, ret.
  destruct (PyNum.py_truediv remaining (PyNum.PInt 3)); [|assumption].
  destruct (date_after e 30); [|assumption].
  destruct (date_after e 60); [|assumption].
  destruct (date_after e 90); [|assumption].
  unfold _save_payment_schedules.
  destruct (write_ok e); simpl; [now apply NoDup_keys_setitem|].
  destruct (write_truncates e); simpl; [constructor | assumption].
Qed.

(** *** Pending reminders *)

Lemma rbind_Ok {A B} (r : result A) (k : A -> result B) (b : B) :
  rbind r k = Ok b -> exists a, r = Ok a /\ k a = Ok b.
Proof. destruct r as [a|ex]; simpl; [eauto | discriminate]. Qed.

Lemma reminders_90day_sound today_s sid sch dates : forall i rs r,
  status sch = "active" ->
  reminders_90day today_s sid sch i dates = Ok rs -> In r rs ->
  due today_s sid sch r.
Proof.
  induction dates as [|pdate dates IH]; intros i rs r Hact Hrun Hin; simpl in Hrun.
  - injection Hrun as <-. destruct Hin.
  - apply rbind_Ok in Hrun as (here & Hhere & Hrun).
    apply rbind_Ok in Hrun as (rest & Hrest & Hrun).
    injection Hrun as <-. apply in_app_or in Hin as [Hin|Hin].
    + destruct (String.eqb pdate today_s) eqn:Ed;
        [|injection Hhere as <-; destruct Hin].
      apply String.eqb_eq in Ed.
      destruct (mem_Z i (payments_made sch)) eqn:Hmem; simpl in Hhere;
        [injection Hhere as <-; destruct Hin|].
      apply rbind_Ok in Hhere as (monthly & _ & Hhere).
      injection Hhere as <-. destruct Hin as [<-|[]].
      unfold due; simpl. repeat split; try assumption.
      replace (i + 1 - 1) with i by lia.
      intros Hc. apply mem_Z_In in Hc. congruence.
    + eapply IH; eassumption.
Qed.

Lemma reminders_of_sound today_s sid sch rs r :
  reminders_of today_s sid sch = Ok rs -> In r rs -> due today_s sid sch r.
Proof.
  unfold reminders_of. intros Hrun Hin.
  destruct (String.eqb (status sch) "active") eqn:Hact; simpl in Hrun;
    [|injection Hrun as <-; destruct Hin].
  apply String.eqb_eq in Hact.
  destruct (is_60day sch).
  - apply rbind_Ok in Hrun as (pdate & _ & Hrun).
    destruct (String.eqb pdate today_s) eqn:Ed; simpl in Hrun;
      [|injection Hrun as <-; destruct Hin].
    apply String.eqb_eq in Ed.
    destruct (payments_made sch) as [|x pm] eqn:Hpm;
      [|injection Hrun as <-; destruct Hin].
    injection Hrun as <-. destruct Hin as [<-|[]].
    unfold due; simpl. rewrite Hpm. repeat split; auto.
  - apply rbind_Ok in Hrun as (dates & _ & Hrun).
    eapply reminders_90day_sound; eassumption.
Qed.

Lemma collect_reminders_sound today_s s : forall rs r,
  collect_reminders today_s s = Ok rs -> In r rs ->
  exists sch, In (r_schedule_id r, sch) s /\ due today_s (r_schedule_id r) sch r.
Proof.
  induction s as [|[sid sch] s IH]; intros rs r Hrun Hin; simpl in Hrun.
  - injection Hrun as <-. destruct Hin.
  - apply rbind_Ok in Hrun as (here & Hhere & Hrun).
    apply rbind_Ok in Hrun as (more & Hmore & Hrun).
    injection Hrun as <-. apply in_app_or in Hin as [Hin|Hin].
    + pose proof (@reminders_of_sound today_s sid sch here r Hhere Hin) as Hdue.
      assert (Hsid : r_schedule_id r = sid) by apply Hdue.
      exists sch. rewrite Hsid. split; [now left | assumption].
    + destruct (IH _ _ Hmore Hin) as (sch' & Hin' & Hdue).
      exists sch'. split; [now right | assumption].
Qed.

Lemma reminders_90day_total today_s sid sch dates : forall i,
  monthly_amount sch <> None ->
  exists rs, reminders_90day today_s sid sch i dates = Ok rs.
Proof.
  induction dates as [|pdate dates IH]; intros i Hm; simpl; [eauto|].
  destruct (IH (i + 1) Hm) as (rest & Hrest). rewrite Hrest.
  destruct (monthly_amount sch) as [m|]; [|congruence].
  destruct (String.eqb pdate today_s), (mem_Z i (payments_made sch));
    simpl; eauto.
Qed.

Lemma collect_reminders_total today_s s :
  (forall sid sch, In (sid, sch) s -> well_shaped sch) ->
  exists rs, collect_reminders today_s s = Ok rs.
Proof.
  induction s as [|[sid sch] s IH]; intros Hws; simpl; [eauto|].
  destruct IH as (more & ->).
  { intros sid' sch' H. apply (Hws sid' sch'). now right. }
  assert (Hsch : well_shaped sch) by (apply (Hws sid); now left).
  unfold reminders_of, well_shaped in *.
  destruct (negb (String.eqb (status sch) "active")); simpl; [eauto|].
  destruct (is_60day sch).
  - destruct (payment_date sch) as [pdate|]; [|congruence]. simpl.
    destruct (String.eqb pdate today_s && _); simpl; eauto.
  - destruct Hsch as [Hd Hm].
    destruct (payment_dates sch) as [dates|]; [|congruence]. simpl.
    destruct (@reminders_90day_total today_s sid sch dates 0 Hm) as (rs & ->).
    simpl. eauto.
Qed.

(** On a file whose entries have the keys their plan writes,
    [get_pending_reminders] returns a list. *)
Lemma get_pending_reminders_total e s :
  (forall sid sch, In (sid, sch) s -> well_shaped sch) ->
  exists rs, fst (get_pending_reminders e s) = Ok rs.
Proof.
  intros Hws. unfold get_pending_reminders, bind, _load_payment_schedules, lift.
  simpl. now apply collect_reminders_total.
Qed.

(** C6.  [get_pending_reminders] leaves the file as it is, whatever it
    returns; and every reminder of the list it returns belongs to a schedule
    whose status is [active] (so neither [cancelled] nor [completed]), is
    dated today, and names an installment whose index
    [payment_number - 1] is not in that schedule's [payments_made]. *)
Theorem pending_reminders_sound (e : env) (s : store) :
  snd (get_pending_reminders e s) = s
  /\ forall rs r,
       NoDup (keys s) ->
       fst (get_pending_reminders e s) = Ok rs ->
       In r rs ->
       exists sch,
         lookup (r_schedule_id r) s = Some sch
         /\ status sch = "active"
         /\ status sch <> "cancelled" /\ status sch <> "completed"
         /\ r_payment_date r = PyDate.strftime_ymd (today e)
         /\ ~ In (r_payment_number r - 1) (payments_made sch).
Proof.
  unfold get_pending_reminders, bind, _load_payment_schedules, lift. simpl.
  split; [reflexivity|].
  intros rs r Hnd Hrun Hin.
  destruct (@collect_reminders_sound _ s rs r Hrun Hin) as (sch & Hs & _ & Hd & Hact & Hnot).
  exists sch. split; [now apply In_lookup|].
  rewrite Hact. repeat split; try assumption; discriminate.
Qed.

Lemma pending_reminders_sound_witness :
  snd (get_pending_reminders Samples.sched_env Samples.store_60day)
  = Samples.store_60day
  /\ exists sch,
       lookup "7_B_2" Samples.store_60day = Some sch
       /\ status sch = "active"
       /\ status sch <> "cancelled" /\ status sch <> "completed"
       /\ "2024-01-15" = PyDate.strftime_ymd (today Samples.sched_env)
       /\ ~ In (1 - 1) (payments_made sch).
Proof.
  destruct (pending_reminders_sound Samples.sched_env Samples.store_60day)
    as [Hpure Hsound].
  split; [exact Hpure|].
  refine (Hsound _
            {| r_schedule_id := "7_B_2"; r_user_id := 7;
               r_customer_info := Samples.alice; r_payment_number := 1;
               r_payment_amount := Some (PyNum.PInt 900000);
               r_monthly_amount := None; r_remaining_payments := None;
               r_payment_type := "60day"; r_payment_date := "2024-01-15" |}
            _ eq_refl _).
  - repeat constructor; simpl; intuition discriminate.
  - simpl. right. now left.
Defined.

(** *** Creating a 90-day schedule *)

Lemma add_days_in_range o n :
  1 <= o -> 0 <= n -> o + n <= PyDate.max_ordinal ->
  PyDate.add_days o n = Ok (o + n).
Proof.
  intros H1 H2 H3. unfold PyDate.add_days.
  replace (1 <=? o + n) with true by (symmetry; apply Z.leb_le; lia).
  replace (o + n <=? PyDate.max_ordinal) with true
    by (symmetry; apply Z.leb_le; lia).
  reflexivity.
Qed.

(** C9.  [add_90day_payment_schedule] stores, under the new schedule id, an
    entry whose [monthly_amount] is the Python quotient
    [remaining_amount / 3], whose [payment_dates] are the dates 30, 60 and
    90 days after the day of the call, whose status is [active] and whose
    [payments_made] is empty (when the quotient overflows, the call raises
    and the file is untouched); and [900000 / 3], for the [int] as for the
    [float] 900000, is the float whose value is exactly 300000. *)
Theorem add_90day_schedule_created
    (e : env) (s : store) (uid : Z) (cinfo : customer)
    (total advance remaining : PyNum.num) (oid : string)
    (Hw : write_ok e = true)
    (Hlo : 1 <= today e)
    (Hhi : today e + 90 <= PyDate.max_ordinal) :
  match PyNum.py_truediv remaining (PyNum.PInt 3) with
  | Raise ex =>
      add_90day_payment_schedule e uid cinfo total advance remaining oid s
      = (Raise ex, s)
  | Ok monthly =>
      fst (add_90day_payment_schedule e uid cinfo total advance remaining oid s)
      = Ok true
      /\ exists sch,
           lookup (make_schedule_id e uid oid)
             (snd (add_90day_payment_schedule e uid cinfo total advance
                     remaining oid s)) = Some sch
           /\ remaining_amount sch = remaining
           /\ monthly_amount sch = Some monthly
           /\ payment_dates sch
              = Some [PyDate.strftime_ymd (today e + 30);
                      PyDate.strftime_ymd (today e + 60);
                      PyDate.strftime_ymd (today e + 90)]
           /\ status sch = "active"
           /\ payments_made sch = []
  end
  /\ (exists f,
        PyNum.py_truediv (PyNum.PInt 900000) (PyNum.PInt 3) = Ok (PyNum.PFloat f)
        /\ PyNum.float_value_is f 300000)
  /\ (exists f,
        PyNum.py_truediv (PyNum.PFloat (PyNum.nearest_of_Z 900000)) (PyNum.PInt 3)
        = Ok (PyNum.PFloat f)
        /\ PyNum.float_value_is f 300000).
Proof.
  split.
  - unfold add_90day_payment_schedule, bind, _load_payment_schedules, lift,
      date_after, _save_payment_schedules, ret.
    destruct (PyNum.py_truediv remaining (PyNum.PInt 3)) as [monthly|ex];
      [|reflexivity].
    rewrite !add_days_in_range by lia. simpl. rewrite Hw. simpl.
    split; [reflexivity|]. eexists.
    split; [apply lookup_setitem_same|]. simpl. repeat split.
  - split; eexists; (split; [vm_compute; reflexivity|]); vm_compute; reflexivity.
Qed.

Lemma add_90day_schedule_created_witness :
  (fst (add_90day_payment_schedule Samples.sched_env 7 Samples.alice
          (PyNum.PInt 1200000) (PyNum.PInt 300000) (PyNum.PInt 900000) "A" [])
   = Ok true
   /\ exists sch,
        lookup "7_A_1"
          (snd (add_90day_payment_schedule Samples.sched_env 7 Samples.alice
                  (PyNum.PInt 1200000) (PyNum.PInt 300000)
                  (PyNum.PInt 900000) "A" [])) = Some sch
        /\ remaining_amount sch = PyNum.PInt 900000
        /\ monthly_amount sch
           = Some (PyNum.PFloat (S754_finite false 5153960755200000 (-34)))
        /\ payment_dates sch = Some ["2024-02-14"; "2024-03-15"; "2024-04-14"]
        /\ status sch = "active"
        /\ payments_made sch = [])
  /\ (exists f,
        PyNum.py_truediv (PyNum.PInt 900000) (PyNum.PInt 3) = Ok (PyNum.PFloat f)
        /\ PyNum.float_value_is f 300000)
  /\ (exists f,
        PyNum.py_truediv (PyNum.PFloat (PyNum.nearest_of_Z 900000)) (PyNum.PInt 3)
        = Ok (PyNum.PFloat f)
        /\ PyNum.float_value_is f 300000).
Proof.
  apply (@add_90day_schedule_created Samples.sched_env [] 7 Samples.alice
           (PyNum.PInt 1200000) (PyNum.PInt 300000) (PyNum.PInt 900000) "A");
    [reflexivity | vm_compute; discriminate | vm_compute; discriminate].
Defined.

End SchedulerFacts.

(** ** The order server *)

Module OrderFacts.
Import PyNum Pricing OrderServer.

Lemma with_effects_nil w : with_effects w [] = w.
Proof. destruct w. unfold with_effects. simpl. now rewrite app_nil_r. Qed.

Lemma with_effects_app w evs1 evs2 :
  with_effects (with_effects w evs1) evs2 = with_effects w (evs1 ++ evs2).
Proof. unfold with_effects. simpl. now rewrite <- app_assoc. Qed.

Lemma send_with_retry_sends e uid m oid attempts :
  Forall (customer_send uid) (fst (send_with_retry e uid m oid attempts)).
Proof.
  induction attempts as [|a rest IH]; simpl; [constructor|].
  destruct (send_ok e a); simpl; [repeat constructor|].
  destruct (send_with_retry e uid m oid rest) as [evs raised]. simpl in IH.
  destruct (Nat.eqb a _); [destruct (send_ok e (S a))|]; simpl;
    repeat constructor; assumption.
Qed.

(** [_notify_customer] never raises and only sends to the customer. *)
Lemma notify_customer_spec e uid st oid admin w :
  exists evs,
    _notify_customer e uid st oid admin w = (Ok tt, with_effects w evs)
    /\ Forall (customer_send uid) evs.
Proof.
  unfold _notify_customer.
  destruct (bot_set e); cbn [negb].
  2:{ exists []. rewrite with_effects_nil. split; [reflexivity | constructor]. }
  unfold bind.
  set (msg := if String.eqb st OrderStatus.CANCELLED then _ else _).
  assert (Hmsg : exists m, msg w = (Ok m, w)).
  { subst msg. destruct (String.eqb st OrderStatus.CANCELLED);
      unfold bind, _load_order, ret; simpl; eauto. }
  destruct Hmsg as (m & ->).
  pose proof (send_with_retry_sends e uid m oid (seq 0 max_retries)) as Hs.
  destruct (send_with_retry e uid m oid (seq 0 max_retries)) as [evs raised].
  cbn [fst] in Hs. unfold emit at 1. cbn beta iota.
  destruct raised.
  - exists (evs ++ [EvSend uid (MsgEmergency oid) (send_ok e (S max_retries))])%list.
    split.
    + unfold emit, with_effects. cbn [trace counter_file order_files].
      now rewrite <- app_assoc.
    + apply Forall_app. split; [assumption | repeat constructor].
  - exists evs. split; [reflexivity | assumption].
Qed.

Lemma customer_send_side_effect uid evs :
  Forall (customer_send uid) evs -> Forall side_effect evs.
Proof.
  apply Forall_impl. intros [] H; simpl in *; tauto.
Qed.

Lemma update_order_status_unknown e oid ns admin nt w :
  lookup (_get_order_file_path oid) (order_files w) = None ->
  update_order_status e oid ns admin nt w = (Ok false, w).
Proof.
  intros H. unfold update_order_status, try_except, bind, _load_order. simpl.
  now rewrite H.
Qed.

Lemma update_order_status_write_fails e oid ns admin nt w o :
  lookup (_get_order_file_path oid) (order_files w) = Some o ->
  save_ok e = false ->
  update_order_status e oid ns admin nt w = (Ok false, unsaved e w o).
Proof.
  intros H Hs.
  unfold update_order_status, try_except, bind, _load_order, _save_order,
    unsaved, lost.
  simpl. rewrite H, Hs. now destruct (save_truncates e).
Qed.

(** The whole effect of a call on a stored order when the write succeeds:
    first the write, then the side effects; the answer is [True]. *)
Lemma update_order_status_eq e oid ns admin nt w o :
  lookup (_get_order_file_path oid) (order_files w) = Some o ->
  save_ok e = true ->
  exists effects,
    update_order_status e oid ns admin nt w
    = (Ok true, with_effects (saved w (with_status e o ns admin nt)) effects)
    /\ Forall side_effect effects.
Proof.
  intros H Hs.
  unfold update_order_status, try_except.
  unfold bind at 1. unfold _load_order at 1. cbn beta iota. rewrite H.
  unfold bind at 1. unfold _save_order at 1. rewrite Hs. cbn beta iota zeta.
  fold (saved w (with_status e o ns admin nt)).
  set (w1 := saved w (with_status e o ns admin nt)).
  unfold bind at 1.
  assert (Hsp : exists evs,
             (if String.eqb ns OrderStatus.CONFIRMED
                 && no_invoice_id (with_status e o ns admin nt)
              then emit [EvSpawnInvoice oid] else ret tt) w1
             = (Ok tt, with_effects w1 evs)
             /\ Forall side_effect evs).
  { destruct (String.eqb ns OrderStatus.CONFIRMED && _).
    - exists [EvSpawnInvoice oid]. split; [reflexivity|].
      repeat constructor.
    - exists []. rewrite with_effects_nil. split; [reflexivity | constructor]. }
  destruct Hsp as (evs1 & -> & Hevs1).
  unfold bind at 1.
  destruct (negb (user_id (with_status e o ns admin nt) =? 0) && bot_set e).
  - destruct (notify_customer_spec e (user_id (with_status e o ns admin nt))
                ns oid admin (with_effects w1 evs1)) as (evs2 & -> & Hevs2).
    exists (evs1 ++ evs2)%list. rewrite with_effects_app.
    split; [reflexivity|].
    apply Forall_app. split; [assumption|].
    eapply customer_send_side_effect; eassumption.
  - exists evs1. split; [reflexivity | assumption].
Qed.

(** C7.  A call that answers [True] found the order and wrote the updated
    record before anything else: the record written carries the new
    status, the time of the call as [updated_at] and the history of the
    stored order followed by one entry (the new status, the admin, the
    time, the note given or the sentence of the change), every other field
    being that of the stored order; the effects of the call are that write
    followed only by side effects (the spawned invoicing task, messages to
    the customer), and the record is the one stored afterwards.  And when
    the order is stored and the write succeeds, the answer is [True]
    whatever the outcome of every message ([send_ok] is arbitrary). *)
Theorem update_persists_before_side_effects
    (e : env) (w : world) (oid ns admin nt : string) :
  (fst (update_order_status e oid ns admin nt w) = Ok true ->
   exists o o' entry effects,
     lookup (_get_order_file_path oid) (order_files w) = Some o
     /\ trace (snd (update_order_status e oid ns admin nt w))
        = (trace w
           ++ EvSaveOrder (_get_order_file_path (order_id o)) o'
              :: effects)%list
     /\ status o' = ns
     /\ updated_at o' = clock e 0%nat
     /\ status_history o' = (status_history o ++ [entry])%list
     /\ h_status entry = ns
     /\ h_timestamp entry = clock e 1%nat
     /\ h_admin entry = Some admin
     /\ h_note entry = (if String.eqb nt ""
                        then NoteChanged (status o) ns else NoteGiven nt)
     /\ order_id o' = order_id o
     /\ user_id o' = user_id o
     /\ customer_of o' = customer_of o
     /\ cart_items o' = cart_items o
     /\ payment_method o' = payment_method o
     /\ pricing_of o' = pricing_of o
     /\ created_at o' = created_at o
     /\ hesabfa_invoice_id o' = hesabfa_invoice_id o
     /\ Forall side_effect effects
     /\ lookup (_get_order_file_path (order_id o))
          (order_files (snd (update_order_status e oid ns admin nt w)))
        = Some o')
  /\ (forall o,
        lookup (_get_order_file_path oid) (order_files w) = Some o ->
        save_ok e = true ->
        fst (update_order_status e oid ns admin nt w) = Ok true).
Proof.
  split.
  - intros Hok.
    destruct (lookup (_get_order_file_path oid) (order_files w)) as [o|] eqn:Hl.
    2:{ rewrite update_order_status_unknown in Hok by assumption.
        discriminate. }
    destruct (save_ok e) eqn:Hs.
    2:{ rewrite (@update_order_status_write_fails e oid ns admin nt w o Hl Hs)
          in Hok. discriminate. }
    destruct (@update_order_status_eq e oid ns admin nt w o Hl Hs)
      as (effects & Heq & Heff).
    exists o, (with_status e o ns admin nt),
      {| h_status := ns; h_timestamp := clock e 1%nat;
         h_admin := Some admin;
         h_note := if String.eqb nt ""
                   then NoteChanged (status o) ns else NoteGiven nt |},
      effects.
    rewrite Heq.
    cbn [snd with_effects saved trace order_files with_status status
         updated_at status_history order_id user_id customer_of cart_items
         payment_method pricing_of created_at hesabfa_invoice_id
         h_status h_timestamp h_admin h_note].
    split; [reflexivity|]. split; [now rewrite <- app_assoc|].
    repeat (split; [reflexivity|]).
    split; [assumption | apply lookup_setitem_same].
  - intros o Hl Hs.
    destruct (@update_order_status_eq e oid ns admin nt w o Hl Hs)
      as (effects & Heq & _).
    now rewrite Heq.
Qed.

Lemma update_persists_before_side_effects_witness :
  (exists o o' entry effects,
     lookup (_get_order_file_path "00001")
       (order_files Samples.world_one_order) = Some o
     /\ trace (snd (update_order_status Samples.offline_env "00001"
                      "confirmed" "admin" "" Samples.world_one_order))
        = (trace Samples.world_one_order
           ++ EvSaveOrder (_get_order_file_path (order_id o)) o'
              :: effects)%list
     /\ status o' = "confirmed"
     /\ updated_at o' = "2024-02-01T09:30:00.000001"
     /\ status_history o' = (status_history o ++ [entry])%list
     /\ h_status entry = "confirmed"
     /\ h_timestamp entry = "2024-02-01T09:30:00.000002"
     /\ h_admin entry = Some "admin"
     /\ h_note entry = NoteChanged (status o) "confirmed"
     /\ order_id o' = order_id o
     /\ user_id o' = user_id o
     /\ customer_of o' = customer_of o
     /\ cart_items o' = cart_items o
     /\ payment_method o' = payment_method o
     /\ pricing_of o' = pricing_of o
     /\ created_at o' = created_at o
     /\ hesabfa_invoice_id o' = hesabfa_invoice_id o
     /\ Forall side_effect effects
     /\ lookup (_get_order_file_path (order_id o))
          (order_files (snd (update_order_status Samples.offline_env "00001"
                               "confirmed" "admin" ""
                               Samples.world_one_order)))
        = Some o')
  /\ fst (update_order_status Samples.offline_env "00001" "confirmed" "admin" ""
            Samples.world_one_order) = Ok true.
Proof.
  destruct (update_persists_before_side_effects Samples.offline_env
              Samples.world_one_order "00001" "confirmed" "admin" "")
    as [Hfirst Hanswer].
  split.
  - apply Hfirst. vm_compute. reflexivity.
  - eapply Hanswer; vm_compute; reflexivity.
Defined.

(** *** Updates of an order in a terminal status *)

(** C1, as stated, at one input: the order stored under [00001] is
    [completed]; the call asking for [pending] is not rejected, it answers
    [True] and the stored record is another one, with status [pending] and
    a new [updated_at]. *)
Lemma update_from_terminal_counterexample :
  lookup (_get_order_file_path "00001") (order_files Samples.world_completed)
  = Some Samples.order_completed
  /\ status Samples.order_completed = OrderStatus.COMPLETED
  /\ ~ (fst (update_order_status Samples.offline_env "00001" "pending" "admin" ""
               Samples.world_completed) = Ok false
        /\ lookup (_get_order_file_path "00001")
             (order_files
                (snd (update_order_status Samples.offline_env "00001" "pending"
                        "admin" "" Samples.world_completed)))
           = Some Samples.order_completed).
Proof.
  split; [reflexivity|]. split; [reflexivity|].
  intros [Hfalse _]. vm_compute in Hfalse. discriminate.
Qed.

(** C1, amended.  There is no check of the current status: for every stored
    order, one in [completed] or [cancelled] included, a call whose write
    succeeds answers [True] and stores the record with the new status, one
    more history entry carrying the new status, and [updated_at] set to the
    time of the call; every other field is kept. *)
Theorem update_applies_from_any_status
    (e : env) (w : world) (oid ns admin nt : string) (o : order)
    (Hl : lookup (_get_order_file_path oid) (order_files w) = Some o)
    (Hid : order_id o = oid)
    (Hs : save_ok e = true) :
  fst (update_order_status e oid ns admin nt w) = Ok true
  /\ exists o' entry,
       lookup (_get_order_file_path oid)
         (order_files (snd (update_order_status e oid ns admin nt w)))
       = Some o'
       /\ status o' = ns
       /\ updated_at o' = clock e 0%nat
       /\ status_history o' = (status_history o ++ [entry])%list
       /\ h_status entry = ns
       /\ order_id o' = order_id o /\ user_id o' = user_id o
       /\ cart_items o' = cart_items o /\ pricing_of o' = pricing_of o
       /\ created_at o' = created_at o.
Proof.
  destruct (@update_order_status_eq e oid ns admin nt w o Hl Hs)
    as (effects & Heq & _).
  rewrite Heq. subst oid. cbn [fst snd with_effects saved order_files].
  split; [reflexivity|].
  exists (with_status e o ns admin nt).
  exists {| h_status := ns; h_timestamp := clock e 1%nat;
            h_admin := Some admin;
            h_note := if String.eqb nt ""
                      then NoteChanged (status o) ns else NoteGiven nt |}.
  split; [apply lookup_setitem_same|].
  unfold with_status. cbn. repeat split.
Qed.

Lemma update_applies_from_any_status_witness :
  fst (update_order_status Samples.offline_env "00001" "pending" "admin" ""
         Samples.world_completed) = Ok true
  /\ exists o' entry,
       lookup (_get_order_file_path "00001")
         (order_files (snd (update_order_status Samples.offline_env "00001"
                              "pending" "admin" "" Samples.world_completed)))
       = Some o'
       /\ status o' = "pending"
       /\ updated_at o' = "2024-02-01T09:30:00.000001"
       /\ status_history o'
          = (status_history Samples.order_completed ++ [entry])%list
       /\ h_status entry = "pending"
       /\ order_id o' = order_id Samples.order_completed
       /\ user_id o' = user_id Samples.order_completed
       /\ cart_items o' = cart_items Samples.order_completed
       /\ pricing_of o' = pricing_of Samples.order_completed
       /\ created_at o' = created_at Samples.order_completed.
Proof.
  apply (@update_applies_from_any_status Samples.offline_env
           Samples.world_completed "00001" "pending" "admin" ""
           Samples.order_completed); reflexivity.
Defined.

(** *** Creating an order *)

Lemma generate_order_id_eq e uid w :
  _generate_order_id e uid w = (Ok (next_id e w), bumped e w).
Proof.
  unfold _generate_order_id, next_id, bumped. now destruct (counter_io_ok e).
Qed.

Lemma send_invoice_spec e o receipt w :
  exists evs,
    _send_invoice_to_support_group e o receipt w = (Ok tt, with_effects w evs)
    /\ Forall side_effect evs.
Proof.
  unfold _send_invoice_to_support_group.
  destruct (bot_set e); cbn [negb];
    [destruct (group_set e); cbn [negb]|].
  - exists [EvGroupInvoice (order_id o) receipt]. split; [reflexivity|].
    repeat constructor.
  - exists []. rewrite with_effects_nil. split; [reflexivity | constructor].
  - exists []. rewrite with_effects_nil. split; [reflexivity | constructor].
Qed.

(** The whole effect of [create_order] once the two amounts are computed
    and the write succeeds. *)
Lemma create_order_eq e uid cust cart method rate receipt w d t :
  save_ok e = true ->
  calculate_discount (calculate_subtotal cart) rate = Ok d ->
  calculate_tax (calculate_subtotal cart - d) = Ok t ->
  exists effects,
    create_order e uid cust cart method rate receipt w
    = (Ok (next_id e w),
       with_effects
         (saved (bumped e w)
            (new_order e (next_id e w) uid cust cart method rate
               (calculate_subtotal cart) d t (calculate_subtotal cart - d + t)))
         effects)
    /\ Forall side_effect effects.
Proof.
  intros Hs Hd Ht. unfold create_order.
  unfold bind at 1. rewrite generate_order_id_eq.
  unfold bind at 1. unfold lift at 1. rewrite Hd.
  unfold bind at 1. unfold lift at 1. rewrite Ht. cbn zeta.
  set (o := new_order _ _ _ _ _ _ _ _ _ _ _).
  unfold bind at 1. unfold _save_order at 1. rewrite Hs.
  fold (saved (bumped e w) o).
  unfold bind at 1.
  destruct (send_invoice_spec e o receipt (saved (bumped e w) o))
    as (evs1 & -> & Hevs1).
  unfold bind at 1.
  destruct (notify_customer_spec e uid OrderStatus.PENDING (next_id e w) ""
              (with_effects (saved (bumped e w) o) evs1))
    as (evs2 & -> & Hevs2).
  exists (evs1 ++ evs2)%list. rewrite with_effects_app.
  split; [reflexivity|].
  apply Forall_app. split; [assumption|].
  eapply customer_send_side_effect; eassumption.
Qed.

Lemma create_order_discount_raises e uid cust cart method rate receipt w ex :
  calculate_discount (calculate_subtotal cart) rate = Raise ex ->
  create_order e uid cust cart method rate receipt w = (Raise ex, bumped e w).
Proof.
  intros Hd. unfold create_order.
  unfold bind at 1. rewrite generate_order_id_eq.
  unfold bind at 1. unfold lift at 1. now rewrite Hd.
Qed.

Lemma create_order_tax_raises e uid cust cart method rate receipt w d ex :
  calculate_discount (calculate_subtotal cart) rate = Ok d ->
  calculate_tax (calculate_subtotal cart - d) = Raise ex ->
  create_order e uid cust cart method rate receipt w = (Raise ex, bumped e w).
Proof.
  intros Hd Ht. unfold create_order.
  unfold bind at 1. rewrite generate_order_id_eq.
  unfold bind at 1. unfold lift at 1. rewrite Hd.
  unfold bind at 1. unfold lift at 1. now rewrite Ht.
Qed.

(** [sum] folds from the left; the total is the spec's sum. *)
Lemma calculate_subtotal_sum cart :
  calculate_subtotal cart = sum_price_quantity cart.
Proof.
  unfold calculate_subtotal.
  assert (H : forall acc,
             fold_left (fun a item => a + price item * quantity item) cart acc
             = acc + sum_price_quantity cart).
  { induction cart as [|item cart IH]; intros acc; simpl.
    - lia.
    - rewrite IH. lia. }
  now rewrite H.
Qed.

Lemma discount_of_nothing rate :
  finite rate = true -> calculate_discount 0 rate = Ok 0.
Proof.
  destruct rate as [b | [sg | sg | | sg m ex]]; simpl; try discriminate;
    intros _; reflexivity.
Qed.

Lemma tax_of_nothing : calculate_tax 0 = Ok 0.
Proof. reflexivity. Qed.

(** C2, as stated, at one input: on a fresh directory the call with an
    empty cart is not rejected; it returns the id [00001], the counter file
    now holds 1 and the order file exists. *)
Lemma create_order_empty_cart_counterexample :
  fst (create_order Samples.order_env 7 Samples.alice [] "cash"
         Samples.rate_030 None empty_world) = Ok "00001"
  /\ counter_file empty_world = None
  /\ counter_file
       (snd (create_order Samples.order_env 7 Samples.alice [] "cash"
               Samples.rate_030 None empty_world)) = Some 1
  /\ lookup (_get_order_file_path "00001") (order_files empty_world) = None
  /\ lookup (_get_order_file_path "00001")
       (order_files
          (snd (create_order Samples.order_env 7 Samples.alice [] "cash"
                  Samples.rate_030 None empty_world)))
     = Some (new_order Samples.order_env "00001" 7 Samples.alice [] "cash"
               Samples.rate_030 0 0 0 0)
  /\ ~ ((exists ex,
           fst (create_order Samples.order_env 7 Samples.alice [] "cash"
                  Samples.rate_030 None empty_world) = Raise ex)
        /\ order_files
             (snd (create_order Samples.order_env 7 Samples.alice [] "cash"
                     Samples.rate_030 None empty_world))
           = order_files empty_world
        /\ counter_file
             (snd (create_order Samples.order_env 7 Samples.alice [] "cash"
                     Samples.rate_030 None empty_world))
           = counter_file empty_world).
Proof.
  repeat (split; [vm_compute; reflexivity|]).
  intros [_ [_ Hc]]. vm_compute in Hc. discriminate.
Qed.

(** C2, amended.  [create_order] does not look at the length of the cart:
    with an empty cart (and a finite rate, a succeeding write) it returns a
    new id, stores under it a [pending] order with no item whose amounts
    are all zero, and, when the counter file is usable, the counter has
    gone up by one. *)
Theorem create_order_accepts_empty_cart
    (e : env) (w : world) (uid : Z) (cust : customer) (method : string)
    (rate : num) (receipt : option string)
    (Hs : save_ok e = true)
    (Hf : finite rate = true) :
  fst (create_order e uid cust [] method rate receipt w) = Ok (next_id e w)
  /\ (exists o,
        lookup (_get_order_file_path (next_id e w))
          (order_files (snd (create_order e uid cust [] method rate receipt w)))
        = Some o
        /\ cart_items o = []
        /\ status o = OrderStatus.PENDING
        /\ user_id o = uid
        /\ pricing_of o
           = {| subtotal := 0; discount_rate := rate; discount := 0;
                tax := 0; total := 0 |})
  /\ (counter_io_ok e = true ->
      counter_file (snd (create_order e uid cust [] method rate receipt w))
      = Some (get_default (counter_file w) 0 + 1)).
Proof.
  destruct (@create_order_eq e uid cust [] method rate receipt w 0 0 Hs
              (discount_of_nothing rate Hf) tax_of_nothing)
    as (effects & Heq & _).
  rewrite Heq. cbn [fst snd with_effects saved order_files counter_file].
  split; [reflexivity|]. split.
  - eexists. split; [apply lookup_setitem_same|].
    cbn. repeat split.
  - intros Hc. unfold bumped. now rewrite Hc.
Qed.

Lemma create_order_accepts_empty_cart_witness :
  fst (create_order Samples.order_env 7 Samples.alice [] "cash"
         Samples.rate_030 None empty_world) = Ok "00001"
  /\ (exists o,
        lookup (_get_order_file_path "00001")
          (order_files (snd (create_order Samples.order_env 7 Samples.alice []
                               "cash" Samples.rate_030 None empty_world)))
        = Some o
        /\ cart_items o = []
        /\ status o = OrderStatus.PENDING
        /\ user_id o = 7
        /\ pricing_of o
           = {| subtotal := 0; discount_rate := Samples.rate_030;
                discount := 0; tax := 0; total := 0 |})
  /\ (counter_io_ok Samples.order_env = true ->
      counter_file (snd (create_order Samples.order_env 7 Samples.alice []
                           "cash" Samples.rate_030 None empty_world))
      = Some (get_default (counter_file empty_world) 0 + 1)).
Proof.
  apply (@create_order_accepts_empty_cart Samples.order_env empty_world 7
           Samples.alice "cash" Samples.rate_030 None);
    vm_compute; reflexivity.
Defined.

(** *** Pricing *)

(** The floats the literals denote, and that they are the nearest ones:
    the distance to [p/q] is at most half a unit in the last place. *)
Lemma literal_009 :
  tax_rate = S754_finite false 6485183463413514 (-56)
  /\ Z.abs (100 * 6485183463413514 - 9 * 2 ^ 56) <= 50.
Proof. split; [reflexivity | vm_compute; discriminate]. Qed.

Lemma literal_030 :
  literal 3 10 = S754_finite false 5404319552844595 (-54)
  /\ Z.abs (10 * 5404319552844595 - 3 * 2 ^ 54) <= 5.
Proof. split; [reflexivity | vm_compute; discriminate]. Qed.

Lemma literal_029 :
  literal 29 100 = S754_finite false 5224175567749775 (-54)
  /\ Z.abs (100 * 5224175567749775 - 29 * 2 ^ 54) <= 50.
Proof. split; [reflexivity | vm_compute; discriminate]. Qed.

Lemma calculate_discount_times x rate :
  calculate_discount x rate = int_times x rate.
Proof.
  unfold calculate_discount, int_times, floor_times_b64, py_mul.
  destruct rate as [b|r]; [reflexivity|].
  now destruct (float_of_int x).
Qed.

Lemma calculate_tax_b64 x : calculate_tax x = floor_times_b64 x tax_rate.
Proof. apply (calculate_discount_times x (PFloat tax_rate)). Qed.

(** C3, as stated, at two inputs.  With the rate read as the decimal
    fraction: for one item of 100 and the rate 0.29 the recorded discount
    is 28, and [floor(100 × 29/100)] is 29.  With the rate read as the
    exact value of the float: for the cart of the worked example and the
    rate 0.30 the recorded discount is 1,434,000, and the floor of the
    exact product is 1,433,999. *)
Lemma pricing_floor_counterexample :
  (exists o,
      lookup (_get_order_file_path "00001")
        (order_files
           (snd (create_order Samples.order_env 7 Samples.alice [Samples.lamp]
                   "cash" Samples.rate_029 None empty_world))) = Some o
      /\ subtotal (pricing_of o) = 100
      /\ discount (pricing_of o) = 28
      /\ discount (pricing_of o) <> floor_times_ratio 100 29 100)
  /\ floor_times_ratio 100 29 100 = 29
  /\ (exists o,
        lookup (_get_order_file_path "00001")
          (order_files
             (snd (create_order Samples.order_env 7 Samples.alice [Samples.sofa]
                     "cash" Samples.rate_030 None empty_world))) = Some o
        /\ subtotal (pricing_of o) = 4780000
        /\ discount (pricing_of o) = 1434000
        /\ discount (pricing_of o) <> floor_times_float 4780000 (literal 3 10))
  /\ floor_times_float 4780000 (literal 3 10) = 1433999.
Proof.
  split.
  { eexists. split; [vm_compute; reflexivity|].
    repeat split; vm_compute; discriminate || reflexivity. }
  split; [reflexivity|]. split.
  { eexists. split; [vm_compute; reflexivity|].
    repeat split; vm_compute; discriminate || reflexivity. }
  reflexivity.
Qed.

(** C3, amended.  [create_order] records [subtotal = Σ(price × quantity)],
    [discount] = the integer part of the Python product of the subtotal and
    the rate (for a float rate, of their binary64 product, rounded to
    nearest), [tax] = the integer part of the binary64 product of
    [subtotal - discount] and 0.09, and
    [total = subtotal - discount + tax]; when one of the two products
    cannot be computed the call raises.  (The worked example is the
    witness.) *)
Theorem create_order_pricing
    (e : env) (w : world) (uid : Z) (cust : customer)
    (cart : list cart_item) (method : string) (rate : num)
    (receipt : option string)
    (Hs : save_ok e = true) :
  match int_times (sum_price_quantity cart) rate with
  | Raise ex =>
      fst (create_order e uid cust cart method rate receipt w) = Raise ex
  | Ok d =>
      match floor_times_b64 (sum_price_quantity cart - d) tax_rate with
      | Raise ex =>
          fst (create_order e uid cust cart method rate receipt w) = Raise ex
      | Ok t =>
          fst (create_order e uid cust cart method rate receipt w)
          = Ok (next_id e w)
          /\ exists o,
               lookup (_get_order_file_path (next_id e w))
                 (order_files
                    (snd (create_order e uid cust cart method rate receipt w)))
               = Some o
               /\ pricing_of o
                  = {| subtotal := sum_price_quantity cart;
                       discount_rate := rate;
                       discount := d;
                       tax := t;
                       total := sum_price_quantity cart - d + t |}
      end
  end.
Proof.
  rewrite <- calculate_discount_times, <- calculate_subtotal_sum.
  destruct (calculate_discount (calculate_subtotal cart) rate)
    as [d|ex] eqn:Hd.
  2:{ now rewrite (@create_order_discount_raises e uid cust cart method
                     rate receipt w ex Hd). }
  rewrite <- calculate_tax_b64.
  destruct (calculate_tax (calculate_subtotal cart - d)) as [t|ex] eqn:Ht.
  2:{ now rewrite (@create_order_tax_raises e uid cust cart method
                     rate receipt w d ex Hd Ht). }
  destruct (@create_order_eq e uid cust cart method rate receipt w d t
              Hs Hd Ht) as (effects & Heq & _).
  rewrite Heq. cbn [fst snd with_effects saved order_files].
  split; [reflexivity|].
  eexists. split; [apply lookup_setitem_same | reflexivity].
Qed.

Lemma create_order_pricing_witness :
  fst (create_order Samples.order_env 7 Samples.alice [Samples.sofa] "cash"
         Samples.rate_030 None empty_world) = Ok "00001"
  /\ exists o,
       lookup (_get_order_file_path "00001")
         (order_files
            (snd (create_order Samples.order_env 7 Samples.alice
                    [Samples.sofa] "cash" Samples.rate_030 None empty_world)))
       = Some o
       /\ pricing_of o
          = {| subtotal := 4780000;
               discount_rate := Samples.rate_030;
               discount := 1434000;
               tax := 301140;
               total := 3647140 |}.
Proof.
  apply (@create_order_pricing Samples.order_env empty_world 7 Samples.alice
           [Samples.sofa] "cash" Samples.rate_030 None).
  reflexivity.
Defined.

End OrderFacts.

(** ** Listing the orders of a customer *)

Module ListingFacts.
Import PyNum Pricing OrderServer OrderFacts.

(** *** Characters of the generated ids *)

Lemma has_char_app c a b :
  PyStr.has_char c (a ++ b) = PyStr.has_char c a || PyStr.has_char c b.
Proof.
  induction a as [|x a IH]; simpl; [reflexivity|].
  now rewrite IH, orb_assoc.
Qed.

Lemma prefix_needs_char c u : forall t,
  PyStr.has_char c t = false -> String.prefix (u ++ String c "") t = false.
Proof.
  induction u as [|x u IH]; intros [|y t] H; simpl in *; try reflexivity.
  - apply orb_false_elim in H as [Hc _].
    destruct (ascii_dec c y) as [->|_]; [|reflexivity].
    now rewrite Ascii.eqb_refl in Hc.
  - apply orb_false_elim in H as [_ Ht].
    destruct (ascii_dec x y); [now apply IH | reflexivity].
Qed.

Lemma digit_char_not_underscore d :
  0 <= d < 10 -> Ascii.eqb "_" (PyStr.digit_char d) = false.
Proof.
  intros H.
  assert (Hd : d = 0 \/ d = 1 \/ d = 2 \/ d = 3 \/ d = 4 \/ d = 5 \/ d = 6
               \/ d = 7 \/ d = 8 \/ d = 9) by lia.
  repeat (destruct Hd as [-> | Hd]); try subst d; reflexivity.
Qed.

Lemma digits_aux_no_underscore fuel : forall n acc,
  PyStr.has_char "_" acc = false ->
  PyStr.has_char "_" (PyStr.digits_aux fuel n acc) = false.
Proof.
  induction fuel as [|fuel IH]; intros n acc H; cbn [PyStr.digits_aux];
    [assumption|].
  assert (Hacc : PyStr.has_char "_" (String (PyStr.digit_char (n mod 10)) acc)
                 = false).
  { cbn [PyStr.has_char]. rewrite digit_char_not_underscore; [assumption|].
    apply Z.mod_pos_bound. lia. }
  destruct (n / 10 =? 0); [assumption | now apply IH].
Qed.

Lemma digits_no_underscore n : PyStr.has_char "_" (PyStr.digits n) = false.
Proof. now apply digits_aux_no_underscore. Qed.

Lemma zfill_no_underscore width s :
  PyStr.has_char "_" s = false -> PyStr.has_char "_" (PyStr.zfill width s) = false.
Proof.
  intros H. unfold PyStr.zfill. rewrite has_char_app, H, orb_false_r.
  induction (width - String.length s)%nat as [|k IH]; simpl; auto.
Qed.

Lemma format_05d_no_underscore z :
  PyStr.has_char "_" (PyStr.format_05d z) = false.
Proof.
  unfold PyStr.format_05d. destruct (z <? 0).
  - rewrite has_char_app. cbn [PyStr.has_char]. rewrite orb_false_r.
    replace (Ascii.eqb "_" "-") with false by reflexivity.
    apply zfill_no_underscore, digits_no_underscore.
  - apply zfill_no_underscore, digits_no_underscore.
Qed.

Lemma next_id_no_underscore e w :
  clock_sane e -> PyStr.has_char "_" (next_id e w) = false.
Proof.
  intros H. unfold next_id. destruct (counter_io_ok e).
  - apply format_05d_no_underscore.
  - rewrite has_char_app. now rewrite H.
Qed.

(** *** Names in the directory *)

Lemma substring_all s : String.substring 0 (String.length s) s = s.
Proof. induction s as [|c s IH]; simpl; [reflexivity | now rewrite IH]. Qed.

(** The name [listdir] gives for the file of an order. *)
Lemma listed_name oid :
  (if PyStr.startswith (_get_order_file_path oid) (orders_dir ++ "/")
   then [String.substring 11
           (String.length (_get_order_file_path oid) - 11)
           (_get_order_file_path oid)]
   else [])
  = ["order_" ++ oid ++ ".json"].
Proof.
  unfold _get_order_file_path, orders_dir, PyStr.startswith. simpl.
  now rewrite substring_all.
Qed.

(** No generated name passes the filter of [get_customer_orders]. *)
Lemma generated_name_filtered uid oid :
  PyStr.has_char "_" oid = false ->
  PyStr.startswith ("order_" ++ oid ++ ".json")
    ("order_" ++ PyStr.str uid ++ "_") = false.
Proof.
  intros H. unfold PyStr.startswith. simpl.
  apply prefix_needs_char. rewrite has_char_app, H. reflexivity.
Qed.

Lemma flat_map_nil {A B} (f : A -> list B) l :
  (forall x, In x l -> f x = []) -> flat_map f l = [].
Proof.
  induction l as [|x l IH]; intros H; simpl; [reflexivity|].
  rewrite (H x) by now left. apply IH. intros y Hy. apply H. now right.
Qed.

(** On such a directory the listing is empty, for every user. *)
Lemma get_customer_orders_generated uid w :
  generated w -> get_customer_orders uid w = (Ok [], w).
Proof.
  intros Hg. unfold get_customer_orders. f_equal. f_equal.
  rewrite flat_map_nil; [reflexivity|].
  intros name Hname. unfold listdir in Hname.
  apply in_app_or in Hname as [Hname|Hname].
  - destruct (counter_file w); [|destruct Hname].
    destruct Hname as [<-|[]].
    replace (PyStr.endswith "order_counter.txt" ".json") with false
      by reflexivity.
    now rewrite andb_false_r.
  - apply in_flat_map in Hname as (p & Hp & Hname).
    unfold keys in Hp. apply in_map_iff in Hp as ([p' o] & <- & Hin).
    destruct (Hg _ _ Hin) as [-> Hid]. cbn [fst] in Hname.
    rewrite listed_name in Hname. destruct Hname as [<-|[]].
    now rewrite generated_name_filtered.
Qed.

(** *** The directories the server produces *)

Lemma In_setitem {V} k (v : V) d p x :
  In (p, x) (setitem k v d) -> (p = k /\ x = v) \/ In (p, x) d.
Proof.
  induction d as [|[k' v'] d IH]; simpl.
  - intros [H|[]]. injection H as <- <-. now left.
  - destruct (String.eqb k k'); simpl.
    + intros [H|H]; [injection H as <- <-; now left | right; now right].
    + intros [H|H]; [right; now left|].
      destruct (IH H) as [?|?]; [now left | right; now right].
Qed.

Lemma generated_saved w o :
  generated w -> PyStr.has_char "_" (order_id o) = false ->
  generated (saved w o).
Proof.
  intros Hg Ho p x Hin. simpl in Hin.
  apply In_setitem in Hin as [[-> ->]|Hin]; [now split | now apply Hg].
Qed.

Lemma generated_same_files w w' :
  order_files w' = order_files w -> generated w -> generated w'.
Proof. intros E Hg p o. rewrite E. apply Hg. Qed.

Lemma generated_bumped e w : generated w -> generated (bumped e w).
Proof.
  apply generated_same_files. unfold bumped. now destruct (counter_io_ok e).
Qed.

Lemma generated_lost w oid : generated w -> generated (lost w oid).
Proof.
  intros Hg p o Hin. cbn [lost order_files] in Hin.
  apply In_without in Hin. now apply Hg.
Qed.

Lemma generated_unsaved e w o : generated w -> generated (unsaved e w o).
Proof.
  intros Hg. unfold unsaved. destruct (save_truncates e);
    [now apply generated_lost | assumption].
Qed.

Lemma create_order_write_fails e uid cust cart method rate receipt w d t :
  save_ok e = false ->
  calculate_discount (calculate_subtotal cart) rate = Ok d ->
  calculate_tax (calculate_subtotal cart - d) = Ok t ->
  create_order e uid cust cart method rate receipt w
  = (Raise OSError,
     if save_truncates e then lost (bumped e w) (next_id e w)
     else bumped e w).
Proof.
  intros Hs Hd Ht. unfold create_order.
  unfold bind at 1. rewrite generate_order_id_eq.
  unfold bind at 1. unfold lift at 1. rewrite Hd.
  unfold bind at 1. unfold lift at 1. rewrite Ht. cbn zeta.
  unfold bind at 1. unfold _save_order at 1. rewrite Hs. cbn zeta.
  now destruct (save_truncates e).
Qed.

Lemma create_order_generated e uid cust cart method rate receipt w :
  clock_sane e -> generated w ->
  generated (snd (create_order e uid cust cart method rate receipt w)).
Proof.
  intros Hc Hg.
  destruct (calculate_discount (calculate_subtotal cart) rate) as [d|ex] eqn:Hd.
  2:{ rewrite (@create_order_discount_raises e uid cust cart method rate
                 receipt w ex Hd). now apply generated_bumped. }
  destruct (calculate_tax (calculate_subtotal cart - d)) as [t|ex] eqn:Ht.
  2:{ rewrite (@create_order_tax_raises e uid cust cart method rate
                 receipt w d ex Hd Ht). now apply generated_bumped. }
  destruct (save_ok e) eqn:Hs.
  2:{ rewrite (@create_order_write_fails e uid cust cart method rate
                 receipt w d t Hs Hd Ht). cbn [snd].
      destruct (save_truncates e);
        [apply generated_lost|]; now apply generated_bumped. }
  destruct (@create_order_eq e uid cust cart method rate receipt w d t
              Hs Hd Ht) as (effects & -> & _).
  simpl. eapply generated_same_files; [reflexivity|].
  apply generated_saved; [now apply generated_bumped|].
  simpl. now apply next_id_no_underscore.
Qed.

Lemma update_order_status_generated e oid ns admin nt w :
  generated w ->
  generated (snd (update_order_status e oid ns admin nt w)).
Proof.
  intros Hg.
  destruct (lookup (_get_order_file_path oid) (order_files w)) as [o|] eqn:Hl.
  2:{ now rewrite update_order_status_unknown. }
  destruct (save_ok e) eqn:Hs.
  2:{ rewrite (@update_order_status_write_fails e oid ns admin nt w o Hl Hs).
      now apply generated_unsaved. }
  destruct (@update_order_status_eq e oid ns admin nt w o Hl Hs)
    as (effects & -> & _).
  simpl. eapply generated_same_files; [reflexivity|].
  apply generated_saved; [assumption|]. simpl.
  apply lookup_In in Hl. now destruct (Hg _ _ Hl).
Qed.

Lemma reachable_generated w : reachable w -> generated w.
Proof.
  induction 1.
  - intros p o [].
  - now apply create_order_generated.
  - now apply update_order_status_generated.
Qed.

(** Whatever orders were created and updated, [get_customer_orders]
    returns the empty list for every user. *)
Lemma get_customer_orders_reachable uid w :
  reachable w -> get_customer_orders uid w = (Ok [], w).
Proof. intros H. now apply get_customer_orders_generated, reachable_generated. Qed.

(** C4, at the failing input.  After [create_order] for user 7 on a fresh
    directory the order file of user 7 exists, and the listing for user 7
    is empty. *)
Theorem customer_orders_listing_misses_order :
  (exists o,
      lookup (_get_order_file_path "00001")
        (order_files Samples.world_one_order) = Some o
      /\ user_id o = 7)
  /\ fst (get_customer_orders 7 Samples.world_one_order) = Ok [].
Proof.
  split.
  - eexists. split; vm_compute; reflexivity.
  - vm_compute. reflexivity.
Qed.

End ListingFacts.

(** ** More on the payment scheduler *)

Module SchedulerMore.
Import Scheduler SchedulerFacts.

(** *** Creating a 60-day schedule *)

(** X1.  [add_60day_payment_schedule] stores, under the new schedule id, an
    entry of type [60day] whose single [payment_date] is the date 60 days
    after the day of the call, with the amounts it was given, status
    [active] and no payment recorded; the other entries are kept. *)
Theorem add_60day_schedule_created
    (e : env) (s : store) (uid : Z) (cinfo : customer)
    (total advance remaining : PyNum.num) (oid : string)
    (Hw : write_ok e = true)
    (Hlo : 1 <= today e)
    (Hhi : today e + 60 <= PyDate.max_ordinal) :
  fst (add_60day_payment_schedule e uid cinfo total advance remaining oid s)
  = Ok true
  /\ (exists sch,
        lookup (make_schedule_id e uid oid)
          (snd (add_60day_payment_schedule e uid cinfo total advance
                  remaining oid s)) = Some sch
        /\ is_60day sch = true
        /\ payment_date sch = Some (PyDate.strftime_ymd (today e + 60))
        /\ total_amount sch = total /\ advance_paid sch = advance
        /\ remaining_amount sch = remaining
        /\ user_id sch = uid /\ order_id sch = oid
        /\ status sch = "active"
        /\ payments_made sch = [])
  /\ (forall sid, make_schedule_id e uid oid <> sid ->
        lookup sid
          (snd (add_60day_payment_schedule e uid cinfo total advance
                  remaining oid s)) = lookup sid s).
Proof.
  unfold add_60day_payment_schedule, bind, _load_payment_schedules, lift,
    date_after, _save_payment_schedules, ret.
  rewrite add_days_in_range by lia. cbn [rbind]. rewrite Hw. cbn [fst snd].
  split; [reflexivity|]. split.
  - eexists. split; [apply lookup_setitem_same|]. cbn. repeat split.
  - intros sid Hne. now apply lookup_setitem_other.
Qed.

Lemma add_60day_schedule_created_witness :
  fst (add_60day_payment_schedule Samples.sched_env 7 Samples.alice
         (PyNum.PInt 1200000) (PyNum.PInt 300000) (PyNum.PInt 900000) "B" [])
  = Ok true
  /\ (exists sch,
        lookup "7_B_1"
          (snd (add_60day_payment_schedule Samples.sched_env 7 Samples.alice
                  (PyNum.PInt 1200000) (PyNum.PInt 300000)
                  (PyNum.PInt 900000) "B" [])) = Some sch
        /\ is_60day sch = true
        /\ payment_date sch = Some "2024-03-15"
        /\ total_amount sch = PyNum.PInt 1200000
        /\ advance_paid sch = PyNum.PInt 300000
        /\ remaining_amount sch = PyNum.PInt 900000
        /\ user_id sch = 7 /\ order_id sch = "B"
        /\ status sch = "active"
        /\ payments_made sch = [])
  /\ (forall sid, "7_B_1" <> sid ->
        lookup sid
          (snd (add_60day_payment_schedule Samples.sched_env 7 Samples.alice
                  (PyNum.PInt 1200000) (PyNum.PInt 300000)
                  (PyNum.PInt 900000) "B" [])) = lookup sid []).
Proof.
  apply (@add_60day_schedule_created Samples.sched_env [] 7 Samples.alice
           (PyNum.PInt 1200000) (PyNum.PInt 300000) (PyNum.PInt 900000) "B");
    [reflexivity | vm_compute; discriminate | vm_compute; discriminate].
Defined.

(** *** Answers of [mark_payment_made] and [cancel_payment_schedule] *)

(** X2.  On a file of payment plans, [mark_payment_made] and
    [cancel_payment_schedule] do not raise; each answers [True] exactly
    when the schedule id is a key of the file and the write of the file
    succeeds.  When the answer is [False] because the id is unknown, or
    because the write failed before the file was opened, the file is as it
    was; when the write failed after [open(path, 'w')], the file is left
    empty or partial and reads as [{}]: every schedule is lost. *)
Theorem mark_and_cancel_answers (e : env) (sid : string) (n : Z) (s : store) :
  (exists b,
      fst (mark_payment_made e sid n s) = Ok b
      /\ (b = true <-> lookup sid s <> None /\ write_ok e = true)
      /\ (b = false ->
          snd (mark_payment_made e sid n s)
          = match lookup sid s with
            | Some _ => if write_truncates e then [] else s
            | None => s
            end))
  /\ (exists b,
        fst (cancel_payment_schedule e sid s) = Ok b
        /\ (b = true <-> lookup sid s <> None /\ write_ok e = true)
        /\ (b = false ->
            snd (cancel_payment_schedule e sid s)
            = match lookup sid s with
              | Some _ => if write_truncates e then [] else s
              | None => s
              end)).
Proof.
  unfold mark_payment_made, cancel_payment_schedule, bind,
    _load_payment_schedules, _save_payment_schedules, ret.
  destruct (lookup sid s) as [sch|]; destruct (write_ok e);
    destruct (write_truncates e); cbn [fst snd];
    split; eexists; (split; [reflexivity|]); split;
      try (split; [intros H; try discriminate; split; congruence
                  | intros [H1 H2]; congruence]);
      try (intros H; discriminate); try reflexivity.
Qed.

(** *** Schedules that are no longer reminded *)






(** *** Reminders of a new schedule on its due days *)

Lemma collect_reminders_includes today_s s : forall sid sch here rs r,
  In (sid, sch) s ->
  reminders_of today_s sid sch = Ok here ->
  collect_reminders today_s s = Ok rs ->
  In r here -> In r rs.
Proof.
  induction s as [|[sid0 sch0] s IH]; intros sid sch here rs r Hin Hof Hrun Hr;
    [destruct Hin|].
  simpl in Hrun.
  apply rbind_Ok in Hrun as (here0 & Hhere0 & Hrun).
  apply rbind_Ok in Hrun as (more & Hmore & Hrun).
  injection Hrun as <-. apply in_or_app.
  destruct Hin as [Heq|Hin].
  - injection Heq as -> ->. rewrite Hof in Hhere0. injection Hhere0 as <-.
    now left.
  - right. eapply IH; eassumption.
Qed.

Lemma well_shaped_setitem sid sch s :
  well_shaped sch ->
  (forall sid' sch', In (sid', sch') s -> well_shaped sch') ->
  forall sid' sch', In (sid', sch') (setitem sid sch s) -> well_shaped sch'.
Proof.
  intros Hsch Hs sid' sch' Hin.
  apply ListingFacts.In_setitem in Hin as [[_ ->]|Hin]; [assumption|].
  eapply Hs; eassumption.
Qed.

(** X5.  After [add_60day_payment_schedule], [get_pending_reminders] run on
    the day 60 days later (the other entries of the file being well formed)
    returns a list that holds the reminder of the new schedule: payment
    number 1, for the whole remaining amount. *)
Theorem new_60day_schedule_reminded
    (e e' : env) (s : store) (uid : Z) (cinfo : customer)
    (total advance remaining : PyNum.num) (oid : string)
    (Hw : write_ok e = true)
    (Hlo : 1 <= today e)
    (Hhi : today e + 60 <= PyDate.max_ordinal)
    (Hday : today e' = today e + 60)
    (Hws : forall sid sch, In (sid, sch) s -> well_shaped sch) :
  exists rs,
    fst (get_pending_reminders e'
           (snd (add_60day_payment_schedule e uid cinfo total advance
                   remaining oid s))) = Ok rs
    /\ In {| r_schedule_id := make_schedule_id e uid oid; r_user_id := uid;
             r_customer_info := cinfo; r_payment_number := 1;
             r_payment_amount := Some remaining;
             r_monthly_amount := None; r_remaining_payments := None;
             r_payment_type := "60day";
             r_payment_date := PyDate.strftime_ymd (today e + 60) |} rs.
Proof.
  unfold add_60day_payment_schedule, bind, _load_payment_schedules, lift,
    date_after, _save_payment_schedules, ret.
  rewrite add_days_in_range by lia. cbn [rbind]. rewrite Hw. cbn [fst snd].
  set (sid := make_schedule_id e uid oid).
  set (sch := {| user_id := uid |}).
  assert (Hsch : well_shaped sch) by (unfold well_shaped; cbn; discriminate).
  destruct (@get_pending_reminders_total e' (setitem sid sch s)
              (well_shaped_setitem sid sch s Hsch Hws)) as (rs & Hrs).
  exists rs. split; [exact Hrs|].
  unfold get_pending_reminders, bind, _load_payment_schedules, lift in Hrs.
  cbn [fst] in Hrs. rewrite Hday in Hrs.
  eapply collect_reminders_includes; [| | exact Hrs |].
  - apply lookup_In, lookup_setitem_same.
  - unfold reminders_of, is_60day. subst sch.
    cbn [status payment_type payment_date payments_made user_id customer_info
         remaining_amount get_default getitem rbind].
    rewrite !String.eqb_refl. cbn [negb andb]. reflexivity.
  - now left.
Qed.

Lemma new_60day_schedule_reminded_witness :
  exists rs,
    fst (get_pending_reminders
           {| today := 738960; timestamp := 99; write_ok := true;
              write_truncates := false |}
           (snd (add_60day_payment_schedule Samples.sched_env 7 Samples.alice
                   (PyNum.PInt 1200000) (PyNum.PInt 300000)
                   (PyNum.PInt 900000) "B" Samples.store_90day))) = Ok rs
    /\ In {| r_schedule_id := make_schedule_id Samples.sched_env 7 "B";
             r_user_id := 7;
             r_customer_info := Samples.alice; r_payment_number := 1;
             r_payment_amount := Some (PyNum.PInt 900000);
             r_monthly_amount := None; r_remaining_payments := None;
             r_payment_type := "60day";
             r_payment_date :=
               PyDate.strftime_ymd (today Samples.sched_env + 60) |} rs.
Proof.
  apply (@new_60day_schedule_reminded Samples.sched_env
           {| today := 738960; timestamp := 99; write_ok := true;
              write_truncates := false |}
           Samples.store_90day 7 Samples.alice
           (PyNum.PInt 1200000) (PyNum.PInt 300000) (PyNum.PInt 900000) "B").
  - reflexivity.
  - vm_compute; discriminate.
  - vm_compute; discriminate.
  - reflexivity.
  - intros sid sch [H|[]]. injection H as <- <-.
    unfold well_shaped. simpl. split; discriminate.
Defined.

(** X6.  After [add_90day_payment_schedule], [get_pending_reminders] run on
    the day 30, 60 or 90 days later (the other entries of the file being
    well formed) returns a list that holds the reminder of the new schedule
    for the installment of that day: payment number 1, 2 or 3, the monthly
    amount, three payments remaining. *)
Theorem new_90day_schedule_reminded
    (e e' : env) (s : store) (uid : Z) (cinfo : customer)
    (total advance remaining monthly : PyNum.num) (oid : string) (k : Z)
    (Hw : write_ok e = true)
    (Hlo : 1 <= today e)
    (Hhi : today e + 90 <= PyDate.max_ordinal)
    (Hdiv : PyNum.py_truediv remaining (PyNum.PInt 3) = Ok monthly)
    (Hk : k = 1 \/ k = 2 \/ k = 3)
    (Hday : today e' = today e + 30 * k)
    (Hws : forall sid sch, In (sid, sch) s -> well_shaped sch) :
  exists rs,
    fst (get_pending_reminders e'
           (snd (add_90day_payment_schedule e uid cinfo total advance
                   remaining oid s))) = Ok rs
    /\ In {| r_schedule_id := make_schedule_id e uid oid; r_user_id := uid;
             r_customer_info := cinfo; r_payment_number := k;
             r_payment_amount := None;
             r_monthly_amount := Some monthly;
             r_remaining_payments := Some 3;
             r_payment_type := "90day";
             r_payment_date := PyDate.strftime_ymd (today e + 30 * k) |} rs.
Proof.
  unfold add_90day_payment_schedule, bind, _load_payment_schedules, lift,
    date_after, _save_payment_schedules, ret.
  rewrite Hdiv. rewrite !add_days_in_range by lia. cbn [rbind].
  rewrite Hw. cbn [fst snd].
  set (sid := make_schedule_id e uid oid).
  set (sch := {| user_id := uid |}).
  assert (Hsch : well_shaped sch)
    by (unfold well_shaped; cbn; split; discriminate).
  destruct (@get_pending_reminders_total e' (setitem sid sch s)
              (well_shaped_setitem sid sch s Hsch Hws)) as (rs & Hrs).
  exists rs. split; [exact Hrs|].
  unfold get_pending_reminders, bind, _load_payment_schedules, lift in Hrs.
  cbn [fst] in Hrs. rewrite Hday in Hrs.
  set (today_s := PyDate.strftime_ymd (today e + 30 * k)) in *.
  assert (Hof : exists here,
             reminders_of today_s sid sch = Ok here
             /\ In {| r_schedule_id := sid; r_user_id := uid;
                      r_customer_info := cinfo; r_payment_number := k;
                      r_payment_amount := None;
                      r_monthly_amount := Some monthly;
                      r_remaining_payments := Some 3;
                      r_payment_type := "90day";
                      r_payment_date := today_s |} here).
  { unfold reminders_of, is_60day. subst sch.
    cbn [status payment_type payment_dates payments_made user_id customer_info
         monthly_amount get_default getitem rbind reminders_90day mem_Z
         existsb negb List.length Z.of_nat].
    replace (String.eqb "active" "active") with true by reflexivity.
    replace (String.eqb "90day" "60day") with false by reflexivity.
    cbn [negb rbind].
    subst today_s.
    destruct Hk as [-> | [-> | ->]].
    - replace (today e + 30 * 1) with (today e + 30) by lia.
      rewrite String.eqb_refl.
      destruct (String.eqb _ _), (String.eqb _ _); cbn;
        eexists; (split; [reflexivity|]); cbn; auto.
    - replace (today e + 30 * 2) with (today e + 60) by lia.
      rewrite String.eqb_refl.
      destruct (String.eqb _ _), (String.eqb _ _); cbn;
        eexists; (split; [reflexivity|]); cbn; auto.
    - replace (today e + 30 * 3) with (today e + 90) by lia.
      rewrite String.eqb_refl.
      destruct (String.eqb _ _), (String.eqb _ _); cbn;
        eexists; (split; [reflexivity|]); cbn; auto. }
  destruct Hof as (here & Hof & Hin).
  eapply collect_reminders_includes; [| exact Hof | exact Hrs | exact Hin].
  apply lookup_In, lookup_setitem_same.
Qed.

Lemma new_90day_schedule_reminded_witness :
  exists rs,
    fst (get_pending_reminders
           {| today := 738960; timestamp := 99; write_ok := true;
              write_truncates := false |}
           (snd (add_90day_payment_schedule Samples.sched_env 7 Samples.alice
                   (PyNum.PInt 1200000) (PyNum.PInt 300000)
                   (PyNum.PInt 900000) "A" []))) = Ok rs
    /\ In {| r_schedule_id := make_schedule_id Samples.sched_env 7 "A";
             r_user_id := 7;
             r_customer_info := Samples.alice; r_payment_number := 2;
             r_payment_amount := None;
             r_monthly_amount :=
               Some (PyNum.PFloat (S754_finite false 5153960755200000 (-34)));
             r_remaining_payments := Some 3;
             r_payment_type := "90day";
             r_payment_date :=
               PyDate.strftime_ymd (today Samples.sched_env + 30 * 2) |} rs.
Proof.
  apply (@new_90day_schedule_reminded Samples.sched_env
           {| today := 738960; timestamp := 99; write_ok := true;
              write_truncates := false |}
           [] 7 Samples.alice
           (PyNum.PInt 1200000) (PyNum.PInt 300000) (PyNum.PInt 900000)
           (PyNum.PFloat (S754_finite false 5153960755200000 (-34))) "A" 2).
  - reflexivity.
  - vm_compute; discriminate.
  - vm_compute; discriminate.
  - reflexivity.
  - right. now left.
  - reflexivity.
  - intros sid sch [].
Defined.

(** *** The list of paid installments *)

Lemma insert_Z_perm x l : Permutation (x :: l) (insert_Z x l).
Proof.
  induction l as [|y l IH]; simpl; [reflexivity|].
  destruct (x <=? y); [reflexivity|].
  rewrite perm_swap. now constructor.
Qed.

Lemma sort_Z_perm l : Permutation l (sort_Z l).
Proof.
  induction l as [|y l IH]; simpl; [constructor|].
  rewrite <- insert_Z_perm. now constructor.
Qed.

Lemma insert_Z_sorted x l : Sorted Z.le l -> Sorted Z.le (insert_Z x l).
Proof.
  induction l as [|y l IH]; intros Hs; simpl.
  - repeat constructor.
  - destruct (x <=? y) eqn:E.
    + constructor; [assumption|]. constructor. now apply Z.leb_le.
    + apply Z.leb_gt in E. inversion Hs as [|? ? Hs' Hhd]; subst.
      constructor; [now apply IH|].
      destruct l as [|z l]; simpl.
      * constructor. lia.
      * destruct (x <=? z); constructor; [lia|].
        now inversion Hhd.
Qed.

Lemma sort_Z_sorted l : Sorted Z.le (sort_Z l).
Proof.
  induction l as [|y l IH]; simpl; [constructor | now apply insert_Z_sorted].
Qed.

Lemma sorted_le_NoDup_lt l : Sorted Z.le l -> NoDup l -> Sorted Z.lt l.
Proof.
  induction l as [|a l IH]; intros Hs Hnd; [constructor|].
  inversion Hs as [|? ? Hs' Hhd]; subst.
  inversion Hnd as [|? ? Hnotin Hnd']; subst.
  constructor; [now apply IH|].
  destruct l as [|b l]; constructor.
  inversion Hhd; subst.
  assert (a <> b) by (intros ->; apply Hnotin; now left). lia.
Qed.

Lemma sorted_lt_NoDup l : Sorted Z.lt l -> NoDup l.
Proof.
  intros Hs. apply Sorted_StronglySorted in Hs; [|exact Z.lt_trans].
  induction Hs as [|a l Hs IH Hall]; constructor; [|assumption].
  intros Hin. rewrite Forall_forall in Hall. specialize (Hall a Hin). lia.
Qed.

Lemma made_after_In pm n x :
  In x (made_after pm n) <-> In x pm \/ x = n - 1.
Proof.
  unfold made_after. destruct (mem_Z (n - 1) pm) eqn:E; simpl.
  - apply mem_Z_In in E. split; [now left|]. intros [H| ->]; assumption.
  - rewrite In_sort_Z, in_app_iff. simpl. intuition.
Qed.

Lemma made_after_increasing pm n :
  Sorted Z.lt pm -> Sorted Z.lt (made_after pm n).
Proof.
  intros Hs. unfold made_after. destruct (mem_Z (n - 1) pm) eqn:E; simpl;
    [assumption|].
  apply sorted_le_NoDup_lt; [apply sort_Z_sorted|].
  eapply Permutation_NoDup; [apply sort_Z_perm|].
  apply NoDup_app; [now apply sorted_lt_NoDup | repeat constructor; intros [] |].
  intros y Hy [<-|[]].
  apply mem_Z_In in Hy. congruence.
Qed.

Lemma made_after_length pm n :
  (List.length pm <= List.length (made_after pm n))%nat.
Proof.
  unfold made_after. destruct (negb (mem_Z (n - 1) pm)); [|lia].
  rewrite length_sort_Z, length_app. simpl. lia.
Qed.

(** The entry of a 90-day schedule after a run of calls: its list of paid
    indices is the fold of the single step, and its status is [completed]
    once the list has three entries, the status it had otherwise. *)
Lemma run_90day e sid l : forall s sch,
  write_ok e = true -> lookup sid s = Some sch -> is_60day sch = false ->
  (3 <= Z.of_nat (List.length (payments_made sch)) ->
   status sch = "completed") ->
  exists sch',
    lookup sid (mark_all e sid l s) = Some sch'
    /\ is_60day sch' = false
    /\ payments_made sch' = made_run l (payments_made sch)
    /\ status sch'
       = if 3 <=? Z.of_nat (List.length (payments_made sch'))
         then "completed" else status sch.
Proof.
  induction l as [|n l IH]; intros s sch Hw Hl H90 Hdone.
  - exists sch. simpl. repeat split; try assumption.
    destruct (3 <=? _) eqn:E; [|reflexivity].
    apply Z.leb_le in E. now apply Hdone.
  - simpl. rewrite (@mark_90day_eq e sid n s sch Hw Hl H90). cbn [snd].
    set (sch1 := with_payments sch _ _).
    destruct (IH (setitem sid sch1 s) sch1 Hw (lookup_setitem_same _ _ _) H90)
      as (sch' & Hl' & H90' & Hpm' & Hst').
    { subst sch1. cbn. intros H3. apply Z.leb_le in H3. now rewrite H3. }
    exists sch'. repeat split; try assumption.
    rewrite Hst'. destruct (3 <=? Z.of_nat (List.length (payments_made sch'))) eqn:E;
      [reflexivity|].
    subst sch1. cbn [status with_payments].
    destruct (3 <=? Z.of_nat (List.length (made_after (payments_made sch) n))) eqn:E1;
      [|reflexivity].
    exfalso. apply Z.leb_le in E1. apply Z.leb_gt in E.
    rewrite Hpm' in E. cbn [payments_made with_payments] in E.
    assert (Hmono : forall l0 pm,
               (List.length pm <= List.length (made_run l0 pm))%nat).
    { induction l0 as [|m l0 IH0]; intros pm; simpl; [lia|].
      etransitivity; [apply made_after_length | apply IH0]. }
    specialize (Hmono l (made_after (payments_made sch) n)). lia.
Qed.

Lemma made_run_In l : forall pm x,
  In x (made_run l pm) <-> In x pm \/ exists n, In n l /\ x = n - 1.
Proof.
  induction l as [|m l IH]; intros pm x; simpl.
  - split; [now left | intros [H|(n & [] & _)]; assumption].
  - rewrite IH, made_after_In. split.
    + intros [[H| ->]|(n & Hn & ->)].
      * now left.
      * right. exists m. split; [now left | reflexivity].
      * right. exists n. split; [now right | reflexivity].
    + intros [H|(n & [<-|Hn] & ->)].
      * left. now left.
      * left. now right.
      * right. exists n. now split.
Qed.

Lemma made_run_increasing l : forall pm,
  Sorted Z.lt pm -> Sorted Z.lt (made_run l pm).
Proof.
  induction l as [|m l IH]; intros pm Hs; simpl; [assumption|].
  apply IH. now apply made_after_increasing.
Qed.

(** X7.  Along any run of [mark_payment_made] calls on a 90-day schedule
    whose [payments_made] is strictly increasing (as the empty list of a new
    schedule is), whatever the payment numbers, [payments_made] stays
    strictly increasing (so without duplicates) and holds exactly the old
    indices and the indices [payment_number - 1] of the calls. *)
Theorem payments_made_sorted_set
    (e : env) (s : store) (sid : string) (sch : schedule) (l : list Z)
    (Hw : write_ok e = true)
    (Hl : lookup sid s = Some sch)
    (H90 : is_60day sch = false)
    (Hdone : 3 <= Z.of_nat (List.length (payments_made sch)) ->
             status sch = "completed")
    (Hs : Sorted Z.lt (payments_made sch)) :
  exists sch',
    lookup sid (mark_all e sid l s) = Some sch'
    /\ Sorted Z.lt (payments_made sch')
    /\ NoDup (payments_made sch')
    /\ forall x,
         In x (payments_made sch')
         <-> In x (payments_made sch) \/ exists n, In n l /\ x = n - 1.
Proof.
  destruct (@run_90day e sid l s sch Hw Hl H90 Hdone)
    as (sch' & Hl' & _ & Hpm & _).
  exists sch'. rewrite Hpm.
  split; [assumption|].
  split; [now apply made_run_increasing|].
  split; [now apply sorted_lt_NoDup, made_run_increasing|].
  intros x. apply made_run_In.
Qed.

Lemma payments_made_sorted_set_witness :
  exists sch',
    lookup "7_A_1" (mark_all Samples.sched_env "7_A_1" [9; 2; 9; -4]
                      Samples.store_90day) = Some sch'
    /\ Sorted Z.lt (payments_made sch')
    /\ NoDup (payments_made sch')
    /\ forall x,
         In x (payments_made sch')
         <-> In x (payments_made Samples.schedule_90day)
             \/ exists n, In n [9; 2; 9; -4] /\ x = n - 1.
Proof.
  apply (@payments_made_sorted_set Samples.sched_env Samples.store_90day
           "7_A_1" Samples.schedule_90day [9; 2; 9; -4]).
  - reflexivity.
  - reflexivity.
  - reflexivity.
  - simpl. lia.
  - constructor.
Defined.

(** X8.  The payment number is not checked against the three installments:
    after any run of calls on a new 90-day schedule, [payments_made] has as
    many entries as the run has distinct payment numbers, and the status is
    [completed] exactly when that count reaches three (it is the status of
    before otherwise) - three calls with 7, 8 and 9 complete a schedule. *)
Theorem completion_counts_distinct_numbers
    (e : env) (s : store) (sid : string) (sch : schedule) (l : list Z)
    (Hw : write_ok e = true)
    (Hl : lookup sid s = Some sch)
    (H90 : is_60day sch = false)
    (Hempty : payments_made sch = []) :
  exists sch',
    lookup sid (mark_all e sid l s) = Some sch'
    /\ List.length (payments_made sch') = List.length (nodup Z.eq_dec l)
    /\ status sch'
       = if 3 <=? Z.of_nat (List.length (nodup Z.eq_dec l))
         then "completed" else status sch.
Proof.
  destruct (@run_90day e sid l s sch Hw Hl H90) as (sch' & Hl' & _ & Hpm & Hst).
  { rewrite Hempty. simpl. lia. }
  assert (Hlen : List.length (payments_made sch')
                 = List.length (nodup Z.eq_dec l)).
  { rewrite Hpm, Hempty.
    assert (Hnd : NoDup (made_run l []))
      by (apply sorted_lt_NoDup, made_run_increasing; constructor).
    rewrite <- (length_map (fun n => n - 1) (nodup Z.eq_dec l)).
    apply Permutation_length, NoDup_Permutation; [assumption| |].
    - apply Finite.Injective_map_NoDup; [|apply NoDup_nodup].
      intros a b H. lia.
    - intros x. rewrite made_run_In, in_map_iff. split.
      + intros [[]|(n & Hn & ->)]. exists n. split; [reflexivity|].
        now apply nodup_In.
      + intros (n & <- & Hn). right. exists n. split; [|reflexivity].
        now apply nodup_In in Hn. }
  exists sch'. split; [assumption|]. split; [assumption|].
  now rewrite Hst, Hlen.
Qed.

Lemma completion_counts_distinct_numbers_witness :
  exists sch',
    lookup "7_A_1" (mark_all Samples.sched_env "7_A_1" [7; 8; 7; 9]
                      Samples.store_90day) = Some sch'
    /\ List.length (payments_made sch')
       = List.length (nodup Z.eq_dec [7; 8; 7; 9])
    /\ status sch'
       = if 3 <=? Z.of_nat (List.length (nodup Z.eq_dec [7; 8; 7; 9]))
         then "completed" else status Samples.schedule_90day.
Proof.
  apply (@completion_counts_distinct_numbers Samples.sched_env
           Samples.store_90day "7_A_1" Samples.schedule_90day [7; 8; 7; 9]);
    reflexivity.
Defined.

End SchedulerMore.

(** ** The order server: failures, frames and notifications *)

Module OrderMore.
Import PyNum Pricing OrderServer OrderDesk OrderFacts ListingFacts.

(** *** Paths *)

Lemma string_length_app (a b : string) :
  String.length (a ++ b) = (String.length a + String.length b)%nat.
Proof. induction a as [|c a IH]; simpl; [reflexivity | now rewrite IH]. Qed.

Lemma string_app_inv_tail (s : string) : forall a b : string,
  a ++ s = b ++ s -> a = b.
Proof.
  assert (Hlen : forall a b : string, a ++ s = b ++ s ->
                   String.length a = String.length b).
  { intros a b H. apply (f_equal String.length) in H.
    rewrite !string_length_app in H. lia. }
  induction a as [|c a IH]; intros [|c' b] H.
  - reflexivity.
  - apply Hlen in H. discriminate.
  - apply Hlen in H. discriminate.
  - simpl in H. injection H as -> H. f_equal. now apply IH.
Qed.

Lemma get_order_file_path_inj a b :
  _get_order_file_path a = _get_order_file_path b -> a = b.
Proof.
  unfold _get_order_file_path, orders_dir. intros H.
  cbn [String.append] in H.
  repeat (injection H as H).
  now apply string_app_inv_tail in H.
Qed.

(** In a directory the server wrote, the file found under the path of an
    id holds the order of that id. *)
Lemma generated_lookup_id w oid o :
  generated w ->
  lookup (_get_order_file_path oid) (order_files w) = Some o ->
  order_id o = oid.
Proof.
  intros Hgen Hl. apply lookup_In in Hl. apply Hgen in Hl as [Hp _].
  symmetry. now apply get_order_file_path_inj.
Qed.

(** *** Answers of [update_order_status] *)

(** X9.  [update_order_status] never raises; it answers [True] exactly when
    an order can be loaded under that id and the write of the order file
    succeeds.  When it answers [False], nothing has been sent and the
    counter and every other order file are as they were; the file of the
    order is as it was too, unless the write failed after
    [open(order_file, 'w')]: that file is then left empty or partial, and
    the order it held is lost. *)
Theorem update_order_status_answers
    (e : env) (w : world) (oid ns admin nt : string) :
  exists b,
    fst (update_order_status e oid ns admin nt w) = Ok b
    /\ (b = true <-> lookup (_get_order_file_path oid) (order_files w) <> None
                     /\ save_ok e = true)
    /\ (b = false ->
        trace (snd (update_order_status e oid ns admin nt w)) = trace w
        /\ counter_file (snd (update_order_status e oid ns admin nt w))
           = counter_file w
        /\ order_files (snd (update_order_status e oid ns admin nt w))
           = match lookup (_get_order_file_path oid) (order_files w) with
             | Some o =>
                 if save_truncates e
                 then without (_get_order_file_path (order_id o))
                        (order_files w)
                 else order_files w
             | None => order_files w
             end).
Proof.
  destruct (lookup (_get_order_file_path oid) (order_files w)) as [o|] eqn:Hl.
  - destruct (save_ok e) eqn:Hs.
    + destruct (@update_order_status_eq e oid ns admin nt w o Hl Hs)
        as (eff & Heq & _).
      rewrite Heq. exists true. cbn [fst snd].
      split; [reflexivity|]. split; [|discriminate].
      split; [intros _; split; [discriminate | reflexivity] | reflexivity].
    + rewrite (@update_order_status_write_fails e oid ns admin nt w o Hl Hs).
      exists false. cbn [fst snd].
      split; [reflexivity|]. split.
      * split; [discriminate | intros [_ H]; discriminate].
      * intros _. unfold unsaved, lost.
        destruct (save_truncates e); now repeat split.
  - rewrite (@update_order_status_unknown e oid ns admin nt w Hl).
    exists false. cbn [fst snd].
    split; [reflexivity|]. split; [|now repeat split].
    split; [discriminate | intros [H _]; congruence].
Qed.

(** *** What an update leaves alone *)

(** X10.  In a directory the server wrote, an update of one order leaves
    the file of every other order id and the order counter as they were. *)
Theorem update_order_status_frame
    (e : env) (w : world) (oid ns admin nt other : string)
    (Hgen : generated w)
    (Hother : other <> oid) :
  lookup (_get_order_file_path other)
    (order_files (snd (update_order_status e oid ns admin nt w)))
  = lookup (_get_order_file_path other) (order_files w)
  /\ counter_file (snd (update_order_status e oid ns admin nt w))
     = counter_file w.
Proof.
  destruct (lookup (_get_order_file_path oid) (order_files w)) as [o|] eqn:Hl.
  - destruct (save_ok e) eqn:Hs.
    + destruct (@update_order_status_eq e oid ns admin nt w o Hl Hs)
        as (eff & Heq & _).
      rewrite Heq. cbn [snd with_effects saved order_files counter_file].
      split; [|reflexivity].
      change (order_id (with_status e o ns admin nt)) with (order_id o).
      rewrite (@generated_lookup_id w oid o Hgen Hl).
      apply lookup_setitem_other.
      intros H. apply get_order_file_path_inj in H. congruence.
    + rewrite (@update_order_status_write_fails e oid ns admin nt w o Hl Hs).
      cbn [snd]. unfold unsaved, lost.
      destruct (save_truncates e); [|now split].
      cbn [order_files counter_file]. split; [|reflexivity].
      rewrite (@generated_lookup_id w oid o Hgen Hl).
      apply lookup_without_other.
      intros H. apply get_order_file_path_inj in H. congruence.
  - rewrite (@update_order_status_unknown e oid ns admin nt w Hl). now split.
Qed.

Lemma generated_world_one_order : generated Samples.world_one_order.
Proof.
  apply create_order_generated.
  - reflexivity.
  - intros p o [].
Qed.

Lemma update_order_status_frame_witness :
  lookup (_get_order_file_path "00002")
    (order_files (snd (update_order_status Samples.offline_env "00001"
                         "confirmed" "admin" "" Samples.world_one_order)))
  = lookup (_get_order_file_path "00002") (order_files Samples.world_one_order)
  /\ counter_file (snd (update_order_status Samples.offline_env "00001"
                          "confirmed" "admin" "" Samples.world_one_order))
     = counter_file Samples.world_one_order.
Proof.
  apply (@update_order_status_frame Samples.offline_env Samples.world_one_order
           "00001" "confirmed" "admin" "" "00002").
  - exact generated_world_one_order.
  - discriminate.
Defined.

(** *** The effects of a successful update, in order *)

Lemma update_order_status_effects e oid ns admin nt w o :
  lookup (_get_order_file_path oid) (order_files w) = Some o ->
  save_ok e = true ->
  exists sends,
    update_order_status e oid ns admin nt w
    = (Ok true,
       with_effects (saved w (with_status e o ns admin nt))
         ((if String.eqb ns OrderStatus.CONFIRMED && no_invoice_id o
           then [EvSpawnInvoice oid] else []) ++ sends)%list)
    /\ Forall (customer_send (user_id o)) sends
    /\ (user_id o = 0 \/ bot_set e = false -> sends = []).
Proof.
  intros H Hs.
  unfold update_order_status, try_except.
  unfold bind at 1. unfold _load_order at 1. cbn beta iota. rewrite H.
  unfold bind at 1. unfold _save_order at 1. rewrite Hs. cbn beta iota zeta.
  fold (saved w (with_status e o ns admin nt)).
  set (w1 := saved w (with_status e o ns admin nt)).
  change (no_invoice_id (with_status e o ns admin nt)) with (no_invoice_id o).
  change (user_id (with_status e o ns admin nt)) with (user_id o).
  set (spawn := if String.eqb ns OrderStatus.CONFIRMED && no_invoice_id o
                then [EvSpawnInvoice oid] else []).
  unfold bind at 1.
  assert (Hsp : (if String.eqb ns OrderStatus.CONFIRMED && no_invoice_id o
                 then emit [EvSpawnInvoice oid] else ret tt) w1
                = (Ok tt, with_effects w1 spawn)).
  { subst spawn. destruct (String.eqb ns OrderStatus.CONFIRMED && _).
    - reflexivity.
    - now rewrite with_effects_nil. }
  rewrite Hsp. unfold bind at 1.
  destruct (user_id o =? 0) eqn:Hu; cbn [negb andb].
  - exists []. rewrite app_nil_r. repeat split; constructor.
  - destruct (bot_set e) eqn:Hb.
    + destruct (notify_customer_spec e (user_id o) ns oid admin
                  (with_effects w1 spawn)) as (evs2 & -> & Hevs2).
      exists evs2. rewrite with_effects_app.
      split; [reflexivity|]. split; [assumption|].
      intros [H0|H0]; [apply Z.eqb_neq in Hu; contradiction | discriminate].
    + exists []. rewrite app_nil_r. repeat split; constructor.
Qed.

(** X11.  A successful update performs, in this order: the write of the
    order file; the start of the background invoicing task, exactly when the
    new status is [confirmed] and the stored order has no invoice id yet
    (once, for the id of the call); messages to the customer of the order,
    none of them when the order has no user id or no bot is set. *)
Theorem update_effects_in_order
    (e : env) (w : world) (oid ns admin nt : string) (o : order)
    (Hl : lookup (_get_order_file_path oid) (order_files w) = Some o)
    (Hs : save_ok e = true) :
  exists sends,
    trace (snd (update_order_status e oid ns admin nt w))
    = (trace w
       ++ [EvSaveOrder (_get_order_file_path (order_id o))
             (with_status e o ns admin nt)]
       ++ (if String.eqb ns OrderStatus.CONFIRMED && no_invoice_id o
           then [EvSpawnInvoice oid] else [])
       ++ sends)%list
    /\ Forall (customer_send (user_id o)) sends
    /\ (user_id o = 0 \/ bot_set e = false -> sends = []).
Proof.
  destruct (@update_order_status_effects e oid ns admin nt w o Hl Hs)
    as (sends & Heq & Hsends & Hnone).
  exists sends. rewrite Heq.
  cbn [snd with_effects saved trace]. rewrite <- !app_assoc.
  now repeat split.
Qed.

Lemma update_effects_in_order_witness :
  exists sends,
    trace (snd (update_order_status Samples.offline_env "00001" "confirmed"
                  "admin" "" Samples.world_one_order))
    = (trace Samples.world_one_order
       ++ [EvSaveOrder (_get_order_file_path "00001")
             (with_status Samples.offline_env
                (new_order Samples.order_env "00001" 7 Samples.alice
                   [Samples.sofa] "cash" Samples.rate_030
                   4780000 1434000 301140 3647140)
                "confirmed" "admin" "")]
       ++ [EvSpawnInvoice "00001"]
       ++ sends)%list
    /\ Forall (customer_send 7) sends
    /\ (7 = 0 \/ bot_set Samples.offline_env = false -> sends = []).
Proof.
  apply (@update_effects_in_order Samples.offline_env Samples.world_one_order
           "00001" "confirmed" "admin" ""
           (new_order Samples.order_env "00001" 7 Samples.alice
              [Samples.sofa] "cash" Samples.rate_030
              4780000 1434000 301140 3647140));
    vm_compute; reflexivity.
Defined.

(** *** Notifications *)

Lemma retry_shape e uid m oid :
  send_with_retry e uid m oid (seq 0 max_retries)
  = if send_ok e 0%nat then ([EvSend uid m true], false)
    else if send_ok e 1%nat
    then ([EvSend uid m false; EvSend uid m true], false)
    else if send_ok e 2%nat
    then ([EvSend uid m false; EvSend uid m false; EvSend uid m true], false)
    else if send_ok e 3%nat
    then ([EvSend uid m false; EvSend uid m false; EvSend uid m false;
           EvSend uid (MsgSimple oid) true], false)
    else ([EvSend uid m false; EvSend uid m false; EvSend uid m false;
           EvSend uid (MsgSimple oid) false], true).
Proof.
  cbn. destruct (send_ok e 0%nat), (send_ok e 1%nat), (send_ok e 2%nat),
    (send_ok e 3%nat); reflexivity.
Qed.

Ltac shape_done :=
  split; [reflexivity|]; split; [repeat constructor|];
  split; [reflexivity|]; split; [cbn; lia | reflexivity].

(** X12.  With a bot set, [_notify_customer] never raises and tries at most
    five times (three times the full text, once the plain text, once the
    emergency text): every attempt but the last one failed, nothing is sent
    after a message went through, and a message goes through exactly when
    one of the five attempts can. *)
Theorem notify_customer_attempts
    (e : env) (w : world) (uid : Z) (st oid admin : string)
    (Hb : bot_set e = true) :
  exists failed last,
    _notify_customer e uid st oid admin w
    = (Ok tt, with_effects w (failed ++ [last])%list)
    /\ Forall (fun ev => customer_send uid ev /\ delivered ev = false) failed
    /\ customer_send uid last
    /\ (List.length failed <= 4)%nat
    /\ delivered last = existsb (send_ok e) (seq 0 5).
Proof.
  unfold _notify_customer. rewrite Hb. cbn [negb].
  unfold bind at 1.
  set (msg := if String.eqb st OrderStatus.CANCELLED then _ else _).
  assert (Hmsg : exists m, msg w = (Ok m, w)).
  { subst msg. destruct (String.eqb st OrderStatus.CANCELLED);
      unfold bind, _load_order, ret; simpl; eauto. }
  destruct Hmsg as (m & ->).
  rewrite retry_shape. cbn [existsb seq].
  destruct (send_ok e 0%nat) eqn:H0.
  { exists [], (EvSend uid m true). shape_done. }
  destruct (send_ok e 1%nat) eqn:H1.
  { exists [EvSend uid m false], (EvSend uid m true). shape_done. }
  destruct (send_ok e 2%nat) eqn:H2.
  { exists [EvSend uid m false; EvSend uid m false], (EvSend uid m true).
    shape_done. }
  destruct (send_ok e 3%nat) eqn:H3.
  { exists [EvSend uid m false; EvSend uid m false; EvSend uid m false],
      (EvSend uid (MsgSimple oid) true).
    shape_done. }
  exists [EvSend uid m false; EvSend uid m false; EvSend uid m false;
          EvSend uid (MsgSimple oid) false],
    (EvSend uid (MsgEmergency oid) (send_ok e 4%nat)).
  split.
  { unfold bind, emit, with_effects. cbn [trace counter_file order_files].
    now rewrite <- app_assoc. }
  split; [repeat constructor|]. split; [reflexivity|].
  split; [cbn; lia|]. cbn [delivered orb]. now rewrite orb_false_r.
Qed.

Lemma notify_customer_attempts_witness :
  exists failed last,
    _notify_customer Samples.offline_env 7 "shipped" "00001" "admin"
      Samples.world_one_order
    = (Ok tt, with_effects Samples.world_one_order (failed ++ [last])%list)
    /\ Forall (fun ev => customer_send 7 ev /\ delivered ev = false) failed
    /\ customer_send 7 last
    /\ (List.length failed <= 4)%nat
    /\ delivered last = existsb (send_ok Samples.offline_env) (seq 0 5).
Proof.
  apply (@notify_customer_attempts Samples.offline_env Samples.world_one_order
           7 "shipped" "00001" "admin").
  reflexivity.
Defined.

(** *** Failed and colliding creations *)

Lemma create_order_cases e uid cust cart method rate receipt w :
  (exists ex,
      create_order e uid cust cart method rate receipt w
      = (Raise ex, bumped e w))
  \/ (save_ok e = false /\ save_truncates e = true
      /\ create_order e uid cust cart method rate receipt w
         = (Raise OSError, lost (bumped e w) (next_id e w)))
  \/ (exists d t effects,
         save_ok e = true
         /\ create_order e uid cust cart method rate receipt w
            = (Ok (next_id e w),
               with_effects
                 (saved (bumped e w)
                    (new_order e (next_id e w) uid cust cart method rate
                       (calculate_subtotal cart) d t
                       (calculate_subtotal cart - d + t)))
                 effects)
         /\ Forall side_effect effects).
Proof.
  destruct (calculate_discount (calculate_subtotal cart) rate) as [d|ex] eqn:Hd.
  2:{ left. exists ex. now apply create_order_discount_raises. }
  destruct (calculate_tax (calculate_subtotal cart - d)) as [t|ex] eqn:Ht.
  2:{ left. exists ex. now apply create_order_tax_raises with (d := d). }
  destruct (save_ok e) eqn:Hs.
  - right. right. exists d, t.
    destruct (@create_order_eq e uid cust cart method rate receipt w d t
                Hs Hd Ht) as (eff & Heq & Heff).
    exists eff. now repeat split.
  - rewrite (@create_order_write_fails e uid cust cart method rate receipt w
               d t Hs Hd Ht).
    destruct (save_truncates e); [right; left; now repeat split|].
    left. now exists OSError.
Qed.






(** X14.  Without a usable counter file the order id is [ORD] followed by
    the time of day, so two orders created at the same time of day (of any
    two days, by any two customers) get the same id: the second creation
    replaces the file of the first one, whose order is lost, and the
    directory holds no more files than before. *)
Theorem fallback_ids_overwrite
    (e1 e2 : env) (w : world) (uid1 uid2 : Z) (cust1 cust2 : customer)
    (cart1 cart2 : list cart_item) (method1 method2 : string)
    (rate1 rate2 : num) (receipt1 receipt2 : option string)
    (id1 id2 : string)
    (Hc1 : counter_io_ok e1 = false)
    (Hc2 : counter_io_ok e2 = false)
    (Hh : hms e1 = hms e2)
    (H1 : fst (create_order e1 uid1 cust1 cart1 method1 rate1 receipt1 w)
          = Ok id1)
    (H2 : fst (create_order e2 uid2 cust2 cart2 method2 rate2 receipt2
                 (snd (create_order e1 uid1 cust1 cart1 method1 rate1
                         receipt1 w)))
          = Ok id2) :
  id1 = id2
  /\ (exists o2,
        lookup (_get_order_file_path id1)
          (order_files
             (snd (create_order e2 uid2 cust2 cart2 method2 rate2 receipt2
                     (snd (create_order e1 uid1 cust1 cart1 method1 rate1
                             receipt1 w)))))
        = Some o2
        /\ user_id o2 = uid2
        /\ customer_of o2 = cust2
        /\ cart_items o2 = cart2
        /\ created_at o2 = clock e2 0%nat)
  /\ keys (order_files
             (snd (create_order e2 uid2 cust2 cart2 method2 rate2 receipt2
                     (snd (create_order e1 uid1 cust1 cart1 method1 rate1
                             receipt1 w)))))
     = keys (order_files
               (snd (create_order e1 uid1 cust1 cart1 method1 rate1
                       receipt1 w))).
Proof.
  destruct (create_order_cases e1 uid1 cust1 cart1 method1 rate1 receipt1 w)
    as [(ex & Heq1) | [(_ & _ & Heq1) | (d1 & t1 & eff1 & _ & Heq1 & _)]];
    rewrite Heq1 in *; [discriminate|discriminate|].
  cbn [fst snd] in *. injection H1 as <-.
  set (w1 := with_effects _ eff1) in *.
  destruct (create_order_cases e2 uid2 cust2 cart2 method2 rate2 receipt2 w1)
    as [(ex & Heq2) | [(_ & _ & Heq2) | (d2 & t2 & eff2 & _ & Heq2 & _)]];
    rewrite Heq2 in *; [discriminate|discriminate|].
  cbn [fst snd] in *. injection H2 as <-.
  assert (Hid : next_id e2 w1 = next_id e1 w).
  { unfold next_id. rewrite Hc1, Hc2. now rewrite Hh. }
  rewrite Hid. split; [reflexivity|].
  cbn [with_effects saved order_files new_order order_id].
  split.
  - eexists. split; [apply lookup_setitem_same|]. now repeat split.
  - assert (Hb : order_files (bumped e2 w1) = order_files w1).
    { unfold bumped. now rewrite Hc2. }
    rewrite Hb. subst w1.
    cbn [with_effects saved order_files new_order order_id].
    eapply keys_setitem_present. apply lookup_setitem_same.
Qed.

Lemma fallback_ids_overwrite_witness :
  "ORD100000" = "ORD100000"
  /\ (exists o2,
        lookup (_get_order_file_path "ORD100000")
          (order_files
             (snd (create_order MoreSamples.nocounter_later_env 8 Samples.alice
                     [Samples.lamp] "cash" Samples.rate_030 None
                     (snd (create_order MoreSamples.nocounter_env 7
                             Samples.alice [Samples.sofa] "cash"
                             Samples.rate_030 None empty_world)))))
        = Some o2
        /\ user_id o2 = 8
        /\ customer_of o2 = Samples.alice
        /\ cart_items o2 = [Samples.lamp]
        /\ created_at o2 = "2024-02-01T09:30:00.000001")
  /\ keys (order_files
             (snd (create_order MoreSamples.nocounter_later_env 8 Samples.alice
                     [Samples.lamp] "cash" Samples.rate_030 None
                     (snd (create_order MoreSamples.nocounter_env 7
                             Samples.alice [Samples.sofa] "cash"
                             Samples.rate_030 None empty_world)))))
     = keys (order_files
               (snd (create_order MoreSamples.nocounter_env 7 Samples.alice
                       [Samples.sofa] "cash" Samples.rate_030 None
                       empty_world))).
Proof.
  apply (@fallback_ids_overwrite MoreSamples.nocounter_env
           MoreSamples.nocounter_later_env empty_world 7 8
           Samples.alice Samples.alice [Samples.sofa] [Samples.lamp]
           "cash" "cash" Samples.rate_030 Samples.rate_030 None None
           "ORD100000" "ORD100000");
    vm_compute; reflexivity.
Defined.

End OrderMore.

(** ** The order server: queries *)

Module QueryFacts.
Import PyNum Pricing OrderServer OrderDesk OrderFacts ListingFacts OrderMore.

(** *** Strings *)

Lemma string_app_assoc (a b c : string) : (a ++ b) ++ c = a ++ (b ++ c).
Proof. induction a as [|x a IH]; simpl; [reflexivity | now rewrite IH]. Qed.

Lemma substring_tail a : forall b,
  String.substring (String.length a) (String.length b) (a ++ b) = b.
Proof.
  induction a as [|x a IH]; intros b; simpl.
  - apply substring_all.
  - apply IH.
Qed.

Lemma endswith_app a b : PyStr.endswith (a ++ b) b = true.
Proof.
  unfold PyStr.endswith. rewrite string_length_app.
  replace (Nat.leb (String.length b) (String.length a + String.length b))
    with true by (symmetry; apply Nat.leb_le; lia).
  replace (String.length a + String.length b - String.length b)%nat
    with (String.length a) by lia.
  rewrite substring_tail. apply String.eqb_refl.
Qed.

(** Nothing is replaced in a string that lacks a character of [old]. *)
Lemma replace_aux_absent c u new fuel : forall s,
  PyStr.has_char c s = false ->
  PyStr.replace_aux fuel s (u ++ String c "") new = s.
Proof.
  induction fuel as [|fuel IH]; intros s Hs; [reflexivity|].
  cbn [PyStr.replace_aux].
  rewrite (prefix_needs_char c u s Hs).
  destruct s as [|x s]; [reflexivity|].
  cbn [PyStr.has_char] in Hs. apply orb_false_iff in Hs as [_ Hs].
  now rewrite IH.
Qed.

Lemma replace_aux_json fuel : forall oid,
  PyStr.has_char "." oid = false ->
  (String.length oid < fuel)%nat ->
  PyStr.replace_aux fuel (oid ++ ".json") ".json" "" = oid.
Proof.
  induction fuel as [|fuel IH]; intros oid Hdot Hlen; [lia|].
  destruct oid as [|x oid].
  - cbn. destruct fuel; reflexivity.
  - cbn [PyStr.has_char] in Hdot. apply orb_false_iff in Hdot as [Hx Hdot].
    cbn [PyStr.replace_aux String.append].
    replace (String.prefix ".json" (String x (oid ++ ".json"))) with false.
    + rewrite IH; [reflexivity | assumption | simpl in Hlen; lia].
    + cbn [String.prefix]. destruct (ascii_dec "." x) as [<-|Hne].
      * now rewrite Ascii.eqb_refl in Hx.
      * reflexivity.
Qed.

Lemma prefix_app a : forall b, String.prefix a (a ++ b) = true.
Proof.
  induction a as [|x a IH]; intros b; simpl.
  - now destruct b.
  - destruct (ascii_dec x x); [apply IH | congruence].
Qed.

Lemma replace_aux_prefix fuel a b new :
  PyStr.replace_aux (S fuel) (a ++ b) a new
  = new ++ PyStr.replace_aux fuel b a new.
Proof.
  cbn [PyStr.replace_aux]. rewrite prefix_app.
  rewrite string_length_app.
  replace (String.length a + String.length b - String.length a)%nat
    with (String.length b) by lia.
  now rewrite substring_tail.
Qed.

(** The id read back from the name of an order file. *)
Lemma decode_filename oid :
  PyStr.has_char "_" oid = false ->
  PyStr.has_char "." oid = false ->
  PyStr.replace (PyStr.replace ("order_" ++ oid ++ ".json") "order_" "")
    ".json" ""
  = oid.
Proof.
  intros Hu Hd.
  assert (H1 : PyStr.replace ("order_" ++ oid ++ ".json") "order_" ""
               = oid ++ ".json").
  { unfold PyStr.replace. rewrite replace_aux_prefix.
    change ("" ++ ?x) with x.
    apply (replace_aux_absent "_" "order").
    rewrite has_char_app, Hu. reflexivity. }
  rewrite H1. unfold PyStr.replace.
  apply replace_aux_json; [assumption|].
  rewrite string_length_app. simpl. lia.
Qed.

(** *** Reading the directory *)

(** In a directory where every order lies under the path of its id, the
    loop over [os.listdir] loads every stored order once, in the order of
    the directory, and keeps those that pass the test [k]. *)
Lemma scan_orders (k : order -> bool) w :
  filed w ->
  flat_map
    (fun filename =>
       if PyStr.startswith filename "order_" && PyStr.endswith filename ".json"
       then
         match lookup (_get_order_file_path
                         (PyStr.replace (PyStr.replace filename "order_" "")
                            ".json" ""))
                 (order_files w) with
         | Some order_data => if k order_data then [order_data] else []
         | None => []
         end
       else [])
    (listdir w)
  = filter k (map snd (order_files w)).
Proof.
  intros [Hnd Hfiled]. unfold listdir. rewrite flat_map_app.
  match goal with |- (?c ++ _)%list = _ => assert (Hc : c = []) end.
  { destruct (counter_file w); reflexivity. }
  rewrite Hc. cbn [app]. clear Hc.
  unfold keys.
  assert (Hall : forall l, incl l (order_files w) ->
    flat_map
      (fun filename =>
         if PyStr.startswith filename "order_" && PyStr.endswith filename ".json"
         then
           match lookup (_get_order_file_path
                           (PyStr.replace (PyStr.replace filename "order_" "")
                              ".json" ""))
                   (order_files w) with
           | Some order_data => if k order_data then [order_data] else []
           | None => []
           end
         else [])
      (flat_map
         (fun p =>
            if PyStr.startswith p (orders_dir ++ "/")
            then [String.substring 11 (String.length p - 11) p]
            else [])
         (map fst l))
    = filter k (map snd l)).
  { induction l as [|[p o] l IH]; intros Hincl; [reflexivity|].
    assert (Hin : In (p, o) (order_files w)) by (apply Hincl; now left).
    destruct (Hfiled p o Hin) as (Hp & Hu & Hd).
    cbn [map fst snd flat_map filter]. rewrite flat_map_app.
    rewrite IH by (intros x Hx; apply Hincl; now right).
    subst p. rewrite listed_name.
    cbn [flat_map]. rewrite app_nil_r.
    unfold PyStr.startswith at 1. rewrite prefix_app.
    rewrite <- (string_app_assoc "order_" (order_id o) ".json") at 1.
    rewrite endswith_app. cbn [andb].
    rewrite (@decode_filename (order_id o) Hu Hd).
    rewrite (@In_lookup order _ o (order_files w) Hnd Hin).
    destruct (k o); reflexivity. }
  apply Hall. apply incl_refl.
Qed.

(** *** Sorting by [created_at] *)

Lemma ltb_trans a b c :
  String.ltb a b = true -> String.ltb b c = true -> String.ltb a c = true.
Proof.
  unfold String.ltb. intros H1 H2.
  destruct (String.compare a b) eqn:E1; try discriminate.
  destruct (String.compare b c) eqn:E2; try discriminate.
  apply OrderedTypeEx.String_as_OT.cmp_lt in E1, E2.
  pose proof (OrderedTypeEx.String_as_OT.lt_trans a b c E1 E2) as H.
  apply OrderedTypeEx.String_as_OT.cmp_lt in H. unfold OrderedTypeEx.String_as_OT.cmp in H. now rewrite H.
Qed.

Lemma ltb_total a b :
  String.ltb a b = false -> String.ltb b a = false -> a = b.
Proof.
  unfold String.ltb. intros H1 H2.
  rewrite String.compare_antisym in H2.
  destruct (String.compare a b) eqn:E; simpl in *; try discriminate.
  now apply String.compare_eq_iff.
Qed.

Lemma ltb_irrefl a : String.ltb a a = false.
Proof.
  unfold String.ltb.
  replace (String.compare a a) with Eq; [reflexivity|].
  symmetry. now apply OrderedTypeEx.String_as_OT.cmp_eq.
Qed.

(** [a <= b <= c] gives [a <= c], with [x <= y] written [ltb y x = false]. *)
Lemma not_ltb_trans a b c :
  String.ltb b a = false -> String.ltb c b = false -> String.ltb c a = false.
Proof.
  intros H1 H2. destruct (String.ltb c a) eqn:E; [|reflexivity].
  destruct (String.ltb a b) eqn:E2.
  - now rewrite (@ltb_trans _ _ _ E E2) in H2.
  - rewrite (@ltb_total _ _ E2 H1) in E. congruence.
Qed.

Lemma ltb_asym a b : String.ltb a b = true -> String.ltb b a = false.
Proof.
  intros H. destruct (String.ltb b a) eqn:E; [|reflexivity].
  pose proof (@ltb_trans _ _ _ H E) as H'. now rewrite ltb_irrefl in H'.
Qed.

Lemma insert_desc_perm o l : Permutation (insert_desc o l) (o :: l).
Proof.
  induction l as [|o' l IH]; simpl; [reflexivity|].
  destruct (String.ltb (created_at o') (created_at o)); [reflexivity|].
  rewrite IH. apply perm_swap.
Qed.

Lemma sort_desc_perm l : Permutation (sort_desc l) l.
Proof.
  unfold sort_desc.
  assert (H : forall acc,
             Permutation (fold_left (fun acc o => insert_desc o acc) l acc)
                         (acc ++ l)).
  { induction l as [|o l IH]; intros acc; simpl.
    - now rewrite app_nil_r.
    - rewrite IH, insert_desc_perm. apply Permutation_middle. }
  apply (H []).
Qed.

Lemma insert_desc_sorted o l : newest_first l -> newest_first (insert_desc o l).
Proof.
  unfold newest_first.
  induction l as [|o' l IH]; intros Hs; simpl.
  - repeat constructor.
  - inversion Hs as [|? ? Hl Hall]; subst.
    destruct (String.ltb (created_at o') (created_at o)) eqn:E.
    + constructor; [assumption|].
      constructor; [now apply ltb_asym|].
      rewrite Forall_forall in *. intros x Hx.
      apply not_ltb_trans with (b := created_at o');
        [now apply Hall | now apply ltb_asym].
    + constructor; [now apply IH|].
      rewrite Forall_forall in *. intros x Hx.
      apply (@Permutation_in _ _ _ x (insert_desc_perm o l)) in Hx.
      destruct Hx as [<-|Hx]; [assumption | now apply Hall].
Qed.

Lemma sort_desc_sorted l : newest_first (sort_desc l).
Proof.
  unfold sort_desc.
  assert (H : forall acc, newest_first acc ->
             newest_first (fold_left (fun acc o => insert_desc o acc) l acc)).
  { induction l as [|o l IH]; intros acc Hacc; simpl; [assumption|].
    apply IH. now apply insert_desc_sorted. }
  apply H. constructor.
Qed.

Lemma insert_asc_perm o l : Permutation (insert_asc o l) (o :: l).
Proof.
  induction l as [|o' l IH]; simpl; [reflexivity|].
  destruct (String.ltb (created_at o) (created_at o')); [reflexivity|].
  rewrite IH. apply perm_swap.
Qed.

Lemma sort_asc_perm l : Permutation (sort_asc l) l.
Proof.
  unfold sort_asc.
  assert (H : forall acc,
             Permutation (fold_left (fun acc o => insert_asc o acc) l acc)
                         (acc ++ l)).
  { induction l as [|o l IH]; intros acc; simpl.
    - now rewrite app_nil_r.
    - rewrite IH, insert_asc_perm. apply Permutation_middle. }
  apply (H []).
Qed.

Lemma insert_asc_sorted o l : oldest_first l -> oldest_first (insert_asc o l).
Proof.
  unfold oldest_first.
  induction l as [|o' l IH]; intros Hs; simpl.
  - repeat constructor.
  - inversion Hs as [|? ? Hl Hall]; subst.
    destruct (String.ltb (created_at o) (created_at o')) eqn:E.
    + constructor; [assumption|].
      constructor; [now apply ltb_asym|].
      rewrite Forall_forall in *. intros x Hx.
      apply not_ltb_trans with (b := created_at o');
        [now apply ltb_asym | now apply Hall].
    + constructor; [now apply IH|].
      rewrite Forall_forall in *. intros x Hx.
      apply (@Permutation_in _ _ _ x (insert_asc_perm o l)) in Hx.
      destruct Hx as [<-|Hx]; [assumption | now apply Hall].
Qed.

Lemma sort_asc_sorted l : oldest_first (sort_asc l).
Proof.
  unfold sort_asc.
  assert (H : forall acc, oldest_first acc ->
             oldest_first (fold_left (fun acc o => insert_asc o acc) l acc)).
  { induction l as [|o l IH]; intros acc Hacc; simpl; [assumption|].
    apply IH. now apply insert_asc_sorted. }
  apply H. constructor.
Qed.

(** *** Characters and values of the ids *)

Lemma digits_aux_lacks c fuel :
  (forall d, 0 <= d < 10 -> Ascii.eqb c (PyStr.digit_char d) = false) ->
  forall n acc,
    PyStr.has_char c acc = false ->
    PyStr.has_char c (PyStr.digits_aux fuel n acc) = false.
Proof.
  intros Hc. induction fuel as [|fuel IH]; intros n acc H;
    cbn [PyStr.digits_aux]; [assumption|].
  assert (Hacc : PyStr.has_char c (String (PyStr.digit_char (n mod 10)) acc)
                 = false).
  { cbn [PyStr.has_char]. rewrite Hc; [assumption|].
    apply Z.mod_pos_bound. lia. }
  destruct (n / 10 =? 0); [assumption | now apply IH].
Qed.

Lemma zfill_lacks c width s :
  Ascii.eqb c "0" = false ->
  PyStr.has_char c s = false -> PyStr.has_char c (PyStr.zfill width s) = false.
Proof.
  intros H0 H. unfold PyStr.zfill. rewrite has_char_app, H, orb_false_r.
  induction (width - String.length s)%nat as [|k IH]; simpl; [reflexivity|].
  now rewrite H0.
Qed.

Lemma format_05d_lacks c z :
  (forall d, 0 <= d < 10 -> Ascii.eqb c (PyStr.digit_char d) = false) ->
  Ascii.eqb c "-" = false ->
  PyStr.has_char c (PyStr.format_05d z) = false.
Proof.
  intros Hc Hm.
  assert (H0 : Ascii.eqb c "0" = false) by (apply (Hc 0); lia).
  unfold PyStr.format_05d. destruct (z <? 0).
  - rewrite has_char_app. cbn [PyStr.has_char]. rewrite Hm. cbn [orb].
    apply zfill_lacks; [assumption|].
    now apply digits_aux_lacks.
  - apply zfill_lacks; [assumption|]. now apply digits_aux_lacks.
Qed.

Lemma not_a_digit c :
  (Nat.ltb (nat_of_ascii c) 48 || Nat.ltb 57 (nat_of_ascii c)) = true ->
  forall d, 0 <= d < 10 -> Ascii.eqb c (PyStr.digit_char d) = false.
Proof.
  intros Hc d Hd. destruct (Ascii.eqb c (PyStr.digit_char d)) eqn:E;
    [|reflexivity].
  apply Ascii.eqb_eq in E. subst c. exfalso.
  assert (H : d = 0 \/ d = 1 \/ d = 2 \/ d = 3 \/ d = 4 \/ d = 5 \/ d = 6
              \/ d = 7 \/ d = 8 \/ d = 9) by lia.
  repeat (destruct H as [-> | H]); try subst d; discriminate.
Qed.

Lemma format_05d_no_dot z : PyStr.has_char "." (PyStr.format_05d z) = false.
Proof. apply format_05d_lacks; [now apply not_a_digit | reflexivity]. Qed.

Lemma format_05d_no_O z : PyStr.has_char "O" (PyStr.format_05d z) = false.
Proof. apply format_05d_lacks; [now apply not_a_digit | reflexivity]. Qed.

Lemma all_digits_lacks c s :
  (Nat.ltb (nat_of_ascii c) 48 || Nat.ltb 57 (nat_of_ascii c)) = true ->
  all_digits s = true -> PyStr.has_char c s = false.
Proof.
  intros Hc. induction s as [|x s IH]; intros H; [reflexivity|].
  cbn [all_digits] in H. apply andb_true_iff in H as [Hx Hs].
  cbn [PyStr.has_char]. rewrite (IH Hs), orb_false_r.
  destruct (Ascii.eqb c x) eqn:E; [|reflexivity].
  apply Ascii.eqb_eq in E. subst x.
  apply andb_true_iff in Hx as [H1 H2].
  apply Nat.leb_le in H1, H2.
  apply orb_true_iff in Hc as [Hc|Hc]; apply Nat.ltb_lt in Hc; lia.
Qed.

Lemma next_id_plain e w :
  time_of_day e ->
  PyStr.has_char "_" (next_id e w) = false
  /\ PyStr.has_char "." (next_id e w) = false.
Proof.
  intros H. unfold next_id. destruct (counter_io_ok e).
  - split; [apply format_05d_no_underscore | apply format_05d_no_dot].
  - rewrite !has_char_app.
    rewrite (@all_digits_lacks "_" (hms e)), (@all_digits_lacks "." (hms e));
      try reflexivity; try assumption.
    now split.
Qed.

(** The decimal digits of a number read back. *)
Lemma value_from_app a : forall acc b,
  value_from acc (a ++ b) = value_from (value_from acc a) b.
Proof. induction a as [|x a IH]; intros acc b; simpl; [reflexivity | apply IH]. Qed.

Lemma digits_aux_acc fuel : forall n acc,
  PyStr.digits_aux fuel n acc = PyStr.digits_aux fuel n "" ++ acc.
Proof.
  induction fuel as [|fuel IH]; intros n acc; cbn [PyStr.digits_aux];
    [reflexivity|].
  destruct (n / 10 =? 0); [reflexivity|].
  rewrite (IH (n / 10) (String _ acc)), (IH (n / 10) (String _ "")).
  now rewrite string_app_assoc.
Qed.

Lemma digit_char_value d :
  0 <= d < 10 -> Z.of_nat (nat_of_ascii (PyStr.digit_char d)) - 48 = d.
Proof.
  intros H.
  assert (Hd : d = 0 \/ d = 1 \/ d = 2 \/ d = 3 \/ d = 4 \/ d = 5 \/ d = 6
               \/ d = 7 \/ d = 8 \/ d = 9) by lia.
  repeat (destruct Hd as [-> | Hd]); try subst d; reflexivity.
Qed.

Lemma value_digits_aux fuel : forall n,
  0 <= n < 2 ^ Z.of_nat fuel ->
  value_from 0 (PyStr.digits_aux fuel n "") = n.
Proof.
  induction fuel as [|fuel IH]; intros n Hn.
  - simpl in *. lia.
  - cbn [PyStr.digits_aux].
    assert (Hm : 0 <= n mod 10 < 10) by (apply Z.mod_pos_bound; lia).
    pose proof (Z.div_mod n 10 ltac:(lia)) as Hdm.
    destruct (n / 10 =? 0) eqn:E.
    + apply Z.eqb_eq in E. cbn [value_from].
      rewrite digit_char_value by assumption. lia.
    + rewrite digits_aux_acc, value_from_app. rewrite IH.
      * cbn [value_from]. rewrite digit_char_value by assumption. lia.
      * rewrite Nat2Z.inj_succ, Z.pow_succ_r in Hn by lia.
        split; [apply Z.div_pos; lia|].
        apply Z.div_lt_upper_bound; lia.
Qed.

Lemma value_digits n : 0 <= n -> value_from 0 (PyStr.digits n) = n.
Proof.
  intros Hn. unfold PyStr.digits. apply value_digits_aux.
  split; [assumption|].
  rewrite Nat2Z.inj_succ, Z2Nat.id by apply Z.log2_nonneg.
  destruct (Z.eq_dec n 0) as [->|Hne]; [reflexivity|].
  apply Z.log2_spec. lia.
Qed.

Lemma value_zeros k s : value_from 0 (PyStr.zeros k ++ s) = value_from 0 s.
Proof. induction k as [|k IH]; simpl; [reflexivity | apply IH]. Qed.

Lemma value_format_05d n : 0 <= n -> value_from 0 (PyStr.format_05d n) = n.
Proof.
  intros Hn. unfold PyStr.format_05d.
  replace (n <? 0) with false by (symmetry; apply Z.ltb_ge; lia).
  unfold PyStr.zfill. rewrite value_zeros. now apply value_digits.
Qed.

Lemma format_05d_inj a b :
  0 <= a -> 0 <= b -> PyStr.format_05d a = PyStr.format_05d b -> a = b.
Proof.
  intros Ha Hb H. apply (f_equal (value_from 0)) in H.
  now rewrite !value_format_05d in H.
Qed.

(** *** The invoicing task, case by case *)

Lemma process_hesabfa_invoice_unknown e t oid od w :
  lookup (_get_order_file_path oid) (order_files w) = None ->
  _process_hesabfa_invoice e t oid od w = (Ok tt, w).
Proof.
  intros Hl.
  unfold _process_hesabfa_invoice, try_except, bind, _load_order, ret.
  now rewrite Hl.
Qed.

(** A write that fails after the file was opened loses the order; one that
    fails before is followed by the second attempt of the handler. *)
Lemma process_hesabfa_invoice_eq e t oid od w o :
  lookup (_get_order_file_path oid) (order_files w) = Some o ->
  order_id o = oid ->
  _process_hesabfa_invoice e t oid od w
  = if save_ok e then
      match api_result t with
      | InvoiceCreated invoice_id invoice_number =>
          (Ok tt,
           saved w (with_history o invoice_id
                      (hesabfa_entry e invoice_number)))
      | InvoiceRefused error_message =>
          (Ok tt,
           saved w (with_history o (hesabfa_invoice_id o)
                      (error_entry e 0
                         ("خطا در ثبت پیش‌فاکتور حسابفا: "
                          ++ error_message))))
      end
    else if save_truncates e then (Ok tt, lost w oid)
    else if retry_save_ok t then
      (Ok tt,
       saved w (with_history o (hesabfa_invoice_id o)
                  (error_entry e 1
                     ("خطای سیستمی در ثبت پیش‌فاکتور: "
                      ++ String.substring 0 100 (exception_text t)))))
    else if retry_save_truncates t then (Ok tt, lost w oid)
    else (Ok tt, w).
Proof.
  intros Hl Hid.
  unfold _process_hesabfa_invoice, try_except, bind, _load_order, _save_order,
    ret, saved, lost.
  cbn [save_ok save_truncates].
  rewrite Hl.
  destruct (save_ok e).
  - destruct (api_result t); reflexivity.
  - destruct (save_truncates e).
    + destruct (api_result t); cbn beta iota;
        cbn [with_history order_id order_files]; rewrite Hid;
        rewrite lookup_without_same; reflexivity.
    + destruct (api_result t); cbn beta iota; rewrite Hl;
        destruct (retry_save_ok t); try reflexivity;
        destruct (retry_save_truncates t); try reflexivity;
        cbn [with_history order_id]; rewrite Hid; reflexivity.
Qed.

(** *** What every served directory satisfies *)

Lemma filed_same_files w w' :
  order_files w' = order_files w -> filed w -> filed w'.
Proof. intros E [Hnd H]. split; rewrite E; assumption. Qed.

Lemma filed_saved w o :
  filed w ->
  PyStr.has_char "_" (order_id o) = false ->
  PyStr.has_char "." (order_id o) = false ->
  filed (saved w o).
Proof.
  intros [Hnd H] Hu Hd. split; cbn [saved order_files].
  - now apply NoDup_keys_setitem.
  - intros p x Hin.
    apply In_setitem in Hin as [[-> ->]|Hin]; [now repeat split | now apply H].
Qed.

Lemma filed_bumped e w : filed w -> filed (bumped e w).
Proof.
  apply filed_same_files. unfold bumped. now destruct (counter_io_ok e).
Qed.

Lemma filed_lookup w oid o :
  filed w -> lookup (_get_order_file_path oid) (order_files w) = Some o ->
  order_id o = oid
  /\ PyStr.has_char "_" (order_id o) = false
  /\ PyStr.has_char "." (order_id o) = false.
Proof.
  intros [_ H] Hl. apply lookup_In in Hl. destruct (H _ _ Hl) as (Hp & Hu & Hd).
  repeat split; try assumption.
  symmetry. now apply get_order_file_path_inj.
Qed.

Lemma filed_lost w oid : filed w -> filed (lost w oid).
Proof.
  intros [Hnd H]. split; cbn [lost order_files].
  - now apply NoDup_keys_without.
  - intros p x Hin. apply In_without in Hin. now apply H.
Qed.

Lemma create_order_filed e uid cust cart method rate receipt w :
  time_of_day e -> filed w ->
  filed (snd (create_order e uid cust cart method rate receipt w)).
Proof.
  intros Ht Hf.
  destruct (create_order_cases e uid cust cart method rate receipt w)
    as [(ex & ->) | [(_ & _ & ->) | (d & t & eff & _ & -> & _)]]; cbn [snd].
  - now apply filed_bumped.
  - apply filed_lost. now apply filed_bumped.
  - eapply filed_same_files; [reflexivity|].
    destruct (@next_id_plain e w Ht) as [Hu Hd].
    apply filed_saved; [now apply filed_bumped | exact Hu | exact Hd].
Qed.

(** A status update leaves the world alone, loses the order it was to
    rewrite, or writes it back with its new status. *)
Lemma update_order_status_cases e oid ns admin nt w :
  update_order_status e oid ns admin nt w = (Ok false, w)
  \/ (exists o,
        lookup (_get_order_file_path oid) (order_files w) = Some o
        /\ save_ok e = false /\ save_truncates e = true
        /\ update_order_status e oid ns admin nt w
           = (Ok false, lost w (order_id o)))
  \/ exists o effects,
       lookup (_get_order_file_path oid) (order_files w) = Some o
       /\ update_order_status e oid ns admin nt w
          = (Ok true,
             with_effects (saved w (with_status e o ns admin nt)) effects).
Proof.
  destruct (lookup (_get_order_file_path oid) (order_files w)) as [o|] eqn:Hl.
  2:{ left. now apply update_order_status_unknown. }
  destruct (save_ok e) eqn:Hs.
  2:{ rewrite (@update_order_status_write_fails e oid ns admin nt w o Hl Hs).
      unfold unsaved. destruct (save_truncates e) eqn:Ht; [|now left].
      right. left. exists o. now repeat split. }
  destruct (@update_order_status_eq e oid ns admin nt w o Hl Hs)
    as (effects & Heq & _).
  right. right. now exists o, effects.
Qed.

Lemma update_order_status_filed e oid ns admin nt w :
  filed w -> filed (snd (update_order_status e oid ns admin nt w)).
Proof.
  intros Hf.
  destruct (update_order_status_cases e oid ns admin nt w)
    as [-> | [(o & _ & _ & _ & ->) | (o & eff & Hl & ->)]]; cbn [snd];
    [assumption | now apply filed_lost |].
  eapply filed_same_files; [reflexivity|].
  destruct (@filed_lookup w oid o Hf Hl) as (_ & Hu & Hd).
  now apply filed_saved.
Qed.

(** Either nothing is written, or the order is lost, or the stored order is
    written back with one more history entry. *)
Lemma process_hesabfa_invoice_cases e t oid od w :
  filed w ->
  _process_hesabfa_invoice e t oid od w = (Ok tt, w)
  \/ (exists o,
        lookup (_get_order_file_path oid) (order_files w) = Some o
        /\ _process_hesabfa_invoice e t oid od w = (Ok tt, lost w oid))
  \/ exists o inv entry,
       lookup (_get_order_file_path oid) (order_files w) = Some o
       /\ _process_hesabfa_invoice e t oid od w
          = (Ok tt, saved w (with_history o inv entry)).
Proof.
  intros Hf.
  destruct (lookup (_get_order_file_path oid) (order_files w)) as [o|] eqn:Hl.
  2:{ left. now apply process_hesabfa_invoice_unknown. }
  destruct (@filed_lookup w oid o Hf Hl) as (Hid & _).
  rewrite (@process_hesabfa_invoice_eq e t oid od w o Hl Hid).
  destruct (save_ok e).
  - destruct (api_result t); right; right; now eauto.
  - destruct (save_truncates e); [right; left; now eauto|].
    destruct (retry_save_ok t); [right; right; now eauto|].
    destruct (retry_save_truncates t); [right; left; now eauto | now left].
Qed.

Lemma process_hesabfa_invoice_filed e t oid od w :
  filed w -> filed (snd (_process_hesabfa_invoice e t oid od w)).
Proof.
  intros Hf.
  destruct (process_hesabfa_invoice_cases e t oid od Hf)
    as [-> | [(o & _ & ->) | (o & inv & entry & Hl & ->)]]; cbn [snd];
    [assumption | now apply filed_lost |].
  destruct (@filed_lookup w oid o Hf Hl) as (_ & Hu & Hd).
  now apply filed_saved.
Qed.

Lemma served_filed w : served w -> filed w.
Proof.
  induction 1.
  - split; [constructor | intros p o []].
  - now apply create_order_filed.
  - now apply update_order_status_filed.
  - now apply process_hesabfa_invoice_filed.
Qed.

Lemma served_world_one_order : served Samples.world_one_order.
Proof. apply served_create; [reflexivity | constructor]. Qed.

(** *** The listings *)

Lemma get_all_orders_eq status_filter w :
  filed w ->
  get_all_orders status_filter w
  = (Ok (sort_desc (filter (passes status_filter) (map snd (order_files w)))),
     w).
Proof.
  intros Hf. unfold get_all_orders. cbv zeta.
  now rewrite (@scan_orders (passes status_filter) w Hf).
Qed.

Lemma get_todays_orders_eq date w :
  filed w ->
  get_todays_orders date w
  = (Ok (sort_desc (filter (on_date date) (map snd (order_files w)))), w).
Proof.
  intros Hf. pose proof (@scan_orders (on_date date) w Hf) as Hscan.
  unfold on_date in Hscan at 1.
  unfold get_todays_orders. cbv zeta. now rewrite Hscan.
Qed.

Lemma get_orders_by_date_eq date w :
  filed w ->
  get_orders_by_date date w
  = (Ok (sort_asc (filter (on_date date) (map snd (order_files w)))), w).
Proof.
  intros Hf. pose proof (@scan_orders (on_date date) w Hf) as Hscan.
  unfold on_date in Hscan at 1.
  unfold get_orders_by_date. cbv zeta. now rewrite Hscan.
Qed.

(** X15.  On every directory the server produced, [get_all_orders] never
    raises, changes nothing, and returns every stored order that passes the
    status filter exactly once, newest first. *)
Theorem all_orders_listed
    (w : world) (status_filter : option string)
    (Hs : served w) :
  exists l,
    get_all_orders status_filter w = (Ok l, w)
    /\ Permutation l
         (filter (passes status_filter) (map snd (order_files w)))
    /\ newest_first l.
Proof.
  apply served_filed in Hs.
  rewrite (@get_all_orders_eq status_filter w Hs).
  eexists. split; [reflexivity|].
  split; [apply sort_desc_perm | apply sort_desc_sorted].
Qed.

Lemma all_orders_listed_witness :
  exists l,
    get_all_orders (Some "pending") Samples.world_one_order
    = (Ok l, Samples.world_one_order)
    /\ Permutation l
         (filter (passes (Some "pending"))
            (map snd (order_files Samples.world_one_order)))
    /\ newest_first l.
Proof.
  apply (@all_orders_listed Samples.world_one_order (Some "pending")).
  apply served_create; [reflexivity | constructor].
Defined.

(** X16.  [get_orders_by_date] and [get_todays_orders] return the same
    orders for the same date: every stored order whose [created_at] starts
    with the date, once; the first lists them oldest first, the second
    newest first. *)
Theorem orders_of_a_date
    (w : world) (date : string)
    (Hs : served w) :
  exists by_date todays,
    get_orders_by_date date w = (Ok by_date, w)
    /\ get_todays_orders date w = (Ok todays, w)
    /\ Permutation by_date
         (filter (on_date date) (map snd (order_files w)))
    /\ Permutation todays by_date
    /\ oldest_first by_date
    /\ newest_first todays.
Proof.
  apply served_filed in Hs.
  rewrite (@get_orders_by_date_eq date w Hs), (@get_todays_orders_eq date w Hs).
  eexists. eexists. split; [reflexivity|]. split; [reflexivity|].
  split; [apply sort_asc_perm|].
  split; [now rewrite sort_desc_perm, sort_asc_perm|].
  split; [apply sort_asc_sorted | apply sort_desc_sorted].
Qed.

Lemma orders_of_a_date_witness :
  exists by_date todays,
    get_orders_by_date "2024-01-15" Samples.world_one_order
    = (Ok by_date, Samples.world_one_order)
    /\ get_todays_orders "2024-01-15" Samples.world_one_order
       = (Ok todays, Samples.world_one_order)
    /\ Permutation by_date
         (filter (on_date "2024-01-15")
            (map snd (order_files Samples.world_one_order)))
    /\ Permutation todays by_date
    /\ oldest_first by_date
    /\ newest_first todays.
Proof.
  apply (@orders_of_a_date Samples.world_one_order "2024-01-15").
  apply served_create; [reflexivity | constructor].
Defined.

(** *** The statistics *)

Lemma sum_counts_setitem k d :
  sum_counts (setitem k (get_default (lookup k d) 0 + 1) d) = sum_counts d + 1.
Proof.
  induction d as [|[k' v'] d IH]; cbn [setitem lookup get_default].
  - cbn. lia.
  - destruct (String.eqb k k'); cbn [get_default].
    + unfold sum_counts. cbn [fold_right snd]. lia.
    + unfold sum_counts in *. cbn [fold_right snd]. rewrite IH. lia.
Qed.

Lemma count_orders l : forall d r,
  snd (fold_left count_order l (d, r)) = r + sum_totals l
  /\ sum_counts (fst (fold_left count_order l (d, r)))
     = sum_counts d + Z.of_nat (List.length l).
Proof.
  induction l as [|o l IH]; intros d r.
  - cbn [fold_left fst snd sum_totals fold_right List.length]. split; lia.
  - cbn [fold_left].
    change (count_order (d, r) o)
      with (setitem (_get_status_text (status o))
              (get_default (lookup (_get_status_text (status o)) d) 0 + 1) d,
            r + total (pricing_of o)).
    destruct (IH (setitem (_get_status_text (status o))
                    (get_default (lookup (_get_status_text (status o)) d) 0 + 1)
                    d)
                 (r + total (pricing_of o))) as [H1 H2].
    rewrite H1, H2, sum_counts_setitem.
    cbn [sum_totals fold_right List.length].
    fold (sum_totals l). split; lia.
Qed.

Lemma sum_totals_fold l : forall a,
  fold_left (fun acc o => acc + total (pricing_of o)) l a = a + sum_totals l.
Proof.
  induction l as [|o l IH]; intros a; cbn [fold_left sum_totals fold_right].
  - lia.
  - rewrite IH. fold (sum_totals l). lia.
Qed.

Lemma sum_totals_perm l l' :
  Permutation l l' -> sum_totals l = sum_totals l'.
Proof.
  induction 1; cbn [sum_totals fold_right] in *; try lia.
  fold (sum_totals l) in *. fold (sum_totals l') in *. lia.
Qed.

Lemma filter_length_le {A} (k : A -> bool) l :
  (List.length (filter k l) <= List.length l)%nat.
Proof.
  induction l as [|x l IH]; simpl; [lia|]. destruct (k x); simpl; lia.
Qed.

(** X17.  On every directory the server produced, [get_orders_statistics]
    counts every stored order and adds up the [total] of every stored
    order, whatever its status (cancelled orders are revenue too); the
    counts of the status distribution add up to the number of orders; the
    figures of the day are those of the orders created on that date. *)
Theorem statistics_add_up
    (w : world) (today : string)
    (Hs : served w) :
  exists st,
    get_orders_statistics today w = (Ok st, w)
    /\ total_orders st = List.length (order_files w)
    /\ total_revenue st = sum_totals (map snd (order_files w))
    /\ sum_counts (status_distribution st) = Z.of_nat (total_orders st)
    /\ today_orders st
       = List.length (filter (on_date today) (map snd (order_files w)))
    /\ today_revenue st
       = sum_totals (filter (on_date today) (map snd (order_files w)))
    /\ (today_orders st <= total_orders st)%nat.
Proof.
  apply served_filed in Hs.
  pose proof (@get_all_orders_eq None w Hs) as Hall.
  pose proof (@get_todays_orders_eq today w Hs) as Htoday.
  set (all := sort_desc (filter (passes None) (map snd (order_files w)))) in *.
  set (desc := sort_desc (filter (on_date today) (map snd (order_files w))))
    in *.
  assert (Pall' : Permutation all (map snd (order_files w))).
  { subst all. rewrite sort_desc_perm. cbn [passes]. clear.
    induction (map snd (order_files w)); simpl; auto. }
  assert (Pday : Permutation desc
                   (filter (on_date today) (map snd (order_files w)))).
  { subst desc. apply sort_desc_perm. }
  unfold get_orders_statistics, bind. rewrite Hall, Htoday.
  pose proof (count_orders all [] 0) as [H1 H2].
  match goal with
  | |- context [fold_left count_order all ?init] =>
      destruct (fold_left count_order all init) as [stats revenue] eqn:E
  end.
  cbn [fst snd] in H1, H2.
  eexists. split; [reflexivity|].
  cbn [total_orders today_orders total_revenue today_revenue
       status_distribution].
  assert (Hlen : List.length all = List.length (order_files w)).
  { rewrite (Permutation_length Pall'). apply length_map. }
  repeat split.
  - exact Hlen.
  - rewrite H1. rewrite (sum_totals_perm Pall'). lia.
  - rewrite H2. cbn. lia.
  - apply (Permutation_length Pday).
  - rewrite sum_totals_fold, (sum_totals_perm Pday). lia.
  - rewrite (Permutation_length Pday), Hlen.
    rewrite <- (length_map snd (order_files w)). apply filter_length_le.
Qed.

Lemma statistics_add_up_witness :
  exists st,
    get_orders_statistics "2024-01-15" Samples.world_one_order
    = (Ok st, Samples.world_one_order)
    /\ total_orders st = List.length (order_files Samples.world_one_order)
    /\ total_revenue st
       = sum_totals (map snd (order_files Samples.world_one_order))
    /\ sum_counts (status_distribution st) = Z.of_nat (total_orders st)
    /\ today_orders st
       = List.length (filter (on_date "2024-01-15")
                        (map snd (order_files Samples.world_one_order)))
    /\ today_revenue st
       = sum_totals (filter (on_date "2024-01-15")
                       (map snd (order_files Samples.world_one_order)))
    /\ (today_orders st <= total_orders st)%nat.
Proof.
  apply (@statistics_add_up Samples.world_one_order "2024-01-15").
  apply served_create; [reflexivity | constructor].
Defined.

(** *** Fresh order numbers *)

Lemma counted_saved w o o0 p0 :
  counted w -> In (p0, o0) (order_files w) -> order_id o = order_id o0 ->
  counted (saved w o).
Proof.
  intros [H0 H] Hin Hid. split; [exact H0|].
  cbn [saved order_files counter_file]. intros p x Hx.
  apply In_setitem in Hx as [[-> ->]|Hx].
  - rewrite Hid. now apply (H p0 o0).
  - now apply (H p x).
Qed.

Lemma counted_with_effects w evs : counted w -> counted (with_effects w evs).
Proof. intros H. exact H. Qed.

Lemma counted_bumped e w : counted w -> counted (bumped e w).
Proof.
  intros [H0 H]. unfold bumped. destruct (counter_io_ok e); [|now split].
  split; cbn [counter_file order_files get_default]; [lia|].
  intros p o Hin. destruct (H p o Hin) as [(n & Hn & Hid)|Hord];
    [left; exists n; split; [lia | assumption] | now right].
Qed.

Lemma counted_new e w o :
  counted w -> order_id o = next_id e w -> counted (saved (bumped e w) o).
Proof.
  intros Hc Hid. pose proof (counted_bumped e Hc) as [H0 H].
  split; [exact H0|]. cbn [saved order_files counter_file]. intros p x Hx.
  apply In_setitem in Hx as [[-> ->]|Hx]; [|now apply (H p x)].
  rewrite Hid. unfold next_id, bumped in *.
  destruct (counter_io_ok e).
  - left. cbn [counter_file get_default] in *. destruct Hc as [Hc0 _].
    eexists. split; [|reflexivity]. lia.
  - right. unfold PyStr.startswith. apply prefix_app.
Qed.

Lemma counted_lost w oid : counted w -> counted (lost w oid).
Proof.
  intros [H0 H]. split; [exact H0|]. cbn [lost order_files counter_file].
  intros p o Hin. apply In_without in Hin. now apply (H p o).
Qed.

Lemma served_counted w : served w -> counted w.
Proof.
  induction 1 as [| e uid cust cart method rate receipt w Ht Hs IH
                  | e oid ns admin nt w Hs IH
                  | e t oid od w Hs IH].
  - split; [cbn; lia | intros p o []].
  - destruct (create_order_cases e uid cust cart method rate receipt w)
      as [(ex & ->) | [(_ & _ & ->) | (d & tx & eff & _ & -> & _)]];
      cbn [snd].
    + now apply counted_bumped.
    + apply counted_lost. now apply counted_bumped.
    + apply counted_with_effects. now apply counted_new.
  - destruct (update_order_status_cases e oid ns admin nt w)
      as [-> | [(o & _ & _ & _ & ->) | (o & eff & Hl & ->)]]; cbn [snd];
      [assumption | now apply counted_lost |].
    apply counted_with_effects.
    apply counted_saved with (o0 := o) (p0 := _get_order_file_path oid);
      [assumption | now apply lookup_In | reflexivity].
  - destruct (process_hesabfa_invoice_cases e t oid od (served_filed Hs))
      as [-> | [(o & _ & ->) | (o & inv & entry & Hl & ->)]]; cbn [snd];
      [assumption | now apply counted_lost |].
    apply counted_saved with (o0 := o) (p0 := _get_order_file_path oid);
      [assumption | now apply lookup_In | reflexivity].
Qed.

Lemma startswith_ORD_has_O s :
  PyStr.startswith s "ORD" = true -> PyStr.has_char "O" s = true.
Proof.
  unfold PyStr.startswith. destruct s as [|c s]; [discriminate|].
  cbn [String.prefix PyStr.has_char].
  destruct (ascii_dec "O" c) as [<-|]; [reflexivity | discriminate].
Qed.

Lemma keys_setitem_absent {V} k (v : V) d :
  lookup k d = None -> keys (setitem k v d) = (keys d ++ [k])%list.
Proof.
  induction d as [|[k' v'] d IH]; simpl; [reflexivity|].
  destruct (String.eqb k k'); [discriminate|].
  intros H. simpl. f_equal. now apply IH.
Qed.

(** X18.  While the counter file works, an order number is never given
    twice: on every directory the server produced, a successful
    [create_order] writes a file that did not exist, so that the directory
    holds the files it held and that one more, and leaves every file that
    existed as it was. *)
Theorem counter_ids_are_fresh
    (e : env) (w : world) (uid : Z) (cust : customer)
    (cart : list cart_item) (method : string) (rate : num)
    (receipt : option string) (id : string)
    (Hs : served w)
    (Hc : counter_io_ok e = true)
    (Hok : fst (create_order e uid cust cart method rate receipt w) = Ok id) :
  lookup (_get_order_file_path id) (order_files w) = None
  /\ Permutation
       (keys (order_files
                (snd (create_order e uid cust cart method rate receipt w))))
       (_get_order_file_path id :: keys (order_files w))
  /\ forall p o,
       lookup p (order_files w) = Some o ->
       lookup p
         (order_files
            (snd (create_order e uid cust cart method rate receipt w)))
       = Some o.
Proof.
  pose proof (served_filed Hs) as Hf. pose proof (served_counted Hs) as Hcnt.
  destruct (create_order_cases e uid cust cart method rate receipt w)
    as [(ex & Heq) | [(_ & _ & Heq) | (d & t & eff & _ & Heq & _)]];
    rewrite Heq in *; [discriminate|discriminate|].
  cbn [fst snd] in *. injection Hok as <-.
  assert (Hfiles : order_files (bumped e w) = order_files w).
  { unfold bumped. now rewrite Hc. }
  assert (Hnone : lookup (_get_order_file_path (next_id e w)) (order_files w)
                  = None).
  { destruct (lookup (_get_order_file_path (next_id e w)) (order_files w))
      as [o|] eqn:Hl; [exfalso|reflexivity].
    destruct (@filed_lookup w (next_id e w) o Hf Hl) as (Hid & _).
    apply lookup_In in Hl. destruct Hcnt as [H0 Hcnt].
    unfold next_id in Hid. rewrite Hc in Hid.
    destruct (Hcnt _ _ Hl) as [(n & Hn & Hn')|Hord].
    - rewrite Hn' in Hid. apply format_05d_inj in Hid; lia.
    - apply startswith_ORD_has_O in Hord. rewrite Hid in Hord.
      now rewrite format_05d_no_O in Hord. }
  split; [exact Hnone|].
  cbn [with_effects saved order_files new_order order_id]. rewrite Hfiles.
  split.
  - rewrite keys_setitem_absent by exact Hnone.
    apply Permutation_sym, Permutation_cons_append.
  - intros p o Hp. rewrite lookup_setitem_other; [assumption|].
    intros <-. congruence.
Qed.

Lemma counter_ids_are_fresh_witness :
  lookup (_get_order_file_path "00002") (order_files Samples.world_one_order)
  = None
  /\ Permutation
       (keys (order_files
                (snd (create_order Samples.order_env 8 Samples.alice
                        [Samples.lamp] "cash" Samples.rate_030 None
                        Samples.world_one_order))))
       (_get_order_file_path "00002"
        :: keys (order_files Samples.world_one_order))
  /\ forall p o,
       lookup p (order_files Samples.world_one_order) = Some o ->
       lookup p
         (order_files
            (snd (create_order Samples.order_env 8 Samples.alice
                    [Samples.lamp] "cash" Samples.rate_030 None
                    Samples.world_one_order)))
       = Some o.
Proof.
  apply (@counter_ids_are_fresh Samples.order_env Samples.world_one_order
           8 Samples.alice [Samples.lamp] "cash" Samples.rate_030 None
           "00002").
  - apply served_create; [reflexivity | constructor].
  - reflexivity.
  - vm_compute. reflexivity.
Defined.

(** *** The invoicing task *)

(** X19.  The invoicing task never raises and works on the order as it is
    stored when the task runs; it leaves every other order file and the
    counter alone.  If the order can still be read afterwards, its status,
    prices, cart, customer and both dates are as before and at most one
    history entry has been appended, of status [hesabfa_created] or
    [hesabfa_error]; its invoice id has changed only when the accounting
    service created the invoice and the order file could be written.  The
    order can no longer be read only when a write of its file failed after
    the file had been opened, in the first attempt or in the one of the
    exception handler. *)
Theorem invoice_task_keeps_order
    (e : env) (t : task_env) (w : world) (oid : string) (od o : order)
    (Hs : served w)
    (Hl : lookup (_get_order_file_path oid) (order_files w) = Some o) :
  fst (_process_hesabfa_invoice e t oid od w) = Ok tt
  /\ match lookup (_get_order_file_path oid)
             (order_files (snd (_process_hesabfa_invoice e t oid od w))) with
     | Some o' =>
         status o' = status o
         /\ pricing_of o' = pricing_of o
         /\ cart_items o' = cart_items o
         /\ customer_of o' = customer_of o
         /\ user_id o' = user_id o
         /\ created_at o' = created_at o
         /\ updated_at o' = updated_at o
         /\ (o' = o
             \/ exists entry,
                  status_history o' = (status_history o ++ [entry])%list
                  /\ (h_status entry = "hesabfa_created"
                      \/ h_status entry = "hesabfa_error"))
         /\ (hesabfa_invoice_id o' <> hesabfa_invoice_id o ->
             save_ok e = true
             /\ exists number,
                  api_result t
                  = InvoiceCreated (hesabfa_invoice_id o') number)
     | None =>
         save_ok e = false
         /\ (save_truncates e = true
             \/ (retry_save_ok t = false /\ retry_save_truncates t = true))
     end
  /\ (save_ok e = true \/ (save_truncates e = false
                            /\ (retry_save_ok t = true
                                \/ retry_save_truncates t = false)) ->
      lookup (_get_order_file_path oid)
        (order_files (snd (_process_hesabfa_invoice e t oid od w)))
      <> None)
  /\ (forall other, other <> oid ->
        lookup (_get_order_file_path other)
          (order_files (snd (_process_hesabfa_invoice e t oid od w)))
        = lookup (_get_order_file_path other) (order_files w))
  /\ counter_file (snd (_process_hesabfa_invoice e t oid od w))
     = counter_file w.
Proof.
  pose proof (served_filed Hs) as Hf.
  destruct (@filed_lookup w oid o Hf Hl) as (Hid & _).
  assert (Hother : forall o1 other, order_id o1 = oid -> other <> oid ->
            lookup (_get_order_file_path other)
              (setitem (_get_order_file_path (order_id o1)) o1 (order_files w))
            = lookup (_get_order_file_path other) (order_files w)).
  { intros o1 other H1 Hne. apply lookup_setitem_other. rewrite H1.
    intros H. apply get_order_file_path_inj in H. congruence. }
  assert (Hsame : forall o1, order_id o1 = oid ->
            lookup (_get_order_file_path oid)
              (setitem (_get_order_file_path (order_id o1)) o1 (order_files w))
            = Some o1).
  { intros o1 H1. rewrite H1. apply lookup_setitem_same. }
  assert (Hgone : forall other, other <> oid ->
            lookup (_get_order_file_path other)
              (without (_get_order_file_path oid) (order_files w))
            = lookup (_get_order_file_path other) (order_files w)).
  { intros other Hne. apply lookup_without_other.
    intros H. apply get_order_file_path_inj in H. congruence. }
  rewrite (@process_hesabfa_invoice_eq e t oid od w o Hl Hid).
  destruct (save_ok e) eqn:Hsave.
  - destruct (api_result t) as [iid number|err] eqn:Hapi;
      cbn [fst snd saved order_files counter_file];
      (split; [reflexivity|]);
      (rewrite Hsame by exact Hid);
      (split; [|split; [discriminate|split; [|reflexivity]]]);
      try (intros other Hne; now apply Hother).
    + cbn [with_history status pricing_of cart_items customer_of user_id
           created_at updated_at status_history hesabfa_invoice_id].
      repeat (split; [reflexivity|]). split.
      * right. eexists. split; [reflexivity|]. now left.
      * intros _. split; [reflexivity|]. now exists number.
    + cbn [with_history status pricing_of cart_items customer_of user_id
           created_at updated_at status_history hesabfa_invoice_id].
      repeat (split; [reflexivity|]). split.
      * right. eexists. split; [reflexivity|]. now right.
      * intros H. congruence.
  - destruct (save_truncates e) eqn:Htr.
    { cbn [fst snd lost order_files counter_file].
      rewrite lookup_without_same.
      split; [reflexivity|]. split; [split; [reflexivity | now left]|].
      split; [intros [H|[H _]]; discriminate|].
      split; [exact Hgone | reflexivity]. }
    destruct (retry_save_ok t) eqn:Hretry.
    { cbn [fst snd saved order_files counter_file].
      split; [reflexivity|]. rewrite Hsame by exact Hid.
      split; [|split; [discriminate|split; [|reflexivity]]];
        try (intros other Hne; now apply Hother).
      cbn [with_history status pricing_of cart_items customer_of user_id
           created_at updated_at status_history hesabfa_invoice_id].
      repeat (split; [reflexivity|]). split.
      * right. eexists. split; [reflexivity|]. now right.
      * intros H. congruence. }
    destruct (retry_save_truncates t) eqn:Hrt.
    { cbn [fst snd lost order_files counter_file].
      rewrite lookup_without_same.
      split; [reflexivity|].
      split; [split; [reflexivity | right; now split]|].
      split; [intros [H|[_ [H|H]]]; discriminate|].
      split; [exact Hgone | reflexivity]. }
    cbn [fst snd]. split; [reflexivity|]. rewrite Hl.
    split.
    { repeat (split; [reflexivity|]). split; [now left | congruence]. }
    split; [discriminate|]. split; [reflexivity | reflexivity].
Qed.

Lemma invoice_task_keeps_order_witness :
  fst (_process_hesabfa_invoice Samples.order_env MoreSamples.invoice_created
         "00001" Samples.order_completed Samples.world_one_order) = Ok tt
  /\ match lookup (_get_order_file_path "00001")
             (order_files
                (snd (_process_hesabfa_invoice Samples.order_env
                        MoreSamples.invoice_created "00001"
                        Samples.order_completed Samples.world_one_order)))
     with
     | Some o' =>
         status o' = "pending"
         /\ pricing_of o'
            = {| subtotal := 4780000; discount_rate := Samples.rate_030;
                 discount := 1434000; tax := 301140; total := 3647140 |}
         /\ cart_items o' = [Samples.sofa]
         /\ customer_of o' = Samples.alice
         /\ user_id o' = 7
         /\ created_at o' = "2024-01-15T10:00:00.000001"
         /\ updated_at o' = "2024-01-15T10:00:00.000002"
         /\ (o' = new_order Samples.order_env "00001" 7 Samples.alice
                    [Samples.sofa] "cash" Samples.rate_030
                    4780000 1434000 301140 3647140
             \/ exists entry,
                  status_history o'
                  = ([ {| h_status := "pending";
                          h_timestamp := "2024-01-15T10:00:00.000003";
                          h_admin := None; h_note := NoteCreated |} ]
                     ++ [entry])%list
                  /\ (h_status entry = "hesabfa_created"
                      \/ h_status entry = "hesabfa_error"))
         /\ (hesabfa_invoice_id o' <> None ->
             save_ok Samples.order_env = true
             /\ exists number,
                  api_result MoreSamples.invoice_created
                  = InvoiceCreated (hesabfa_invoice_id o') number)
     | None =>
         save_ok Samples.order_env = false
         /\ (save_truncates Samples.order_env = true
             \/ (retry_save_ok MoreSamples.invoice_created = false
                 /\ retry_save_truncates MoreSamples.invoice_created = true))
     end
  /\ (save_ok Samples.order_env = true
      \/ (save_truncates Samples.order_env = false
          /\ (retry_save_ok MoreSamples.invoice_created = true
              \/ retry_save_truncates MoreSamples.invoice_created = false)) ->
      lookup (_get_order_file_path "00001")
        (order_files
           (snd (_process_hesabfa_invoice Samples.order_env
                   MoreSamples.invoice_created "00001"
                   Samples.order_completed Samples.world_one_order)))
      <> None)
  /\ (forall other, other <> "00001" ->
        lookup (_get_order_file_path other)
          (order_files
             (snd (_process_hesabfa_invoice Samples.order_env
                     MoreSamples.invoice_created "00001"
                     Samples.order_completed Samples.world_one_order)))
        = lookup (_get_order_file_path other)
            (order_files Samples.world_one_order))
  /\ counter_file
       (snd (_process_hesabfa_invoice Samples.order_env
               MoreSamples.invoice_created "00001" Samples.order_completed
               Samples.world_one_order))
     = Some 1.
Proof.
  apply (@invoice_task_keeps_order Samples.order_env
           MoreSamples.invoice_created Samples.world_one_order "00001"
           Samples.order_completed
           (new_order Samples.order_env "00001" 7 Samples.alice
              [Samples.sofa] "cash" Samples.rate_030
              4780000 1434000 301140 3647140)).
  - apply served_create; [reflexivity | constructor].
  - vm_compute. reflexivity.
Defined.

End QueryFacts.

(** ** The invoicing task and later confirmations *)

Module InvoiceFacts.
Import PyNum Pricing OrderServer OrderDesk OrderFacts ListingFacts OrderMore
  QueryFacts.

Lemma spawn_not_sent uid x evs :
  Forall (customer_send uid) evs -> ~ In (EvSpawnInvoice x) evs.
Proof.
  intros H Hin. rewrite Forall_forall in H. apply (H _ Hin).
Qed.

(** X20.  After the invoicing task has run on a stored order, a later
    confirmation of that order starts the task again exactly when the
    stored order still has no invoice id: after the service created an
    invoice, only when it gave none or an empty one; after a refusal,
    exactly when the order had none before. *)
Theorem invoice_requested_until_recorded
    (e1 e2 : env) (t : task_env) (w : world) (oid admin nt : string)
    (od o : order)
    (Hs : served w)
    (Hl : lookup (_get_order_file_path oid) (order_files w) = Some o)
    (Hs1 : save_ok e1 = true)
    (Hs2 : save_ok e2 = true) :
  exists effects,
    trace (snd (update_order_status e2 oid OrderStatus.CONFIRMED admin nt
                  (snd (_process_hesabfa_invoice e1 t oid od w))))
    = (trace (snd (_process_hesabfa_invoice e1 t oid od w)) ++ effects)%list
    /\ (In (EvSpawnInvoice oid) effects <->
        match api_result t with
        | InvoiceCreated (Some invoice_id) _ => invoice_id = ""
        | InvoiceCreated None _ => True
        | InvoiceRefused _ => no_invoice_id o = true
        end).
Proof.
  pose proof (served_filed Hs) as Hf.
  destruct (@filed_lookup w oid o Hf Hl) as (Hid & _).
  rewrite (@process_hesabfa_invoice_eq e1 t oid od w o Hl Hid), Hs1.
  assert (Hgen : forall o1, order_id o1 = oid ->
            exists effects,
              trace (snd (update_order_status e2 oid OrderStatus.CONFIRMED
                            admin nt (saved w o1)))
              = (trace (saved w o1) ++ effects)%list
              /\ (In (EvSpawnInvoice oid) effects <-> no_invoice_id o1 = true)).
  { intros o1 H1.
    assert (Hl1 : lookup (_get_order_file_path oid) (order_files (saved w o1))
                  = Some o1).
    { cbn [saved order_files]. rewrite H1. apply lookup_setitem_same. }
    destruct (@update_order_status_effects e2 oid OrderStatus.CONFIRMED admin
                nt (saved w o1) o1 Hl1 Hs2) as (sends & Heq & Hsends & _).
    rewrite Heq.
    exists (EvSaveOrder
              (_get_order_file_path
                 (order_id (with_status e2 o1 OrderStatus.CONFIRMED admin nt)))
              (with_status e2 o1 OrderStatus.CONFIRMED admin nt)
            :: (if String.eqb OrderStatus.CONFIRMED OrderStatus.CONFIRMED
                   && no_invoice_id o1
                then [EvSpawnInvoice oid] else []) ++ sends)%list.
    split.
    - cbn [snd with_effects trace]. unfold saved at 1. cbn [trace].
      now rewrite <- app_assoc.
    - rewrite String.eqb_refl. cbn [andb].
      pose proof (@spawn_not_sent (user_id o1) oid sends Hsends) as Hno.
      destruct (no_invoice_id o1); cbn [app In].
      + split; [reflexivity|]. intros _. right. now left.
      + split; [|discriminate]. intros [H|H]; [discriminate | contradiction]. }
  destruct (api_result t) as [[iid|] number|err]; cbn [snd].
  - destruct (Hgen (with_history o (Some iid) (hesabfa_entry e1 number)) Hid)
      as (eff & Htr & Hiff).
    exists eff. split; [exact Htr|]. rewrite Hiff.
    cbn [no_invoice_id with_history hesabfa_invoice_id].
    apply String.eqb_eq.
  - destruct (Hgen (with_history o None (hesabfa_entry e1 number)) Hid)
      as (eff & Htr & Hiff).
    exists eff. split; [exact Htr|]. rewrite Hiff.
    cbn [no_invoice_id with_history hesabfa_invoice_id]. tauto.
  - match goal with
    | |- context [saved w ?o1] =>
        destruct (Hgen o1 Hid) as (eff & Htr & Hiff)
    end.
    exists eff. split; [exact Htr|]. rewrite Hiff. reflexivity.
Qed.

Lemma invoice_requested_until_recorded_witness :
  exists effects,
    trace (snd (update_order_status Samples.offline_env "00001"
                  OrderStatus.CONFIRMED "admin" ""
                  (snd (_process_hesabfa_invoice Samples.order_env
                          MoreSamples.invoice_refused "00001"
                          Samples.order_completed Samples.world_one_order))))
    = (trace (snd (_process_hesabfa_invoice Samples.order_env
                     MoreSamples.invoice_refused "00001"
                     Samples.order_completed Samples.world_one_order))
       ++ effects)%list
    /\ (In (EvSpawnInvoice "00001") effects <-> true = true).
Proof.
  apply (@invoice_requested_until_recorded Samples.order_env
           Samples.offline_env MoreSamples.invoice_refused
           Samples.world_one_order "00001" "admin" ""
           Samples.order_completed
           (new_order Samples.order_env "00001" 7 Samples.alice
              [Samples.sofa] "cash" Samples.rate_030
              4780000 1434000 301140 3647140)).
  - apply served_create; [reflexivity | constructor].
  - vm_compute. reflexivity.
  - reflexivity.
  - reflexivity.
Defined.

End InvoiceFacts.

(** ** Button presses *)

Module HandlerFacts.
Import PyNum Pricing OrderServer OrderDesk Handlers OrderFacts ListingFacts
  OrderMore QueryFacts.

Lemma startswith_weaken a b : forall s,
  PyStr.startswith s (a ++ b) = true -> PyStr.startswith s a = true.
Proof.
  unfold PyStr.startswith.
  induction a as [|x a IH]; intros [|y s] H; try reflexivity.
  - discriminate.
  - cbn [String.append String.prefix] in *.
    destruct (ascii_dec x y); [now apply IH | discriminate].
Qed.

Lemma route_payment_confirmed rest :
  button_callback ("payment_confirmed_" ++ rest) = handle_payment_selection.
Proof. reflexivity. Qed.

Lemma route_contact_made rest :
  button_callback ("contact_made_" ++ rest) = handle_contact_made_from_group.
Proof. destruct rest; reflexivity. Qed.

Lemma route_remind_tomorrow rest :
  button_callback ("remind_tomorrow_" ++ rest)
  = handle_remind_tomorrow_from_group.
Proof. destruct rest; reflexivity. Qed.


(** X21.  Two kinds of buttons the bot shows never reach the handler
    written for them.  No callback data reaches the handler that records
    a payment: whatever starts with [payment_confirmed_] starts with
    [payment_] and is handed to the choice of a payment method, which comes
    first; so of the three buttons under a payment reminder, "payment
    made" goes to the choice of a payment method, while the two others
    reach their handlers.  And of the buttons under every message to the
    customer, "order status" matches no route, for every order id: the
    press is answered by the fixed message that the order is being
    followed up; the two others reach their handlers. *)
Theorem buttons_that_miss_their_handler :
  (forall data,
      button_callback data <> handle_payment_confirmation_from_group)
  /\ (forall reminder_info,
        map (map button_callback) (reminder_buttons reminder_info)
        = [ [handle_payment_selection];
            [handle_contact_made_from_group];
            [handle_remind_tomorrow_from_group] ])
  /\ (forall order_id,
        map (map button_callback) (_create_customer_support_buttons order_id)
        = [ [order_in_progress_message; handle_contact_support_request];
            [handle_faq_request] ]).
Proof.
  split; [|split].
  - intros data. unfold button_callback.
    destruct (lookup data handlers) as [h|] eqn:E.
    + apply lookup_In in E. unfold handlers in E.
      repeat (destruct E as [E|E]; [injection E as _ <-; discriminate|]).
      destruct E.
    + destruct (PyStr.startswith data "category_"); [discriminate|].
      destruct (PyStr.startswith data "subcategory_"); [discriminate|].
      destruct (PyStr.startswith data "alpha_"); [discriminate|].
      destruct (PyStr.startswith data "product_"); [discriminate|].
      destruct (PyStr.startswith data "size_selection_"); [discriminate|].
      destruct (PyStr.startswith data "size_"); [discriminate|].
      destruct (PyStr.startswith data "qty_"); [discriminate|].
      destruct (PyStr.startswith data "payment_") eqn:Hp; [discriminate|].
      destruct (PyStr.startswith data "order_status_"); [discriminate|].
      destruct (PyStr.startswith data "order_details_"); [discriminate|].
      destruct (PyStr.startswith data "order_"); [discriminate|].
      destruct (PyStr.startswith data "alphabet_search_"); [discriminate|].
      destruct (PyStr.startswith data "fabric_"); [discriminate|].
      destruct (String.eqb data "back_to_fabric_selection"); [discriminate|].
      destruct (PyStr.startswith data "payment_confirmed_") eqn:Hc.
      * apply (startswith_weaken "payment_" "confirmed_") in Hc. congruence.
      * destruct (PyStr.startswith data "contact_made_"); [discriminate|].
        destruct (PyStr.startswith data "remind_tomorrow_"); discriminate.
  - intros r. unfold reminder_buttons. cbn [map].
    now rewrite route_payment_confirmed, route_contact_made,
      route_remind_tomorrow.
  - intros order_id. reflexivity.
Qed.

(** *** The buttons of the support group *)









End HandlerFacts.

(** ** The shopping cart *)

Module CartFacts.
Import Pricing CartManager.

Lemma fold_count acc l :
  fold_left (fun a item => a + quantity item) l acc = acc + count_of l.
Proof.
  unfold count_of. revert acc.
  induction l as [|c l IH]; intros acc; cbn [fold_left]; [lia|].
  rewrite IH, (IH (0 + quantity c)). lia.
Qed.

Lemma count_of_cons c l : count_of (c :: l) = quantity c + count_of l.
Proof. unfold count_of at 1. cbn [fold_left]. rewrite fold_count. lia. Qed.

Lemma fold_total acc l :
  fold_left (fun a item => a + price item * quantity item) l acc
  = acc + total_of l.
Proof.
  unfold total_of. revert acc.
  induction l as [|c l IH]; intros acc; cbn [fold_left]; [lia|].
  rewrite IH, (IH (0 + price c * quantity c)). lia.
Qed.

Lemma total_of_cons c l :
  total_of (c :: l) = price c * quantity c + total_of l.
Proof. unfold total_of at 1. cbn [fold_left]. rewrite fold_total. lia. Qed.

Lemma same_line_key p s c : same_line p s c = true <-> line_key c = (p, s).
Proof.
  unfold same_line, line_key. rewrite andb_true_iff, !String.eqb_eq.
  split; [intros [-> ->]; reflexivity | intros H; now injection H].
Qed.

Lemma same_line_false p s c : same_line p s c = false <-> line_key c <> (p, s).
Proof.
  rewrite <- same_line_key. destruct (same_line p s c); split; congruence.
Qed.

(** *** Adding *)

Lemma add_item_found item l c :
  line_of (product_id item) (size item) l = Some c ->
  count_of (add_item item l) = count_of l + quantity item
  /\ total_of (add_item item l) = total_of l + price c * quantity item
  /\ map line_key (add_item item l) = map line_key l
  /\ line_of (product_id item) (size item) (add_item item l)
     = Some (with_quantity c (quantity c + quantity item)).
Proof.
  unfold line_of. induction l as [|x l IH]; cbn [find add_item]; [discriminate|].
  destruct (same_line (product_id item) (size item) x) eqn:E.
  - intros H. injection H as ->.
    rewrite !count_of_cons, !total_of_cons. cbn [find map with_quantity
      quantity price]. 
    assert (E' : same_line (product_id item) (size item)
                   (with_quantity c (quantity c + quantity item)) = true)
      by exact E.
    rewrite E'. repeat split; lia.
  - intros H. destruct (IH H) as (H1 & H2 & H3 & H4).
    rewrite !count_of_cons, !total_of_cons. cbn [find map].
    rewrite E, H1, H2, H3, H4. repeat split; lia.
Qed.

Lemma add_item_new item l :
  line_of (product_id item) (size item) l = None ->
  add_item item l = (l ++ [item])%list.
Proof.
  unfold line_of. induction l as [|x l IH]; cbn [find add_item]; [reflexivity|].
  destruct (same_line (product_id item) (size item) x); [discriminate|].
  intros H. cbn [app]. now rewrite IH.
Qed.

Lemma count_of_app l1 l2 : count_of (l1 ++ l2) = count_of l1 + count_of l2.
Proof.
  induction l1 as [|c l1 IH]; cbn [app]; [unfold count_of at 2; cbn; lia|].
  rewrite !count_of_cons, IH. lia.
Qed.

Lemma total_of_app l1 l2 : total_of (l1 ++ l2) = total_of l1 + total_of l2.
Proof.
  induction l1 as [|c l1 IH]; cbn [app]; [unfold total_of at 2; cbn; lia|].
  rewrite !total_of_cons, IH. lia.
Qed.

Lemma find_none_not_in p s l :
  find (same_line p s) l = None -> ~ In (p, s) (map line_key l).
Proof.
  induction l as [|x l IH]; cbn [find map In]; [tauto|].
  destruct (same_line p s x) eqn:E; [discriminate|].
  intros H [Hx|Hin]; [|now apply IH].
  apply same_line_false in E. congruence.
Qed.

Lemma add_item_distinct item l :
  distinct_lines l -> distinct_lines (add_item item l).
Proof.
  unfold distinct_lines. intros Hnd.
  destruct (line_of (product_id item) (size item) l) as [c|] eqn:E.
  - destruct (add_item_found item l E) as (_ & _ & -> & _). assumption.
  - rewrite (add_item_new item l E), map_app. cbn [map].
    apply NoDup_app; [assumption | repeat constructor; intros [] |].
    intros k Hk [<-|[]]. revert Hk. now apply find_none_not_in.
Qed.

Lemma add_to_cart_eq e uid item s :
  read_ok e = true -> write_ok e = true ->
  add_to_cart e uid item s
  = (true, setitem (_get_cart_file_path uid)
             (add_item item (cart_of uid s)) s).
Proof.
  intros Hr Hw. unfold add_to_cart, get_cart, save_cart, cart_of.
  rewrite Hw. destruct (lookup (_get_cart_file_path uid) s); [rewrite Hr|];
    reflexivity.
Qed.

Lemma get_cart_eq e uid s :
  read_ok e = true -> get_cart e uid s = (cart_of uid s, s).
Proof.
  intros Hr. unfold get_cart, cart_of.
  destruct (lookup (_get_cart_file_path uid) s); [rewrite Hr|]; reflexivity.
Qed.

Lemma get_cart_item_count_eq e uid s :
  read_ok e = true -> get_cart_item_count e uid s = (count_of (cart_of uid s), s).
Proof. intros Hr. unfold get_cart_item_count. now rewrite get_cart_eq. Qed.

Lemma get_cart_total_eq e uid s :
  read_ok e = true -> get_cart_total e uid s = (total_of (cart_of uid s), s).
Proof. intros Hr. unfold get_cart_total. now rewrite get_cart_eq. Qed.

Lemma cart_of_setitem uid l s :
  cart_of uid (setitem (_get_cart_file_path uid) l s) = l.
Proof. unfold cart_of. now rewrite lookup_setitem_same. Qed.

(** X23.  While the cart file can be read and written, [add_to_cart]
    answers [True] and the cart holds [quantity] more pieces.  A cart with
    a line of the same product and size keeps its lines, and that line
    keeps its own name and price (the price of the added item is not
    looked at) with the quantities added; otherwise the item becomes the
    last line.  A cart whose lines differ in product or size stays so. *)
Theorem add_to_cart_merges
    (e : env) (s : carts) (uid : Z) (item : cart_item)
    (Hr : read_ok e = true)
    (Hw : write_ok e = true) :
  fst (add_to_cart e uid item s) = true
  /\ fst (get_cart_item_count e uid (snd (add_to_cart e uid item s)))
     = fst (get_cart_item_count e uid s) + quantity item
  /\ match line_of (product_id item) (size item) (cart_of uid s) with
     | Some c =>
         line_of (product_id item) (size item)
           (cart_of uid (snd (add_to_cart e uid item s)))
         = Some (with_quantity c (quantity c + quantity item))
         /\ map line_key (cart_of uid (snd (add_to_cart e uid item s)))
            = map line_key (cart_of uid s)
         /\ fst (get_cart_total e uid (snd (add_to_cart e uid item s)))
            = fst (get_cart_total e uid s) + price c * quantity item
     | None =>
         cart_of uid (snd (add_to_cart e uid item s))
         = (cart_of uid s ++ [item])%list
     end
  /\ (distinct_lines (cart_of uid s) ->
      distinct_lines (cart_of uid (snd (add_to_cart e uid item s)))).
Proof.
  rewrite (@add_to_cart_eq e uid item s Hr Hw). cbn [fst snd].
  rewrite !(@get_cart_item_count_eq e uid _ Hr), !(@get_cart_total_eq e uid _ Hr).
  cbn [fst]. rewrite cart_of_setitem.
  split; [reflexivity|].
  destruct (line_of (product_id item) (size item) (cart_of uid s)) as [c|]
    eqn:E.
  - destruct (add_item_found item (cart_of uid s) E) as (H1 & H2 & H3 & H4).
    repeat split; try assumption. apply add_item_distinct.
  - rewrite (add_item_new item (cart_of uid s) E).
    split; [|split; [reflexivity|]].
    + rewrite count_of_app. unfold count_of at 2. cbn. lia.
    + rewrite <- (add_item_new item (cart_of uid s) E).
      apply add_item_distinct.
Qed.

Lemma add_to_cart_merges_witness :
  fst (add_to_cart MoreSamples.cart_env 7 Samples.sofa MoreSamples.carts_one)
  = true
  /\ fst (get_cart_item_count MoreSamples.cart_env 7
            (snd (add_to_cart MoreSamples.cart_env 7 Samples.sofa
                    MoreSamples.carts_one)))
     = fst (get_cart_item_count MoreSamples.cart_env 7 MoreSamples.carts_one) + 1
  /\ (line_of "P1" "L"
        (cart_of 7 (snd (add_to_cart MoreSamples.cart_env 7 Samples.sofa
                           MoreSamples.carts_one)))
      = Some (with_quantity Samples.sofa 2)
      /\ map line_key
           (cart_of 7 (snd (add_to_cart MoreSamples.cart_env 7 Samples.sofa
                              MoreSamples.carts_one)))
         = map line_key (cart_of 7 MoreSamples.carts_one)
      /\ fst (get_cart_total MoreSamples.cart_env 7
                (snd (add_to_cart MoreSamples.cart_env 7 Samples.sofa
                        MoreSamples.carts_one)))
         = fst (get_cart_total MoreSamples.cart_env 7 MoreSamples.carts_one)
           + 4780000 * 1)
  /\ (distinct_lines (cart_of 7 MoreSamples.carts_one) ->
      distinct_lines
        (cart_of 7 (snd (add_to_cart MoreSamples.cart_env 7 Samples.sofa
                           MoreSamples.carts_one)))).
Proof.
  apply (@add_to_cart_merges MoreSamples.cart_env MoreSamples.carts_one 7
           Samples.sofa); reflexivity.
Defined.

(** *** Removing and changing a quantity *)

Lemma find_filter_same p s l :
  find (same_line p s) (filter (fun item => negb (same_line p s item)) l)
  = None.
Proof.
  induction l as [|x l IH]; cbn [filter find]; [reflexivity|].
  destruct (same_line p s x) eqn:E; cbn [negb]; [assumption|].
  cbn [find]. now rewrite E.
Qed.

Lemma find_filter_other p s p' s' l :
  (p', s') <> (p, s) ->
  find (same_line p' s') (filter (fun item => negb (same_line p s item)) l)
  = find (same_line p' s') l.
Proof.
  intros Hne. induction l as [|x l IH]; cbn [filter find]; [reflexivity|].
  destruct (same_line p s x) eqn:E; cbn [negb].
  - destruct (same_line p' s' x) eqn:E'; [|assumption].
    apply same_line_key in E, E'. congruence.
  - cbn [find]. now rewrite IH.
Qed.

Lemma filter_absent p s l :
  find (same_line p s) l = None ->
  filter (fun item => negb (same_line p s item)) l = l.
Proof.
  induction l as [|x l IH]; cbn [filter find]; [reflexivity|].
  destruct (same_line p s x); [discriminate|]. cbn [negb].
  intros H. now rewrite IH.
Qed.

Lemma filter_distinct_count p s l c :
  distinct_lines l -> find (same_line p s) l = Some c ->
  count_of (filter (fun item => negb (same_line p s item)) l)
  = count_of l - quantity c.
Proof.
  unfold distinct_lines.
  induction l as [|x l IH]; cbn [filter find map]; [discriminate|].
  intros Hnd. inversion Hnd as [|? ? Hnotin Hnd']; subst.
  destruct (same_line p s x) eqn:E; cbn [negb].
  - intros H. injection H as ->. rewrite count_of_cons.
    rewrite filter_absent; [lia|].
    destruct (find (same_line p s) l) as [y|] eqn:Ey; [|reflexivity].
    exfalso. apply Hnotin. apply find_some in Ey as [Hin Hy].
    apply same_line_key in E, Hy. rewrite E, <- Hy. now apply in_map.
  - intros H. rewrite !count_of_cons, (IH Hnd' H). lia.
Qed.

Lemma filter_distinct {A B} (f : A -> B) (k : A -> bool) l :
  NoDup (map f l) -> NoDup (map f (filter k l)).
Proof.
  induction l as [|x l IH]; cbn [map filter]; [trivial|].
  intros Hnd. inversion Hnd as [|? ? Hnotin Hnd']; subst.
  destruct (k x); cbn [map]; [|now apply IH].
  constructor; [|now apply IH].
  intros Hin. apply Hnotin. apply in_map_iff in Hin as (y & Hy & Hin).
  apply filter_In in Hin as [Hin _]. rewrite <- Hy. now apply in_map.
Qed.

Lemma remove_from_cart_eq e uid p sz s :
  read_ok e = true -> write_ok e = true ->
  remove_from_cart e uid p sz s
  = (true, setitem (_get_cart_file_path uid)
             (filter (fun item => negb (same_line p sz item)) (cart_of uid s))
             s).
Proof.
  intros Hr Hw. unfold remove_from_cart, get_cart, save_cart, cart_of.
  rewrite Hw. destruct (lookup (_get_cart_file_path uid) s); [rewrite Hr|];
    reflexivity.
Qed.

(** X24.  While the cart file can be read and written, [remove_from_cart]
    answers [True] whether or not there was such a line; afterwards the
    cart has no line of that product and size, every other line is as it
    was, and a cart whose lines differ in product or size has lost just
    the pieces of the removed line. *)
Theorem remove_from_cart_removes
    (e : env) (s : carts) (uid : Z) (p sz : string)
    (Hr : read_ok e = true)
    (Hw : write_ok e = true) :
  fst (remove_from_cart e uid p sz s) = true
  /\ line_of p sz (cart_of uid (snd (remove_from_cart e uid p sz s))) = None
  /\ (forall p' sz', (p', sz') <> (p, sz) ->
        line_of p' sz' (cart_of uid (snd (remove_from_cart e uid p sz s)))
        = line_of p' sz' (cart_of uid s))
  /\ (distinct_lines (cart_of uid s) ->
      distinct_lines (cart_of uid (snd (remove_from_cart e uid p sz s)))
      /\ count_of (cart_of uid (snd (remove_from_cart e uid p sz s)))
         = count_of (cart_of uid s)
           - match line_of p sz (cart_of uid s) with
             | Some c => quantity c
             | None => 0
             end).
Proof.
  rewrite (@remove_from_cart_eq e uid p sz s Hr Hw). cbn [fst snd].
  rewrite cart_of_setitem. unfold line_of.
  split; [reflexivity|]. split; [apply find_filter_same|].
  split; [intros p' sz' Hne; now apply find_filter_other|].
  intros Hd. split; [now apply filter_distinct|].
  destruct (find (same_line p sz) (cart_of uid s)) as [c|] eqn:E.
  - now apply filter_distinct_count.
  - rewrite (filter_absent _ _ _ E). lia.
Qed.

Lemma remove_from_cart_removes_witness :
  fst (remove_from_cart MoreSamples.cart_env 7 "P1" "L" MoreSamples.carts_one)
  = true
  /\ line_of "P1" "L"
       (cart_of 7 (snd (remove_from_cart MoreSamples.cart_env 7 "P1" "L"
                          MoreSamples.carts_one))) = None
  /\ (forall p' sz', (p', sz') <> ("P1", "L") ->
        line_of p' sz'
          (cart_of 7 (snd (remove_from_cart MoreSamples.cart_env 7 "P1" "L"
                             MoreSamples.carts_one)))
        = line_of p' sz' (cart_of 7 MoreSamples.carts_one))
  /\ (distinct_lines (cart_of 7 MoreSamples.carts_one) ->
      distinct_lines
        (cart_of 7 (snd (remove_from_cart MoreSamples.cart_env 7 "P1" "L"
                           MoreSamples.carts_one)))
      /\ count_of
           (cart_of 7 (snd (remove_from_cart MoreSamples.cart_env 7 "P1" "L"
                              MoreSamples.carts_one)))
         = count_of (cart_of 7 MoreSamples.carts_one) - 1).
Proof.
  apply (@remove_from_cart_removes MoreSamples.cart_env MoreSamples.carts_one
           7 "P1" "L"); reflexivity.
Defined.

Lemma set_quantity_found p sz q l c :
  find (same_line p sz) l = Some c ->
  find (same_line p sz) (set_quantity p sz q l) = Some (with_quantity c q)
  /\ map line_key (set_quantity p sz q l) = map line_key l
  /\ count_of (set_quantity p sz q l) = count_of l - quantity c + q.
Proof.
  induction l as [|x l IH]; cbn [find set_quantity]; [discriminate|].
  destruct (same_line p sz x) eqn:E.
  - intros H. injection H as ->. cbn [find map].
    assert (E' : same_line p sz (with_quantity c q) = true) by exact E.
    rewrite E', !count_of_cons. cbn [with_quantity quantity].
    repeat split; lia.
  - intros H. destruct (IH H) as (H1 & H2 & H3). cbn [find map].
    rewrite E, H1, H2, !count_of_cons, H3. repeat split; lia.
Qed.

Lemma existsb_find p sz l :
  existsb (same_line p sz) l
  = match find (same_line p sz) l with Some _ => true | None => false end.
Proof.
  induction l as [|x l IH]; cbn [existsb find]; [reflexivity|].
  destruct (same_line p sz x); [reflexivity | exact IH].
Qed.

(** X25.  [update_quantity] answers [False] and writes nothing when the
    cart has no line of that product and size.  When it has one and the
    file can be read and written: a positive quantity replaces that of the
    first such line, the lines and their order being kept; a quantity of
    zero or less removes every such line, as [remove_from_cart] does. *)
Theorem update_quantity_sets
    (e : env) (s : carts) (uid : Z) (p sz : string) (q : Z)
    (Hr : read_ok e = true)
    (Hw : write_ok e = true) :
  match line_of p sz (cart_of uid s) with
  | None => update_quantity e uid p sz q s = (false, s)
  | Some c =>
      fst (update_quantity e uid p sz q s) = true
      /\ if q <=? 0
         then update_quantity e uid p sz q s = remove_from_cart e uid p sz s
         else line_of p sz (cart_of uid (snd (update_quantity e uid p sz q s)))
              = Some (with_quantity c q)
              /\ map line_key
                   (cart_of uid (snd (update_quantity e uid p sz q s)))
                 = map line_key (cart_of uid s)
              /\ count_of (cart_of uid (snd (update_quantity e uid p sz q s)))
                 = count_of (cart_of uid s) - quantity c + q
  end.
Proof.
  unfold update_quantity. rewrite (@get_cart_eq e uid s Hr), existsb_find.
  unfold line_of.
  destruct (find (same_line p sz) (cart_of uid s)) as [c|] eqn:E;
    [|reflexivity].
  destruct (q <=? 0).
  - split; [|reflexivity].
    now rewrite (@remove_from_cart_eq e uid p sz s Hr Hw).
  - unfold save_cart. rewrite Hw. cbn [fst snd]. rewrite cart_of_setitem.
    split; [reflexivity|]. now apply set_quantity_found.
Qed.

Lemma update_quantity_sets_witness :
  fst (update_quantity MoreSamples.cart_env 7 "P1" "L" 3 MoreSamples.carts_one)
  = true
  /\ line_of "P1" "L"
       (cart_of 7 (snd (update_quantity MoreSamples.cart_env 7 "P1" "L" 3
                          MoreSamples.carts_one)))
     = Some (with_quantity Samples.sofa 3)
  /\ map line_key
       (cart_of 7 (snd (update_quantity MoreSamples.cart_env 7 "P1" "L" 3
                          MoreSamples.carts_one)))
     = map line_key (cart_of 7 MoreSamples.carts_one)
  /\ count_of
       (cart_of 7 (snd (update_quantity MoreSamples.cart_env 7 "P1" "L" 3
                          MoreSamples.carts_one)))
     = count_of (cart_of 7 MoreSamples.carts_one) - 1 + 3.
Proof.
  apply (@update_quantity_sets MoreSamples.cart_env MoreSamples.carts_one
           7 "P1" "L" 3); reflexivity.
Defined.

(** *** Files that cannot be written or read *)

(** X26.  When the cart file cannot be written, every change of the cart
    that reaches the write ([add_to_cart], [remove_from_cart], [clear_cart],
    and [update_quantity] on a line the cart holds) answers [False].  If the
    write failed before the file was opened, the directory is as it was.  If
    it failed after [open(cart_file, 'w')], the file of that user is left
    empty or partial: the cart of the user is lost and reads as the empty
    cart, and every other file is as it was.  [update_quantity] on a line
    the cart does not hold answers [False] without writing. *)
Theorem cart_write_failure_answers_false
    (e : env) (s : carts) (uid : Z) (item : cart_item) (p sz : string) (q : Z)
    (Hw : write_ok e = false) :
  add_to_cart e uid item s
  = (false, if write_truncates e
            then without (_get_cart_file_path uid) s else s)
  /\ remove_from_cart e uid p sz s
     = (false, if write_truncates e
               then without (_get_cart_file_path uid) s else s)
  /\ update_quantity e uid p sz q s
     = (false, if existsb (same_line p sz) (fst (get_cart e uid s))
                  && write_truncates e
               then without (_get_cart_file_path uid) s else s)
  /\ clear_cart e uid s
     = (false, if write_truncates e
               then without (_get_cart_file_path uid) s else s)
  /\ fst (get_cart e uid (without (_get_cart_file_path uid) s)) = []
  /\ forall path, path <> _get_cart_file_path uid ->
       lookup path (without (_get_cart_file_path uid) s) = lookup path s.
Proof.
  assert (Hsave : forall l,
            save_cart e uid l s
            = (false, if write_truncates e
                      then without (_get_cart_file_path uid) s else s)).
  { intros l. unfold save_cart. rewrite Hw.
    now destruct (write_truncates e). }
  assert (Hget : get_cart e uid s = (fst (get_cart e uid s), s)).
  { unfold get_cart. now destruct (lookup (_get_cart_file_path uid) s). }
  assert (Hrem : remove_from_cart e uid p sz s
                 = (false, if write_truncates e
                           then without (_get_cart_file_path uid) s else s)).
  { unfold remove_from_cart. rewrite Hget. apply Hsave. }
  split; [unfold add_to_cart; rewrite Hget; apply Hsave|].
  split; [exact Hrem|].
  split.
  { unfold update_quantity. rewrite Hget. cbn [fst].
    destruct (existsb (same_line p sz) (fst (get_cart e uid s)));
      cbn [andb]; [|reflexivity].
    destruct (q <=? 0); [exact Hrem | apply Hsave]. }
  split; [apply Hsave|].
  split.
  - unfold get_cart. now rewrite lookup_without_same.
  - intros path Hne. apply lookup_without_other. congruence.
Qed.

Lemma cart_write_failure_answers_false_witness :
  add_to_cart MoreSamples.cart_diskfull_env 7 Samples.lamp
    MoreSamples.carts_one
  = (false, [])
  /\ remove_from_cart MoreSamples.cart_diskfull_env 7 "P1" "L"
       MoreSamples.carts_one
     = (false, [])
  /\ update_quantity MoreSamples.cart_diskfull_env 7 "P1" "L" 3
       MoreSamples.carts_one
     = (false, [])
  /\ clear_cart MoreSamples.cart_diskfull_env 7 MoreSamples.carts_one
     = (false, [])
  /\ fst (get_cart MoreSamples.cart_diskfull_env 7
            (without (_get_cart_file_path 7) MoreSamples.carts_one)) = []
  /\ forall path, path <> _get_cart_file_path 7 ->
       lookup path (without (_get_cart_file_path 7) MoreSamples.carts_one)
       = lookup path MoreSamples.carts_one.
Proof.
  apply (@cart_write_failure_answers_false MoreSamples.cart_diskfull_env
           MoreSamples.carts_one 7 Samples.lamp "P1" "L" 3).
  reflexivity.
Defined.

(** X27.  A cart file that exists but cannot be read counts as an empty
    cart, and the next change writes that back: [add_to_cart] leaves a cart
    of the added item alone, [remove_from_cart] an empty cart, whatever
    lines the file held; [update_quantity] finds no line and answers
    [False]. *)
Theorem unreadable_cart_is_replaced
    (e : env) (s : carts) (uid : Z) (item : cart_item) (p sz : string) (q : Z)
    (lines : list cart_item)
    (Hfile : lookup (_get_cart_file_path uid) s = Some lines)
    (Hr : read_ok e = false)
    (Hw : write_ok e = true) :
  (fst (add_to_cart e uid item s) = true
   /\ cart_of uid (snd (add_to_cart e uid item s)) = [item])
  /\ (fst (remove_from_cart e uid p sz s) = true
      /\ cart_of uid (snd (remove_from_cart e uid p sz s)) = [])
  /\ update_quantity e uid p sz q s = (false, s).
Proof.
  unfold add_to_cart, remove_from_cart, update_quantity, get_cart, save_cart.
  rewrite Hfile, Hr, Hw. cbn [fst snd add_item filter existsb].
  rewrite !cart_of_setitem. now repeat split.
Qed.

Lemma unreadable_cart_is_replaced_witness :
  (fst (add_to_cart MoreSamples.unreadable_env 7 Samples.lamp
          MoreSamples.carts_one) = true
   /\ cart_of 7 (snd (add_to_cart MoreSamples.unreadable_env 7 Samples.lamp
                        MoreSamples.carts_one)) = [Samples.lamp])
  /\ (fst (remove_from_cart MoreSamples.unreadable_env 7 "P2" "S"
             MoreSamples.carts_one) = true
      /\ cart_of 7 (snd (remove_from_cart MoreSamples.unreadable_env 7 "P2" "S"
                           MoreSamples.carts_one)) = [])
  /\ update_quantity MoreSamples.unreadable_env 7 "P1" "L" 3
       MoreSamples.carts_one
     = (false, MoreSamples.carts_one).
Proof.
  apply (@unreadable_cart_is_replaced MoreSamples.unreadable_env
           MoreSamples.carts_one 7 Samples.lamp "P2" "S" 3 [Samples.sofa]);
    reflexivity.
Defined.

End CartFacts.

(** ** What stays true of every stored order *)

Module InvariantFacts.
Import PyNum Pricing OrderServer OrderDesk OrderFacts ListingFacts OrderMore
  QueryFacts.

Lemma as_created_with_status e o ns admin nt :
  as_created o -> as_created (with_status e o ns admin nt).
Proof.
  intros (H1 & H2 & H3 & H4 & first & rest & Hh & Hf).
  repeat split; try assumption.
  exists first, (rest ++ [ {| h_status := ns; h_timestamp := clock e 1%nat;
                             h_admin := Some admin;
                             h_note := if String.eqb nt ""
                                       then NoteChanged (status o) ns
                                       else NoteGiven nt |} ])%list.
  cbn [with_status status_history]. rewrite Hh. split; [reflexivity | exact Hf].
Qed.

Lemma as_created_with_history o inv entry :
  as_created o -> as_created (with_history o inv entry).
Proof.
  intros (H1 & H2 & H3 & H4 & first & rest & Hh & Hf).
  repeat split; try assumption.
  exists first, (rest ++ [entry])%list.
  cbn [with_history status_history]. rewrite Hh. split; [reflexivity | exact Hf].
Qed.

Lemma all_saved (P : order -> Prop) w o :
  (forall p x, In (p, x) (order_files w) -> P x) -> P o ->
  forall p x, In (p, x) (order_files (saved w o)) -> P x.
Proof.
  intros H Ho p x Hin. cbn [saved order_files] in Hin.
  apply In_setitem in Hin as [[_ ->]|Hin]; [assumption | now apply (H p x)].
Qed.

Lemma all_lost (P : order -> Prop) w oid :
  (forall p x, In (p, x) (order_files w) -> P x) ->
  forall p x, In (p, x) (order_files (lost w oid)) -> P x.
Proof.
  intros H p x Hin. cbn [lost order_files] in Hin.
  apply In_without in Hin. now apply (H p x).
Qed.

Lemma served_as_created w :
  served w -> forall p o, In (p, o) (order_files w) -> as_created o.
Proof.
  induction 1 as [| e uid cust cart method rate receipt w Ht Hs IH
                  | e oid ns admin nt w Hs IH
                  | e t oid od w Hs IH].
  - intros p o [].
  - destruct (calculate_discount (calculate_subtotal cart) rate) as [d|ex]
      eqn:Hd.
    2:{ rewrite (@create_order_discount_raises e uid cust cart method rate
                   receipt w ex Hd). cbn [snd]. unfold bumped.
        destruct (counter_io_ok e); exact IH. }
    destruct (calculate_tax (calculate_subtotal cart - d)) as [tx|ex] eqn:Htx.
    2:{ rewrite (@create_order_tax_raises e uid cust cart method rate
                   receipt w d ex Hd Htx). cbn [snd]. unfold bumped.
        destruct (counter_io_ok e); exact IH. }
    destruct (save_ok e) eqn:Hsave.
    2:{ rewrite (@create_order_write_fails e uid cust cart method rate
                   receipt w d tx Hsave Hd Htx).
        destruct (save_truncates e); cbn [snd]; [apply all_lost|];
          unfold bumped; destruct (counter_io_ok e); exact IH. }
    destruct (@create_order_eq e uid cust cart method rate receipt w d tx
                Hsave Hd Htx) as (eff & -> & _).
    cbn [snd with_effects order_files].
    apply all_saved.
    + unfold bumped. destruct (counter_io_ok e); exact IH.
    + unfold as_created.
      cbn [new_order pricing_of subtotal discount_rate discount tax total
           cart_items status_history].
      repeat split; try assumption.
      eexists. eexists. split; [reflexivity|]. now repeat split.
  - destruct (update_order_status_cases e oid ns admin nt w)
      as [-> | [(o & _ & _ & _ & ->) | (o & eff & Hl & ->)]]; cbn [snd];
      [exact IH | now apply all_lost |].
    cbn [with_effects order_files]. apply all_saved; [exact IH|].
    apply as_created_with_status. apply lookup_In in Hl. now apply (IH _ _ Hl).
  - destruct (process_hesabfa_invoice_cases e t oid od (served_filed Hs))
      as [-> | [(o & _ & ->) | (o & inv & entry & Hl & ->)]]; cbn [snd];
      [exact IH | now apply all_lost |].
    apply all_saved; [exact IH|].
    apply as_created_with_history. apply lookup_In in Hl. now apply (IH _ _ Hl).
Qed.

(** X28.  On every directory reached from the empty one by creations,
    status updates and runs of the invoicing task, whether they succeeded or
    failed, every order file that can be read lies under the path of the id
    it holds, and the prices it holds are those the pricing manager computes
    from the cart and the rate it holds: the subtotal of the cart, the
    discount and the tax computed from them, their total; and its history
    starts with the entry a creation writes. *)
Theorem stored_orders_are_as_created
    (w : world) (p : string) (o : order)
    (Hs : served w)
    (Hl : lookup p (order_files w) = Some o) :
  p = _get_order_file_path (order_id o)
  /\ subtotal (pricing_of o) = calculate_subtotal (cart_items o)
  /\ calculate_discount (subtotal (pricing_of o)) (discount_rate (pricing_of o))
     = Ok (discount (pricing_of o))
  /\ calculate_tax (subtotal (pricing_of o) - discount (pricing_of o))
     = Ok (tax (pricing_of o))
  /\ total (pricing_of o)
     = subtotal (pricing_of o) - discount (pricing_of o) + tax (pricing_of o)
  /\ exists first rest,
       status_history o = first :: rest
       /\ h_status first = OrderStatus.PENDING
       /\ h_admin first = None
       /\ h_note first = NoteCreated.
Proof.
  apply lookup_In in Hl. split.
  - now apply (proj2 (served_filed Hs) p o Hl).
  - exact (served_as_created Hs p o Hl).
Qed.

Lemma stored_orders_are_as_created_witness :
  _get_order_file_path "00001" = _get_order_file_path "00001"
  /\ 4780000 = calculate_subtotal [Samples.sofa]
  /\ calculate_discount 4780000 Samples.rate_030 = Ok 1434000
  /\ calculate_tax (4780000 - 1434000) = Ok 301140
  /\ 3647140 = 4780000 - 1434000 + 301140
  /\ exists first rest,
       status_history
         (with_status Samples.offline_env
            (new_order Samples.order_env "00001" 7 Samples.alice
               [Samples.sofa] "cash" Samples.rate_030
               4780000 1434000 301140 3647140)
            "confirmed" "admin" "")
       = first :: rest
       /\ h_status first = OrderStatus.PENDING
       /\ h_admin first = None
       /\ h_note first = NoteCreated.
Proof.
  apply (@stored_orders_are_as_created
           (snd (update_order_status Samples.offline_env "00001" "confirmed"
                   "admin" "" Samples.world_one_order))
           (_get_order_file_path "00001")
           (with_status Samples.offline_env
              (new_order Samples.order_env "00001" 7 Samples.alice
                 [Samples.sofa] "cash" Samples.rate_030
                 4780000 1434000 301140 3647140)
              "confirmed" "admin" "")).
  - apply served_update. apply served_create; [reflexivity | constructor].
  - vm_compute. reflexivity.
Defined.

End InvariantFacts.
